(** * LoDoPaB dataset accessor: sharded random access and observation transform

    Shallow embedding of [dival/datasets/lodopab_dataset.py]
    (class [LoDoPaBDataset]: [__get_observation_trafo], [get_sample],
    [get_samples]) and the properties its specification states.

    Conventions of the embedding
    - Python [int] is [Z]; [//] and [%] are [Z.div] and [Z.modulo] (both
      round towards minus infinity, the remainder has the sign of the
      divisor, as in Python).  Every divisor that occurs is positive.
    - [math.ceil(a / b)] on small integers is the exact ceiling, [ceil_div].
    - array entries are real numbers ([R]); rounding of float32/float64 is
      not modelled.
    - a 2-D array of a sample is the list of its entries (row major), a
      batch is the list of its samples.
    - exceptions and the files that are opened are explicit: every
      operation returns the trace of events and either a value or the
      exception it raised. *)

From Stdlib Require Import ZArith List Bool Lia Ascii String.
From Stdlib Require Import Reals Lra.
Import ListNotations.
Local Open Scope Z_scope.

(** ** Python built-ins used by the accessor *)

Module Py.

(** [range(start, stop, step)]; the constructor refuses [step = 0], so a
    range object always has [r_step <> 0]. *)
Record range := Range { r_start : Z; r_stop : Z; r_step : Z }.

(** [slice(start, stop, step)], each field possibly [None]. *)
Record slice := Slice { s_start : option Z; s_stop : option Z;
                        s_step : option Z }.

(** [len(range_)], as CPython computes it. *)
Definition len (r : range) : Z :=
  if 0 <? r_step r then
    if r_start r <? r_stop r
    then (r_stop r - r_start r - 1) / r_step r + 1 else 0
  else if r_step r <? 0 then
    if r_stop r <? r_start r
    then (r_start r - r_stop r - 1) / (- r_step r) + 1 else 0
  else 0.

(** [range_[k]] for [k] in [-len, len); [None] stands for the
    [IndexError] of an index out of range. *)
Definition getitem (r : range) (k : Z) : option Z :=
  let n := len r in
  let k' := if k <? 0 then k + n else k in
  if (0 <=? k') && (k' <? n) then Some (r_start r + k' * r_step r)
  else None.

(** The value of [range_[-1]] on a range that is not empty. *)
Definition last (r : range) : Z := r_start r + (len r - 1) * r_step r.

(** [list(range_)] *)
Definition to_list (r : range) : list Z :=
  map (fun k => r_start r + Z.of_nat k * r_step r)
      (seq 0 (Z.to_nat (len r))).

(** One bound of [slice.indices(length)] for a positive step. *)
Definition adjust (x : option Z) (default length : Z) : Z :=
  match x with
  | None => default
  | Some x => if x <? 0 then Z.max 0 (x + length) else Z.min x length
  end.

(** The range built from [s.indices(length)] for a positive step: the
    positions a slice selects in a sequence of [length] elements. *)
Definition indices (s : slice) (length : Z) : range :=
  Range (adjust (s_start s) 0 length) (adjust (s_stop s) length length)
        (match s_step s with None => 1 | Some k => k end).

(** [math.ceil(a / b)] for [b > 0]. *)
Definition ceil_div (a b : Z) : Z := - ((- a) / b).

End Py.

(** ** Constants of the module *)

Definition NUM_SAMPLES_PER_FILE : Z := 128.

(** ** The slice computation of [get_samples] (lines 440-459)

    The loop over [range_files] is written with the shard size as a
    parameter [spf]; [get_samples] runs it with [NUM_SAMPLES_PER_FILE].
    The body runs only for [i] in [range_files], after [range_[-1]] was
    evaluated with success, so both ranges are not empty there and
    [range_[-1]], [range_files[-1]] are [Py.last]. *)

Section Slices.
Variable spf : Z.
Variable range_ : Py.range.
Variable range_files : Py.range.

Definition slice_start (i : Z) : Z :=
  if i =? Py.r_start range_files then Py.r_start range_ mod spf
  else (Py.r_start range_ - i * spf) mod Py.r_step range_.

Definition slice_stop (i : Z) : Z :=
  if i =? Py.last range_files then Py.last range_ mod spf + 1
  else
    let next_start :=
      (Py.r_start range_ - (i + 1) * spf) mod Py.r_step range_ in
    (next_start - Py.r_step range_) mod spf + 1.

(** One iteration appends [s] to [slices_files] and the destination
    slice to [slices_data]; the result lists the pairs in order. *)
Fixpoint compute_slices (files : list Z) (data_count : Z)
  : list (Py.slice * Py.slice) :=
  match files with
  | [] => []
  | i :: rest =>
      let start := slice_start i in
      let stop := slice_stop i in
      let s := Py.Slice (Some start) (Some stop) (Some (Py.r_step range_)) in
      let len_slice := Py.ceil_div (stop - start) (Py.r_step range_) in
      (s, Py.Slice (Some data_count) (Some (data_count + len_slice)) None)
        :: compute_slices rest (data_count + len_slice)
  end.
End Slices.


(** ** Exceptions, events and results *)

Inductive exn :=
| IndexError | TypeError | ValueError | OSError | ZeroDivisionError.

Inductive result (A : Type) := Ok (a : A) | Raise (e : exn).
Arguments Ok {A} a.
Arguments Raise {A} e.

Inductive field := observation | ground_truth.
Inductive part := train | validation | test.

(** [ev_open f p i]: the file ['{f}_{p}_{i:03d}.hdf5'] under [DATA_PATH] is
    opened for reading.  [ev_new f]: a new output buffer is created for
    field [f] ([self.space[k].zero()] or [np.empty(...)]). *)
Inductive event :=
| ev_open (f : field) (p : part) (file_index : Z)
| ev_new (f : field).

Definition io (A : Type) : Type := list event * result A.

Definition ret {A} (a : A) : io A := ([], Ok a).
Definition raise {A} (e : exn) : io A := ([], Raise e).
Definition lift {A} (r : result A) : io A := ([], r).
Definition bind {A B} (m : io A) (k : A -> io B) : io B :=
  match m with
  | (t, Ok a) => let (t', r) := k a in (t ++ t', r)
  | (t, Raise e) => (t, Raise e)
  end.

Notation "x <- m ;; k" := (bind m (fun x => k))
  (at level 61, m at next level, right associativity).

(** ** Arrays

    [arr D2 T] is a 2-D array of one sample, [arr D3 T] a stack of
    samples.  The trailing shape of an array is fixed by the field it
    holds ([self.shape]), so the shape of an array is that shape, with
    the number of samples in front for a stack. *)

Definition image := list R.

Inductive dim := D2 | D3.

Definition arr (d : dim) (T : Type) : Type :=
  match d with D2 => list T | D3 => list (list T) end.

Definition amap {d : dim} {A B : Type} (f : A -> B) : arr d A -> arr d B :=
  match d with D2 => map f | D3 => map (map f) end.

Definition map2 {A B C : Type} (f : A -> B -> C) (l : list A) (m : list B)
  : list C :=
  map (fun ab => f (fst ab) (snd ab)) (combine l m).

Definition amap2 {d : dim} {A B C : Type} (f : A -> B -> C)
  : arr d A -> arr d B -> arr d C :=
  match d with D2 => map2 f | D3 => map2 (map2 f) end.

(** [self.shape = ((NUM_ANGLES, NUM_DET_PIXELS), (362, 362))] *)
Definition NUM_ANGLES : Z := 1000.
Definition NUM_DET_PIXELS : Z := 513.
Definition shape (f : field) : list Z :=
  match f with
  | observation => [NUM_ANGLES; NUM_DET_PIXELS]
  | ground_truth => [362; 362]
  end.

Definition shape_of {d : dim} {T : Type} (f : field) : arr d T -> list Z :=
  match d with
  | D2 => fun _ => shape f
  | D3 => fun a => Z.of_nat (List.length a) :: shape f
  end.

Definition shape_eqb (s t : list Z) : bool :=
  if list_eq_dec Z.eq_dec s t then true else false.

(** [self.space[k].zero()] *)
Definition zero (f : field) : image :=
  repeat 0%R (Z.to_nat (fold_right Z.mul 1 (shape f))).

(** ** The shard files

    [st f p i] is the content of the data set ['data'] of file
    ['{f}_{p}_{i:03d}.hdf5'] (its rows, one per sample), or [None] when
    the file does not exist. *)

Definition store := field -> part -> Z -> option (list image).

Definition h5_open (st : store) (f : field) (p : part) (i : Z)
  : io (list image) :=
  ([ev_open f p i],
   match st f p i with Some rows => Ok rows | None => Raise OSError end).

Definition list_set {A} (l : list A) (k : nat) (v : A) : list A :=
  if (k <? List.length l)%nat then firstn k l ++ v :: skipn (S k) l else l.

(** [dataset.read_direct(dest, source_sel, dest_sel)]: the rows that
    [source_sel] selects in the file are written to the rows of [dest]
    that [dest_sel] selects.  h5py refuses a step below 1 ([ValueError])
    and selections of different sizes ([TypeError]).  Two selections
    without a row are refused as well: h5py divides the number of rows
    of the destination by that of the source to count the blocks to
    transfer, which raises [ZeroDivisionError]. *)
Definition read_direct (data dest : list image)
           (source_sel dest_sel : Py.slice) : result (list image) :=
  let src := Py.indices source_sel (Z.of_nat (List.length data)) in
  let dst := Py.indices dest_sel (Z.of_nat (List.length dest)) in
  if (Py.r_step src <? 1) || (Py.r_step dst <? 1) then Raise ValueError
  else if Py.len src =? Py.len dst then
    if Py.len src =? 0 then Raise ZeroDivisionError
    else
      Ok (fold_left (fun d kv => list_set d (Z.to_nat (fst kv)) (snd kv))
            (combine (Py.to_list dst)
               (map (fun k => nth (Z.to_nat k) data []) (Py.to_list src)))
            dest)
  else Raise TypeError.

(** ** The dataset object *)

Record LoDoPaBDataset := {
  post_log : bool;
  min_photon_count : option R;
  train_len : Z;
  validation_len : Z;
  test_len : Z
}.

(** [__init__], lines 135-151 (the spaces, the geometry and the
    interactive search for the files are left out). *)
Definition init (observation_model : string) (min_photon_count : option R)
  : result LoDoPaBDataset :=
  let mpc :=
    match min_photon_count with
    | None => None
    | Some m => if Rle_dec m 1 then Some m else Some 1%R
    end in
  if String.eqb observation_model "post-log" then
    Ok {| post_log := true; min_photon_count := mpc;
          train_len := 35820; validation_len := 3522; test_len := 3553 |}
  else if String.eqb observation_model "pre-log" then
    Ok {| post_log := false; min_photon_count := mpc;
          train_len := 35820; validation_len := 3522; test_len := 3553 |}
  else Raise ValueError.

(** Modelled from the spec: [Dataset.get_len] of the base class
    [dival.datasets.dataset.Dataset], which is not among the sources;
    the length of a part is the constant stored by [__init__]. *)
Definition get_len (self : LoDoPaBDataset) (p : part) : Z :=
  match p with
  | train => train_len self
  | validation => validation_len self
  | test => test_len self
  end.

Definition PHOTONS_PER_PIXEL : R := 4096.
Definition ORIG_MIN_PHOTON_COUNT : R := 0.1.

(** The [out] argument: each component is a bool or an array. *)
Inductive out_arg (T : Type) := OBool (b : bool) | OArr (a : T).
Arguments OBool {T} b.
Arguments OArr {T} a.

(** The [key] argument of [get_samples]: a slice, a range, or an object of
    another type. *)
Inductive key_arg := KSlice (s : Py.slice) | KRange (r : Py.range) | KOther.

Section Accessor.

(** [MU_MAX] is imported from [dival.util.constants], which is not among
    the sources: it is a parameter here. *)
Variable MU_MAX : R.

(** The content of the rows of a buffer that [np.empty] returns. *)
Variable uninit : image.

(** *** [__get_observation_trafo] (lines 196-224)

    The returned closure changes its argument in place; here it returns
    the new content, or the exception of the first array operation that
    fails.  [mask] is allocated with [shape] and used as [out=] of
    [np.greater_equal], which NumPy accepts only when the shape of
    [obs] is the shape of [mask]. *)

Definition greater_equal_out {d : dim} (obs : arr d R) (thres : R)
           (mask_shape : list Z) : result (arr d bool) :=
  if shape_eqb (shape_of observation obs) mask_shape
  then Ok (amap (fun v => if Rge_dec v thres then true else false) obs)
  else Raise ValueError.

(** [obs[mask] = c] *)
Definition set_masked {d : dim} (obs : arr d R) (mask : arr d bool) (c : R)
  : arr d R :=
  amap2 (fun v (m : bool) => if m then c else v) obs mask.

Definition thres0 : R :=
  (0.5 * (- ln (ORIG_MIN_PHOTON_COUNT / PHOTONS_PER_PIXEL)
          - ln (1 / PHOTONS_PER_PIXEL)) / MU_MAX)%R.

Definition get_observation_trafo (self : LoDoPaBDataset) (num_samples : Z)
           {d : dim} : arr d R -> result (arr d R) :=
  let orig_floor :=
    if post_log self then
      fun out => Ok out
    else
      fun obs =>
        let obs := amap (fun v => (v * MU_MAX)%R) obs in
        Ok (amap (fun v => exp (- v)) obs) in
  let other_floor (mpc : R) :=
    let shape_ := if num_samples =? 1 then shape observation
                  else num_samples :: shape observation in
    if post_log self then
      fun obs =>
        match greater_equal_out obs thres0 shape_ with
        | Raise e => Raise e
        | Ok mask =>
            Ok (set_masked obs mask
                  (- ln (mpc / PHOTONS_PER_PIXEL) / MU_MAX)%R)
        end
    else
      fun obs =>
        match greater_equal_out obs thres0 shape_ with
        | Raise e => Raise e
        | Ok mask =>
            let obs := amap (fun v => (v * MU_MAX)%R) obs in
            let obs := amap (fun v => exp (- v)) obs in
            Ok (set_masked obs mask (mpc / PHOTONS_PER_PIXEL)%R)
        end in
  match min_photon_count self with
  | None => orig_floor
  | Some mpc =>
      if Req_dec_T mpc ORIG_MIN_PHOTON_COUNT then orig_floor
      else other_floor mpc
  end.

(** *** [get_sample] (lines 335-370) *)

Definition get_sample (self : LoDoPaBDataset) (st : store) (index : Z)
           (part_ : part) (out : option (out_arg image * out_arg image))
  : io (option image * option image) :=
  let len_part := get_len self part_ in
  if (index >=? len_part) || (index <? - len_part) then raise IndexError
  else
    let index := if index <? 0 then index + len_part else index in
    match out with
    | None => raise TypeError
    | Some (out_observation, out_ground_truth) =>
        let file_index := index / NUM_SAMPLES_PER_FILE in
        let index_in_file := index mod NUM_SAMPLES_PER_FILE in
        obs <- match out_observation with
               | OBool true => ([ev_new observation],
                                Ok (Some (zero observation)))
               | OBool false => ret None
               | OArr a => ret (Some a)
               end ;;
        gt <- match out_ground_truth with
              | OBool true => ([ev_new ground_truth],
                               Ok (Some (zero ground_truth)))
              | OBool false => ret None
              | OArr a => ret (Some a)
              end ;;
        obs <- match obs with
               | None => ret None
               | Some obs =>
                   data <- h5_open st observation part_ file_index ;;
                   dest <- lift (read_direct data [obs]
                             (Py.Slice (Some index_in_file)
                                       (Some (index_in_file + 1)) None)
                             (Py.Slice (Some 0) (Some 1) None)) ;;
                   obs <- lift (get_observation_trafo self 1 (d := D2)
                                  (hd obs dest)) ;;
                   ret (Some obs)
               end ;;
        gt <- match gt with
              | None => ret None
              | Some gt =>
                  data <- h5_open st ground_truth part_ file_index ;;
                  dest <- lift (read_direct data [gt]
                            (Py.Slice (Some index_in_file)
                                      (Some (index_in_file + 1)) None)
                            (Py.Slice (Some 0) (Some 1) None)) ;;
                  ret (Some (hd gt dest))
              end ;;
        ret (obs, gt)
    end.

(** *** [get_samples] (lines 418-488) *)

(** The loop [for i, slc_f, slc_d in zip(range_files, slices_files,
    slices_data)] that reads one field. *)
Fixpoint read_files (st : store) (f : field) (part_ : part)
         (plan : list (Z * (Py.slice * Py.slice))) (a : list image)
  : io (list image) :=
  match plan with
  | [] => ret a
  | (i, (slc_f, slc_d)) :: rest =>
      data <- h5_open st f part_ i ;;
      a <- lift (read_direct data a slc_f slc_d) ;;
      read_files st f part_ rest a
  end.

(** [x or 1] for an optional integer. *)
Definition or_1 (x : option Z) : Z :=
  match x with
  | None => 1
  | Some k => if k =? 0 then 1 else k
  end.

Definition get_samples (self : LoDoPaBDataset) (st : store) (key : key_arg)
           (part_ : part)
           (out : option (out_arg (list image) * out_arg (list image)))
  : io (option (list image) * option (list image)) :=
  let len_part := get_len self part_ in
  range_ <- match key with
            | KSlice k =>
                let key_start :=
                  match Py.s_start k with
                  | None => 0
                  | Some a => if a >=? 0 then a else Z.max 0 (len_part + a)
                  end in
                let key_stop :=
                  match Py.s_stop k with
                  | None => len_part
                  | Some b => if b >=? 0 then b else Z.max 0 (len_part + b)
                  end in
                ret (Py.Range key_start key_stop (or_1 (Py.s_step k)))
            | KRange r => ret r
            | KOther => raise TypeError
            end ;;
  if Py.r_step range_ <? 0 then raise ValueError
  else
    match Py.getitem range_ (-1) with
    | None => raise IndexError
    | Some last =>
        if last >=? len_part then raise IndexError
        else
        match Py.getitem range_ 0 with
        | None => raise IndexError
        | Some first =>
          let range_files :=
            Py.Range (first / NUM_SAMPLES_PER_FILE)
                     (last / NUM_SAMPLES_PER_FILE + 1) 1 in
          match out with
          | None => raise TypeError
          | Some (out_observation, out_ground_truth) =>
              let slices :=
                compute_slices NUM_SAMPLES_PER_FILE range_ range_files
                               (Py.to_list range_files) 0 in
              let plan := combine (Py.to_list range_files) slices in
              obs_arr <-
                match out_observation with
                | OBool true =>
                    ([ev_new observation],
                     Ok (Some (repeat uninit (Z.to_nat (Py.len range_)))))
                | OBool false => ret None
                | OArr a => ret (Some a)
                end ;;
              gt_arr <-
                match out_ground_truth with
                | OBool true =>
                    ([ev_new ground_truth],
                     Ok (Some (repeat uninit (Z.to_nat (Py.len range_)))))
                | OBool false => ret None
                | OArr a => ret (Some a)
                end ;;
              obs_arr <-
                match obs_arr with
                | None => ret None
                | Some obs_arr =>
                    obs_arr <- read_files st observation part_ plan obs_arr ;;
                    obs_arr <- lift (get_observation_trafo self
                                       (Z.of_nat (List.length obs_arr))
                                       (d := D3) obs_arr) ;;
                    ret (Some obs_arr)
                end ;;
              gt_arr <-
                match gt_arr with
                | None => ret None
                | Some gt_arr =>
                    gt_arr <- read_files st ground_truth part_ plan gt_arr ;;
                    ret (Some gt_arr)
                end ;;
              ret (obs_arr, gt_arr)
          end
        end
    end.

End Accessor.

(** ** Notions used to state the properties *)

(** [l[s]] for a list and a slice with a positive step. *)
Definition getslice {A} (l : list A) (s : Py.slice) : list A :=
  flat_map (fun k => match nth_error l (Z.to_nat k) with
                     | Some x => [x]
                     | None => []
                     end)
           (Py.to_list (Py.indices s (Z.of_nat (List.length l)))).

(** [[data[k] for k in range_]] *)
Definition getrange {A} (data : list A) (r : Py.range) : list A :=
  flat_map (fun k => match nth_error data (Z.to_nat k) with
                     | Some x => [x]
                     | None => []
                     end)
           (Py.to_list r).

(** Shard [i] of a partition with content [data]: its rows [i * spf] to
    [(i + 1) * spf - 1], fewer in the last shard. *)
Definition shard {A} (spf : Z) (data : list A) (i : Z) : list A :=
  firstn (Z.to_nat spf) (skipn (Z.to_nat (i * spf)) data).

(** The slices of the files and the indices of the files, as
    [get_samples] computes them for a range that is not empty. *)
Definition range_files_of (spf : Z) (range_ : Py.range) : Py.range :=
  Py.Range (Py.r_start range_ / spf) (Py.last range_ / spf + 1) 1.

Definition slices_files (spf : Z) (range_ : Py.range) : list (Z * Py.slice) :=
  let range_files := range_files_of spf range_ in
  combine (Py.to_list range_files)
          (map fst (compute_slices spf range_ range_files
                                   (Py.to_list range_files) 0)).

(** The number of elements of [range_] below [i * spf], for [i] from the
    first file of the range to one past its last file. *)
Definition count_below (spf : Z) (range_ : Py.range) (i : Z) : Z :=
  if i <=? Py.r_start range_ / spf then 0
  else if Py.last range_ / spf <? i then Py.len range_
  else - ((Py.r_start range_ - i * spf) / Py.r_step range_).

(** The logical sample [k] of a field of a part, read off the files. *)
Definition sample_at (st : store) (f : field) (p : part) (k : Z) : image :=
  match st f p (k / NUM_SAMPLES_PER_FILE) with
  | Some rows => nth (Z.to_nat (k mod NUM_SAMPLES_PER_FILE)) rows []
  | None => []
  end.

(** All files of all parts exist and hold [NUM_SAMPLES_PER_FILE] rows,
    the last file of a part the remaining ones. *)
Definition store_ok (self : LoDoPaBDataset) (st : store) : Prop :=
  forall f p i, 0 <= i -> i * NUM_SAMPLES_PER_FILE < get_len self p ->
    exists rows, st f p i = Some rows /\
      Z.of_nat (List.length rows)
      = Z.min NUM_SAMPLES_PER_FILE (get_len self p - i * NUM_SAMPLES_PER_FILE).

(** The files that hold the samples [data f p k]. *)
Definition store_of (self : LoDoPaBDataset) (data : field -> part -> Z -> image)
  : store :=
  fun f p i =>
    if (0 <=? i) && (i * NUM_SAMPLES_PER_FILE <? get_len self p) then
      Some (map (fun j => data f p (i * NUM_SAMPLES_PER_FILE + Z.of_nat j))
                (seq 0 (Z.to_nat (Z.min NUM_SAMPLES_PER_FILE
                           (get_len self p - i * NUM_SAMPLES_PER_FILE)))))
    else None.

(** A range with a positive step and at least one element, all of them
    indices of the part. *)
Definition range_ok (len_part : Z) (r : Py.range) : Prop :=
  1 <= Py.r_step r /\ 0 <= Py.r_start r < Py.r_stop r /\ Py.last r < len_part.

(** The arithmetic progression of [n] terms from [a] with step [s]. *)
Definition prog (a s : Z) (n : nat) : list Z :=
  map (fun k => a + Z.of_nat k * s) (seq 0 n).

(** The two cases of the test on [self.min_photon_count] in
    [__get_observation_trafo]. *)
Definition orig_floor (self : LoDoPaBDataset) : Prop :=
  min_photon_count self = None \/
  min_photon_count self = Some ORIG_MIN_PHOTON_COUNT.

Definition other_floor (self : LoDoPaBDataset) (mpc : R) : Prop :=
  min_photon_count self = Some mpc /\ mpc <> ORIG_MIN_PHOTON_COUNT.

(** The buffer a component of [out] stands for in [get_samples], for a
    range of [n] elements; whether a buffer of the caller has room for
    them; and a buffer after the samples of a range were read into it. *)
Definition out_buffer (uninit : image) (o : out_arg (list image)) (n : Z)
  : option (list image) :=
  match o with
  | OBool true => Some (repeat uninit (Z.to_nat n))
  | OBool false => None
  | OArr a => Some a
  end.

Definition buffer_fits (o : out_arg (list image)) (n : Z) : Prop :=
  match o with
  | OArr a => n <= Z.of_nat (List.length a)
  | OBool _ => True
  end.

Definition filled (st : store) (f : field) (p : part) (r : Py.range)
           (buf : list image) : list image :=
  map (sample_at st f p) (Py.to_list r) ++ skipn (Z.to_nat (Py.len r)) buf.

(** The index a valid [index] of [get_sample] stands for. *)
Definition norm_index (len_part index : Z) : Z :=
  if index <? 0 then index + len_part else index.

(** The step of a key, when it has one. *)
Definition key_step (key : key_arg) : option Z :=
  match key with
  | KSlice s => Py.s_step s
  | KRange r => Some (Py.r_step r)
  | KOther => None
  end.

(** Example values: the dataset as [__init__] builds it, sample data with
    one entry per array, and a value for [MU_MAX]. *)
Definition lodopab (pl : bool) (mpc : option R) : LoDoPaBDataset :=
  {| post_log := pl; min_photon_count := mpc;
     train_len := 35820; validation_len := 3522; test_len := 3553 |}.

Definition data_example (f : field) (p : part) (k : Z) : image :=
  match f with
  | observation => [IZR k]
  | ground_truth => [(IZR k / 35820)%R]
  end.

Definition mu_max_example : R := 81.35858.

Definition store_example : store := store_of (lodopab true None) data_example.

(** ** Further operations of the dataset *)

(** [ceil(self.get_len(part) / NUM_SAMPLES_PER_FILE)] *)
Definition num_files (self : LoDoPaBDataset) (p : part) : Z :=
  Py.ceil_div (get_len self p) NUM_SAMPLES_PER_FILE.

(** [os.path.exists] on the path of a file. *)
Definition path_exists (st : store) (f : field) (p : part) (i : Z) : bool :=
  match st f p i with Some _ => true | None => false end.

(** [check_for_lodopab] (lines 186-194): the loop returns [False] at the
    first part whose first or last observation file is missing. *)
Definition check_for_lodopab (self : LoDoPaBDataset) (st : store) : bool :=
  forallb (fun part_ =>
             path_exists st observation part_ 0
             && path_exists st observation part_ (num_files self part_ - 1))
          [train; validation; test].

(** What a generator did when it was run to its end: the events, the
    items it yielded, and the exception that ended it, if one did. *)
Record generated (A : Type) := Generated {
  g_events : list event;
  g_items : list A;
  g_raised : option exn
}.
Arguments Generated {A} _ _ _.
Arguments g_events {A} _.
Arguments g_items {A} _.
Arguments g_raised {A} _.

(** [generator] (lines 244-260).  [yield_samples] is the inner loop over
    [zip(ground_truth_data, observation_data)], [generator_files] the
    loop over the files. *)
Fixpoint yield_samples (observation_trafo : image -> result image)
         (zipped : list (image * image))
  : list (image * image) * option exn :=
  match zipped with
  | [] => ([], None)
  | (gt_arr, obs_arr) :: rest =>
      match observation_trafo obs_arr with
      | Raise e => ([], Some e)
      | Ok obs_elem =>
          let (items, r) := yield_samples observation_trafo rest in
          ((obs_elem, gt_arr) :: items, r)
      end
  end.

Fixpoint generator_files (st : store) (part_ : part)
         (observation_trafo : image -> result image) (files : list Z)
  : generated (image * image) :=
  match files with
  | [] => Generated [] [] None
  | i :: rest =>
      match h5_open st ground_truth part_ i with
      | (t1, Raise e) => Generated t1 [] (Some e)
      | (t1, Ok ground_truth_data) =>
          match h5_open st observation part_ i with
          | (t2, Raise e) => Generated (t1 ++ t2) [] (Some e)
          | (t2, Ok observation_data) =>
              match yield_samples observation_trafo
                      (combine ground_truth_data observation_data) with
              | (items, Some e) => Generated (t1 ++ t2) items (Some e)
              | (items, None) =>
                  let g := generator_files st part_ observation_trafo rest in
                  Generated (t1 ++ t2 ++ g_events g) (items ++ g_items g)
                            (g_raised g)
              end
          end
      end
  end.

Definition generator (MU_MAX : R) (self : LoDoPaBDataset) (st : store)
           (part_ : part) : generated (image * image) :=
  let num_files := num_files self part_ in
  let observation_trafo := get_observation_trafo MU_MAX self 1 (d := D2) in
  generator_files st part_ observation_trafo
                  (Py.to_list (Py.Range 0 num_files 1)).

(** The transformed observation of one sample ([get_sample] and
    [generator] never see the transform fail, see [trafo_single_ok]). *)
Definition trafo_single (MU_MAX : R) (self : LoDoPaBDataset) (obs : image)
  : image :=
  match get_observation_trafo MU_MAX self 1 (d := D2) obs with
  | Ok o => o
  | Raise _ => obs
  end.

(** The range that [get_samples] serves for a key (lines 419-430);
    [None] for a key of another type. *)
Definition key_range (len_part : Z) (key : key_arg) : option Py.range :=
  match key with
  | KSlice k =>
      let key_start :=
        match Py.s_start k with
        | None => 0
        | Some a => if a >=? 0 then a else Z.max 0 (len_part + a)
        end in
      let key_stop :=
        match Py.s_stop k with
        | None => len_part
        | Some b => if b >=? 0 then b else Z.max 0 (len_part + b)
        end in
      Some (Py.Range key_start key_stop (or_1 (Py.s_step k)))
  | KRange r => Some r
  | KOther => None
  end.

(** * Evaluation ([evaluation.py])

    Measures and reconstruction algorithms are objects of the caller:
    a measure is given by its [apply], which may fail, an algorithm by
    its [reconstruct].  The lists of measure values are objects that
    several rows of a result table can share, so they live in a heap
    and a table holds references to them. *)

Module Eval.

Inductive error := ValueError | IndexError | AttributeError.

Inductive outcome (A : Type) := Done (a : A) | Fail (e : error).
Arguments Done {A} a.
Arguments Fail {A} e.

(** [l[i]] for a list and an integer: a negative index counts from the
    end, [None] stands for the [IndexError]. *)
Definition getitem {A} (l : list A) (i : Z) : option A :=
  let n := Z.of_nat (List.length l) in
  let i' := if i <? 0 then i + n else i in
  if (0 <=? i') && (i' <? n) then nth_error l (Z.to_nat i') else None.

(** The heap of the lists of measure values. *)
Definition heap := list (list R).

Definition new_list (h : heap) : nat * heap := (List.length h, h ++ [[]]).

Definition row (h : heap) (l : nat) : list R := nth l h [].

(** [the list at l].append(v) *)
Definition row_append (h : heap) (l : nat) (v : R) : heap :=
  if (l <? List.length h)%nat
  then firstn l h ++ (row h l ++ [v]) :: skipn (S l) h
  else h.

Section Tables.
Variable Data : Type.

(** [TestData]; the prefix [td_] tells its names from those of a
    measure. *)
Record TestData := {
  observation : Data;
  ground_truth : option Data;
  td_short_name : string;
  td_name : string;
  td_description : string
}.

(** A subclass of [Measure]. *)
Record Measure := {
  measure_type : option string;
  short_name : string;
  name : string;
  description : string;
  apply : option Data -> option Data -> outcome R
}.

Record Reconstructor := { reconstruct : Data -> Data }.

(** A task: the dictionary with the keys ['test_data'],
    ['reconstructor'] and ['measures']. *)
Record Task := {
  task_test_data : TestData;
  task_reconstructor : Reconstructor;
  task_measures : list Measure
}.

Record EvaluationTaskTable := {
  table_name : string;
  tasks : list Task
}.

(** [EvaluationTaskTable.__init__]: [tasks or []]. *)
Definition task_table_init (name_ : string) (tasks_ : option (list Task))
  : EvaluationTaskTable :=
  {| table_name := name_;
     tasks := match tasks_ with None => [] | Some l => l end |}.

(** [append] (lines 131-137) *)
Definition append (self : EvaluationTaskTable) (test_data_ : TestData)
           (reconstructor_ : Reconstructor) (measures : option (list Measure))
  : EvaluationTaskTable :=
  let measures := match measures with None => [] | Some l => l end in
  {| table_name := table_name self;
     tasks := tasks self
              ++ [{| task_test_data := test_data_;
                     task_reconstructor := reconstructor_;
                     task_measures := measures |}] |}.

(** [append_all_combinations] (lines 139-144) *)
Definition append_all_combinations (self : EvaluationTaskTable)
           (test_data_ : list TestData) (reconstructors : list Reconstructor)
           (measures : option (list Measure)) : EvaluationTaskTable :=
  fold_left (fun self test_data_ =>
               fold_left (fun self reconstructor_ =>
                            append self test_data_ reconstructor_ measures)
                         reconstructors self)
            test_data_ self.

(** An entry of [test_data] of a result table: a [TestData], or one of
    the empty lists that [__init__] puts there by default. *)
Inductive td_entry := TD (t : TestData) | EmptyList.

Record EvaluationResultTable := {
  reconstructions : list (option Data);
  test_data : list td_entry;
  measure_values : list nat
}.

(** [EvaluationResultTable.__init__] (lines 153-158).  [x or d] is [d]
    when [x] is [None] or an empty list; [[[]] * n] is one new empty
    list, referenced [n] times. *)
Definition result_table_init (h : heap)
           (reconstructions_ : option (list (option Data)))
           (test_data_ : option (list td_entry))
           (measure_values_ : option (list nat))
  : heap * EvaluationResultTable :=
  let recs := match reconstructions_ with None => [] | Some l => l end in
  let td := match test_data_ with
            | Some (t :: l) => t :: l
            | _ => repeat EmptyList (List.length recs)
            end in
  match measure_values_ with
  | Some (m :: l) =>
      (h, {| reconstructions := recs; test_data := td;
             measure_values := m :: l |})
  | _ =>
      let (loc, h') := new_list h in
      (h', {| reconstructions := recs; test_data := td;
              measure_values := repeat loc (List.length recs) |})
  end.

(** The loop [for measure in measures] that appends to the list at
    [loc]; an exception of [apply] ends it, what was appended stays. *)
Fixpoint append_values (h : heap) (loc : nat) (measures : list Measure)
         (reconstruction gt : option Data) : heap * outcome unit :=
  match measures with
  | [] => (h, Done tt)
  | measure :: rest =>
      match apply measure reconstruction gt with
      | Fail e => (h, Fail e)
      | Done v => append_values (row_append h loc v) loc rest reconstruction gt
      end
  end.

(** [run] (lines 114-129) *)
Fixpoint run_tasks (h : heap) (results : EvaluationResultTable)
         (save_reconstructions : bool) (tasks_ : list Task)
  : heap * outcome EvaluationResultTable :=
  match tasks_ with
  | [] => (h, Done results)
  | task :: rest =>
      let test_data_ := task_test_data task in
      let reconstruction :=
        reconstruct (task_reconstructor task) (observation test_data_) in
      let recs := reconstructions results
                  ++ [if save_reconstructions then Some reconstruction
                      else None] in
      let td := test_data results ++ [TD test_data_] in
      let (loc, h) := new_list h in
      match append_values h loc (task_measures task) (Some reconstruction)
                          (ground_truth test_data_) with
      | (h, Fail e) => (h, Fail e)
      | (h, Done _) =>
          run_tasks h {| reconstructions := recs; test_data := td;
                         measure_values := measure_values results ++ [loc] |}
                    save_reconstructions rest
      end
  end.

Definition run (h : heap) (self : EvaluationTaskTable)
           (save_reconstructions : bool)
  : heap * outcome EvaluationResultTable :=
  let (h, results) := result_table_init h None None None in
  run_tasks h results save_reconstructions (tasks self).

(** The [index] argument of [apply_measures]. *)
Inductive index_arg :=
| INone | IScalar (i : Z) | IList (l : list Z) | IOther.

(** [apply_measures] (lines 165-179).  In
    [self.measure_values[i].append(measure.apply(...))] the list is
    looked up before the measure is applied. *)
Fixpoint apply_measures_loop (h : heap) (self : EvaluationResultTable)
         (measures : list Measure) (indexes : list Z)
  : heap * outcome unit :=
  match indexes with
  | [] => (h, Done tt)
  | i :: rest =>
      match getitem (reconstructions self) i with
      | None => (h, Fail IndexError)
      | Some reconstruction =>
          match getitem (test_data self) i with
          | None => (h, Fail IndexError)
          | Some EmptyList => (h, Fail AttributeError)
          | Some (TD t) =>
              match measures with
              | [] => apply_measures_loop h self measures rest
              | _ :: _ =>
                  match getitem (measure_values self) i with
                  | None => (h, Fail IndexError)
                  | Some loc =>
                      match append_values h loc measures reconstruction
                                          (ground_truth t) with
                      | (h, Fail e) => (h, Fail e)
                      | (h, Done _) =>
                          apply_measures_loop h self measures rest
                      end
                  end
              end
          end
      end
  end.

Definition apply_measures (h : heap) (self : EvaluationResultTable)
           (measures : list Measure) (index : index_arg)
  : heap * outcome unit :=
  match index with
  | INone =>
      apply_measures_loop h self measures
        (Py.to_list (Py.Range 0 (Z.of_nat (List.length (reconstructions self)))
                              1))
  | IScalar i => apply_measures_loop h self measures [i]
  | IList l => apply_measures_loop h self measures l
  | IOther => (h, Fail ValueError)
  end.

End Tables.

Arguments observation {Data} _.
Arguments ground_truth {Data} _.
Arguments apply {Data} _ _ _.
Arguments reconstruct {Data} _ _.
Arguments task_test_data {Data} _.
Arguments task_reconstructor {Data} _.
Arguments task_measures {Data} _.
Arguments tasks {Data} _.
Arguments table_name {Data} _.
Arguments reconstructions {Data} _.
Arguments test_data {Data} _.
Arguments measure_values {Data} _.
Arguments TD {Data} t.
Arguments EmptyList {Data}.

(** [np.linalg.norm(x.flat)] of a real array: the 2-norm of its
    entries. *)
Definition norm (x : list R) : R :=
  sqrt (fold_right Rplus 0%R (map (fun v => (v * v)%R) x)).

(** [L2Measure] (lines 85-96), on one-dimensional arrays given by their
    entries.  The difference is taken entry by entry for arrays of the
    same length; an array of one entry is broadcast to the length of
    the other one; for other lengths NumPy raises [ValueError].  [None]
    has no [asarray]. *)
Definition L2Measure : Measure (list R) :=
  {| measure_type := Some "distance"%string;
     short_name := "l2"%string;
     name := "euclidean distance"%string;
     description :=
       "distance given by sqrt(sum((reconstruction-ground_truth)**2))"%string;
     apply := fun reconstruction gt =>
       match reconstruction, gt with
       | Some r, Some g =>
           if (List.length r =? List.length g)%nat
           then Done (norm (map2 Rminus r g))
           else
             match r, g with
             | [x], _ => Done (norm (map (fun y => (x - y)%R) g))
             | _, [y] => Done (norm (map (fun x => (x - y)%R) r))
             | _, _ => Fail ValueError
             end
       | _, _ => Fail AttributeError
       end |}.

(** [str.lower] on the letters A to Z. *)
Definition lower_ascii (c : Ascii.ascii) : Ascii.ascii :=
  let n := Ascii.nat_of_ascii c in
  if ((65 <=? n) && (n <=? 90))%nat then Ascii.ascii_of_nat (n + 32) else c.

Fixpoint lower (s : string) : string :=
  match s with
  | EmptyString => EmptyString
  | String c s => String (lower_ascii c) (lower s)
  end.

(** [measure_by_str] (lines 63-83): the dictionary has the one key
    ['l2']. *)
Definition measure_by_str (s : string) : outcome (Measure (list R)) :=
  let measure_classes := [L2Measure] in
  match find (fun m => String.eqb (short_name _ m) (lower s)) measure_classes
  with
  | Some measure_class => Done measure_class
  | None => Fail ValueError
  end.

End Eval.

(** The heap after the values [ws] were appended, one by one, to the
    list at [loc]. *)
Definition row_extend (h : Eval.heap) (loc : nat) (ws : list R) : Eval.heap :=
  fold_left (fun h v => Eval.row_append h loc v) ws h.

(** The value that each measure of a list returns for a reconstruction
    and a ground truth. *)
Definition measured {Data : Type} (measures : list (Eval.Measure Data))
           (reconstruction gt : option Data) (ws : list R) : Prop :=
  Forall2 (fun m w => Eval.apply m reconstruction gt = Eval.Done w)
          measures ws.

(** The values of the measures of a task, on the reconstruction of its
    observation. *)
Definition task_measured {Data : Type} (measures : list (Eval.Measure Data))
           (t : Eval.Task Data) (ws : list R) : Prop :=
  measured measures
    (Some (Eval.reconstruct (Eval.task_reconstructor t)
             (Eval.observation (Eval.task_test_data t))))
    (Eval.ground_truth (Eval.task_test_data t)) ws.

(** Example values: files of which only the first of each part exists,
    and a task table with one task, measured by the euclidean
    distance. *)
Definition store_first_file : store :=
  fun f p i => if i =? 0 then store_example f p i else None.

Definition test_data_example : Eval.TestData (list R) :=
  (Eval.Build_TestData (list R) [1%R] (Some [0%R])
     EmptyString EmptyString EmptyString).

Definition identity_reconstructor : Eval.Reconstructor (list R) :=
  (Eval.Build_Reconstructor (list R) (fun x => x)).

Definition table_example : Eval.EvaluationTaskTable (list R) :=
  (Eval.append (list R) (Eval.task_table_init (list R) EmptyString None)
     test_data_example identity_reconstructor (Some [Eval.L2Measure])).

Definition distance_example : R := (Eval.norm (map2 Rminus [1%R] [0%R])).

(** * Properties *)

(** ** Ranges, slices and ceilings *)

Lemma ceil_div_unique (x s c : Z) :
  0 < s -> s * (c - 1) < x <= s * c -> Py.ceil_div x s = c.
Proof.
  intros Hs Hx. unfold Py.ceil_div.
  assert (E : - x / s = - c).
  { symmetry. apply Z.div_unique with (r := s * c - x); lia. }
  lia.
Qed.

Lemma len_unique (a b s n : Z) :
  0 < s -> 0 <= n ->
  (n = 0 -> b <= a) ->
  (0 < n -> a + (n - 1) * s < b <= a + n * s) ->
  Py.len (Py.Range a b s) = n.
Proof.
  intros Hs Hn H0 H1. unfold Py.len. cbn [Py.r_step Py.r_start Py.r_stop].
  destruct (Z.ltb_spec 0 s) as [_|]; [|lia].
  destruct (Z.ltb_spec a b) as [Hab|Hab].
  - assert (0 < n) by (destruct (Z.eq_dec n 0); [specialize (H0 e)|]; lia).
    specialize (H1 H).
    assert (E : (b - a - 1) / s = n - 1).
    { symmetry. apply Z.div_unique with (r := b - a - 1 - s * (n - 1)); lia. }
    lia.
  - destruct (Z.eq_dec n 0); [lia|].
    assert (0 < n) by lia. specialize (H1 H). nia.
Qed.

Lemma len_bounds (r : Py.range) :
  0 < Py.r_step r -> Py.r_start r < Py.r_stop r ->
  0 < Py.len r /\
  Py.r_start r + (Py.len r - 1) * Py.r_step r < Py.r_stop r
    <= Py.r_start r + Py.len r * Py.r_step r.
Proof.
  intros Hs Hab. unfold Py.len.
  destruct (Z.ltb_spec 0 (Py.r_step r)) as [_|]; [|lia].
  destruct (Z.ltb_spec (Py.r_start r) (Py.r_stop r)) as [_|]; [|lia].
  pose proof (Z.div_mod (Py.r_stop r - Py.r_start r - 1) (Py.r_step r)
                ltac:(lia)) as E.
  pose proof (Z.mod_pos_bound (Py.r_stop r - Py.r_start r - 1) (Py.r_step r)
                Hs) as B.
  assert (0 <= (Py.r_stop r - Py.r_start r - 1) / Py.r_step r)
    by (apply Z.div_pos; lia).
  nia.
Qed.

Lemma len_nonneg (r : Py.range) : 0 <= Py.len r.
Proof.
  unfold Py.len.
  destruct (Z.ltb_spec 0 (Py.r_step r)).
  - destruct (Z.ltb_spec (Py.r_start r) (Py.r_stop r)); [|lia].
    assert (0 <= (Py.r_stop r - Py.r_start r - 1) / Py.r_step r)
      by (apply Z.div_pos; lia).
    lia.
  - destruct (Z.ltb_spec (Py.r_step r) 0); [|lia].
    destruct (Z.ltb_spec (Py.r_stop r) (Py.r_start r)); [|lia].
    assert (0 <= (Py.r_start r - Py.r_stop r - 1) / - Py.r_step r)
      by (apply Z.div_pos; lia).
    lia.
Qed.

Lemma getitem_last (r : Py.range) :
  0 < Py.len r -> Py.getitem r (-1) = Some (Py.last r).
Proof.
  intros H. unfold Py.getitem, Py.last. cbn [Z.ltb Z.compare].
  destruct (Z.leb_spec 0 (-1 + Py.len r)); [|lia].
  destruct (Z.ltb_spec (-1 + Py.len r) (Py.len r)); [|lia].
  cbn [andb]. f_equal. lia.
Qed.

Lemma getitem_first (r : Py.range) :
  0 < Py.len r -> Py.getitem r 0 = Some (Py.r_start r).
Proof.
  intros H. unfold Py.getitem. cbn [Z.ltb Z.compare Z.leb].
  destruct (Z.ltb_spec 0 (Py.len r)); [|lia].
  cbn [andb]. f_equal. lia.
Qed.

Lemma getitem_empty (r : Py.range) (k : Z) :
  Py.len r = 0 -> Py.getitem r k = None.
Proof.
  intros H. unfold Py.getitem. rewrite H.
  destruct (Z.ltb_spec k 0).
  - destruct (Z.leb_spec 0 (k + 0)); [lia|reflexivity].
  - destruct (Z.ltb_spec k 0); [lia|]. now rewrite andb_false_r.
Qed.

(** ** The slices of one file

    For a range with a positive step that starts at an index that is not
    negative and has an element, the slice of file [i] starts at the
    first element of the range in that file and spans the elements
    counted by [count_below] between [i] and [i + 1]. *)

Section Locator.
Variable spf : Z.
Variable range_ : Py.range.
Hypothesis Hspf : 0 < spf.
Hypothesis Hstep : 1 <= Py.r_step range_.
Hypothesis Hstart : 0 <= Py.r_start range_ < Py.r_stop range_.

Local Abbreviation start := (Py.r_start range_).
Local Abbreviation step := (Py.r_step range_).
Local Abbreviation n := (Py.len range_).
Local Abbreviation rf := (range_files_of spf range_).
Local Abbreviation f := (Py.r_start range_ / spf).
Local Abbreviation l := (Py.last range_ / spf).
Local Abbreviation c := (count_below spf range_).

Lemma range_len_pos : 0 < n.
Proof. apply len_bounds; lia. Qed.

Lemma last_ge_start : start <= Py.last range_.
Proof. pose proof range_len_pos. unfold Py.last. nia. Qed.

Lemma last_lt_stop : Py.last range_ < Py.r_stop range_.
Proof. unfold Py.last. apply len_bounds; lia. Qed.

Lemma first_le_last_file : 0 <= f <= l.
Proof.
  pose proof last_ge_start. split.
  - apply Z.div_pos; lia.
  - apply Z.div_le_mono; lia.
Qed.

Lemma range_files_len : Py.len rf = l - f + 1.
Proof.
  pose proof first_le_last_file.
  apply len_unique; lia.
Qed.

Lemma range_files_last : Py.last rf = l.
Proof.
  unfold Py.last at 1. rewrite range_files_len. unfold range_files_of.
  cbn [Py.r_start Py.r_step]. lia.
Qed.

Lemma count_below_first : c f = 0.
Proof. unfold count_below. now rewrite Z.leb_refl. Qed.

Lemma count_below_end : c (l + 1) = n.
Proof.
  pose proof first_le_last_file. unfold count_below.
  destruct (Z.leb_spec (l + 1) f); [lia|].
  destruct (Z.ltb_spec l (l + 1)); [reflexivity|lia].
Qed.

Lemma slice_span (i : Z) :
  f <= i <= l ->
  let a := slice_start spf range_ rf i in
  let b := slice_stop spf range_ rf i in
  let d := c (i + 1) - c i in
  0 <= a /\ i * spf + a = start + c i * step /\ 0 <= c i /\
  1 <= b /\ (i < l -> b <= spf) /\
  (i = l -> b = Py.last range_ mod spf + 1) /\
  ((1 <= d /\ b - a = step * (d - 1) + 1) \/
   (d = 0 /\ - step < b - a <= 0 /\ spf <= a)).
Proof.
  intros Hi. pose proof range_len_pos as Hn.
  pose proof last_ge_start as Hls.
  unfold slice_start, slice_stop, count_below.
  rewrite range_files_last. cbn [range_files_of Py.r_start].
  assert (Hlast : Py.last range_ = start + (n - 1) * step) by reflexivity.
  pose proof (Z.div_mod start spf ltac:(lia)) as Ef.
  pose proof (Z.mod_pos_bound start spf Hspf) as Bf.
  pose proof (Z.div_mod (Py.last range_) spf ltac:(lia)) as El.
  pose proof (Z.mod_pos_bound (Py.last range_) spf Hspf) as Bl.
  pose proof (Z.div_mod (start - i * spf) step ltac:(lia)) as Ei.
  pose proof (Z.mod_pos_bound (start - i * spf) step ltac:(lia)) as Bi.
  pose proof (Z.div_mod (start - (i + 1) * spf) step ltac:(lia)) as Ej.
  pose proof (Z.mod_pos_bound (start - (i + 1) * spf) step ltac:(lia)) as Bj.
  pose proof (Z.mod_pos_bound
                ((start - (i + 1) * spf) mod step - step) spf Hspf) as Bt.
  destruct (Z.eqb_spec i f) as [Hif|Hif];
    destruct (Z.eqb_spec i l) as [Hil|Hil];
    destruct (Z.leb_spec i f); try (exfalso; lia);
    destruct (Z.leb_spec (i + 1) f); try (exfalso; lia);
    destruct (Z.ltb_spec l i); try (exfalso; lia);
    destruct (Z.ltb_spec l (i + 1)); try (exfalso; lia).
  - (* the only file *)
    repeat split; lia.
  - (* first file, others follow *)
    set (ns := (start - (i + 1) * spf) mod step) in *.
    set (q := (start - (i + 1) * spf) / step) in *.
    assert (Hq : q <= -1) by nia.
    assert (Ht : (ns - step) mod spf = ns - step + spf).
    { symmetry. apply Z.mod_unique with (q := -1); [left; nia | lia]. }
    rewrite Ht. repeat split; lia.
  - (* last file, others before *)
    set (r := (start - i * spf) mod step) in *.
    set (q := (start - i * spf) / step) in *.
    assert (Hq : 0 <= q + n - 1) by nia.
    assert (0 <= - q) by nia.
    repeat split; lia.
  - (* a file in between *)
    set (r := (start - i * spf) mod step) in *.
    set (q := (start - i * spf) / step) in *.
    set (ns := (start - (i + 1) * spf) mod step) in *.
    set (q' := (start - (i + 1) * spf) / step) in *.
    assert (Hd : 0 <= - q' - - q) by nia.
    assert (0 <= - q) by nia.
    destruct (Z.eq_dec (- q' - - q) 0) as [Hz|Hz].
    + assert (r = spf + ns) by nia. repeat split; lia.
    + assert (Ht : (ns - step) mod spf = ns - step + spf).
      { symmetry. apply Z.mod_unique with (q := -1); [left; nia | lia]. }
      rewrite Ht. repeat split; lia.
Qed.

(** With a step of at most [spf] no file is skipped: every file from
    the first to the last one holds an element of the range. *)
Lemma file_not_skipped (i : Z) :
  step <= spf -> f <= i <= l -> 1 <= c (i + 1) - c i.
Proof.
  intros Hdense Hi.
  destruct (slice_span i Hi) as (_ & _ & _ & _ & _ & _ & Hd).
  destruct Hd as [(Hd & _) | (_ & _ & Ha)]; [exact Hd|].
  exfalso. revert Ha. unfold slice_start.
  pose proof (Z.mod_pos_bound start spf Hspf).
  pose proof (Z.mod_pos_bound (start - i * spf) step ltac:(lia)).
  destruct (i =? Py.r_start rf); lia.
Qed.
End Locator.

(** ** Progressions and the positions a slice selects *)

Lemma prog_cons (a s : Z) (n : nat) :
  prog a s (S n) = a :: prog (a + s) s n.
Proof.
  unfold prog. cbn [seq map]. f_equal; [cbn; lia|].
  rewrite <- seq_shift, map_map. apply map_ext. intros k.
  rewrite Nat2Z.inj_succ. ring.
Qed.

Lemma prog_app (a s : Z) (n m : nat) :
  prog a s (n + m) = prog a s n ++ prog (a + Z.of_nat n * s) s m.
Proof.
  revert a. induction n as [|n IH]; intros a.
  - change (Z.of_nat 0) with 0. now rewrite Z.mul_0_l, Z.add_0_r.
  - cbn [Nat.add]. rewrite !prog_cons, IH. cbn [app].
    replace (a + s + Z.of_nat n * s) with (a + Z.of_nat (S n) * s)
      by (rewrite Nat2Z.inj_succ; ring).
    reflexivity.
Qed.

Lemma prog_length (a s : Z) (n : nat) : List.length (prog a s n) = n.
Proof. unfold prog. now rewrite length_map, length_seq. Qed.

Lemma prog_map_add (a s b : Z) (n : nat) :
  map (fun o => b + o) (prog a s n) = prog (b + a) s n.
Proof. unfold prog. rewrite map_map. apply map_ext. intros k. lia. Qed.

Lemma prog_In (a s : Z) (n : nat) (x : Z) :
  In x (prog a s n) -> exists k, 0 <= k < Z.of_nat n /\ x = a + k * s.
Proof.
  unfold prog. rewrite in_map_iff. intros (k & <- & Hk).
  apply in_seq in Hk. exists (Z.of_nat k). split; lia.
Qed.

Lemma to_list_prog (r : Py.range) :
  Py.to_list r = prog (Py.r_start r) (Py.r_step r) (Z.to_nat (Py.len r)).
Proof. reflexivity. Qed.

Section Selection.
Variable spf : Z.
Variable range_ : Py.range.
Hypothesis Hspf : 0 < spf.
Hypothesis Hstep : 1 <= Py.r_step range_.
Hypothesis Hstart : 0 <= Py.r_start range_ < Py.r_stop range_.

Local Abbreviation start := (Py.r_start range_).
Local Abbreviation step := (Py.r_step range_).
Local Abbreviation rf := (range_files_of spf range_).
Local Abbreviation f := (Py.r_start range_ / spf).
Local Abbreviation l := (Py.last range_ / spf).
Local Abbreviation c := (count_below spf range_).

(** The slice of file [i], applied to a file with [L] rows. *)
Lemma file_slice_indices (i L : Z) :
  f <= i <= l ->
  (i < l -> L = spf) ->
  (i = l -> Py.last range_ mod spf + 1 <= L) ->
  let s := Py.Slice (Some (slice_start spf range_ rf i))
                    (Some (slice_stop spf range_ rf i)) (Some step) in
  let d := c (i + 1) - c i in
  0 <= d /\ 0 <= c i /\
  Py.ceil_div (slice_stop spf range_ rf i - slice_start spf range_ rf i) step
  = d /\
  Py.r_step (Py.indices s L) = step /\
  Py.len (Py.indices s L) = d /\
  (forall o, In o (Py.to_list (Py.indices s L)) -> 0 <= o < L) /\
  map (fun o => i * spf + o) (Py.to_list (Py.indices s L))
  = prog (start + c i * step) step (Z.to_nat d).
Proof.
  intros Hi HL1 HL2.
  destruct (slice_span spf range_ Hspf Hstep Hstart i Hi)
    as (Ha & Hpos & Hc & Hb & Hb1 & Hb2 & Hd).
  cbv zeta.
  set (a := slice_start spf range_ rf i) in *.
  set (b := slice_stop spf range_ rf i) in *.
  set (d := c (i + 1) - c i) in *.
  assert (HbL : b <= L).
  { destruct (Z.eq_dec i l) as [E|E]; [rewrite (Hb2 E); auto | ].
    rewrite HL1 by lia. apply Hb1. lia. }
  unfold Py.indices, Py.adjust. cbn [Py.s_start Py.s_stop Py.s_step Py.r_step].
  destruct (Z.ltb_spec a 0) as [|_]; [lia|].
  destruct (Z.ltb_spec b 0) as [|_]; [lia|].
  assert (Hceil : Py.ceil_div (b - a) step = d)
    by (apply ceil_div_unique; lia).
  assert (Hlen : Py.len (Py.Range (Z.min a L) (Z.min b L) step) = d)
    by (apply len_unique; lia).
  split; [lia|]. split; [lia|]. split; [exact Hceil|].
  split; [reflexivity|]. split; [exact Hlen|].
  rewrite to_list_prog, Hlen. cbn [Py.r_start Py.r_step].
  destruct Hd as [(Hd1 & Hspan) | (Hd0 & Hspan & HaL)].
  - assert (0 <= step * (d - 1)) by nia.
    split.
    + intros o H0. apply prog_In in H0. destruct H0 as (k & Hk & ->).
      rewrite Z.min_l by lia.
      assert (k * step <= (d - 1) * step) by nia. nia.
    + rewrite prog_map_add. f_equal. rewrite Z.min_l by lia. lia.
  - rewrite Hd0. split; [intros o []|reflexivity].
Qed.
End Selection.

(** ** Reading a range off the shards of a list *)

Lemma flat_map_in_ext {A B} (g h : A -> list B) (l : list A) :
  (forall x, In x l -> g x = h x) -> flat_map g l = flat_map h l.
Proof.
  induction l as [|x l IH]; intros H; [reflexivity|].
  cbn [flat_map]. rewrite (H x (or_introl eq_refl)), IH; [reflexivity|].
  intros y Hy. apply H. now right.
Qed.

Lemma flat_map_map {A B C} (h : A -> B) (g : B -> list C) (l : list A) :
  flat_map g (map h l) = flat_map (fun x => g (h x)) l.
Proof.
  induction l as [|x l IH]; [reflexivity|]. cbn [map flat_map]. now rewrite IH.
Qed.

Lemma shard_length {A} (spf : Z) (data : list A) (i : Z) :
  0 < spf -> 0 <= i -> i * spf <= Z.of_nat (List.length data) ->
  Z.of_nat (List.length (shard spf data i))
  = Z.min spf (Z.of_nat (List.length data) - i * spf).
Proof.
  intros Hspf Hi Hle. unfold shard.
  rewrite length_firstn, length_skipn.
  assert (0 <= i * spf) by nia. lia.
Qed.

Lemma shard_nth_error {A} (spf : Z) (data : list A) (i o : Z) :
  0 <= i * spf -> 0 <= o < spf ->
  nth_error (shard spf data i) (Z.to_nat o)
  = nth_error data (Z.to_nat (i * spf + o)).
Proof.
  intros Hi Ho. unfold shard. rewrite nth_error_firstn.
  destruct (Nat.ltb_spec (Z.to_nat o) (Z.to_nat spf)); [|lia].
  rewrite nth_error_skipn. f_equal. lia.
Qed.

Section Concatenation.
Variable spf : Z.
Variable range_ : Py.range.
Hypothesis Hspf : 0 < spf.
Hypothesis Hstep : 1 <= Py.r_step range_.
Hypothesis Hstart : 0 <= Py.r_start range_ < Py.r_stop range_.
Context {A : Type}.
Variable data : list A.
Hypothesis Hlast : Py.last range_ < Z.of_nat (List.length data).

Local Abbreviation start := (Py.r_start range_).
Local Abbreviation step := (Py.r_step range_).
Local Abbreviation n := (Py.len range_).
Local Abbreviation rf := (range_files_of spf range_).
Local Abbreviation f := (Py.r_start range_ / spf).
Local Abbreviation l := (Py.last range_ / spf).
Local Abbreviation c := (count_below spf range_).
Local Abbreviation item :=
  (fun k => match nth_error data (Z.to_nat k) with
            | Some x => [x]
            | None => []
            end).

Lemma file_selection (i : Z) :
  f <= i <= l ->
  getslice (shard spf data i)
    (Py.Slice (Some (slice_start spf range_ rf i))
              (Some (slice_stop spf range_ rf i)) (Some step))
  = flat_map item (prog (start + c i * step) step
                        (Z.to_nat (c (i + 1) - c i))).
Proof.
  intros Hi.
  pose proof (first_le_last_file spf range_ Hspf Hstep Hstart) as Hfl.
  pose proof (Z.div_mod (Py.last range_) spf ltac:(lia)) as El.
  pose proof (Z.mod_pos_bound (Py.last range_) spf Hspf) as Bl.
  assert (Hil : i * spf <= l * spf) by nia.
  assert (HL : Z.of_nat (List.length (shard spf data i))
               = Z.min spf (Z.of_nat (List.length data) - i * spf))
    by (apply shard_length; lia).
  destruct (file_slice_indices spf range_ Hspf Hstep Hstart i
              (Z.of_nat (List.length (shard spf data i))) Hi)
    as (_ & _ & _ & _ & _ & Hin & Hmap).
  { intros Hlt. rewrite HL. assert ((i + 1) * spf <= l * spf) by nia. lia. }
  { intros ->. rewrite HL. lia. }
  unfold getslice. rewrite <- Hmap, flat_map_map.
  apply flat_map_in_ext. intros o Ho. apply Hin in Ho.
  rewrite shard_nth_error; [reflexivity|nia|lia].
Qed.

Lemma files_selection (k : nat) : forall (i dc : Z),
  i + Z.of_nat k = l + 1 -> f <= i ->
  c i <= n /\
  flat_map (fun js => getslice (shard spf data (fst js)) (snd js))
    (combine (prog i 1 k)
       (map fst (compute_slices spf range_ rf (prog i 1 k) dc)))
  = flat_map item (prog (start + c i * step) step (Z.to_nat (n - c i))).
Proof.
  induction k as [|k IH]; intros i dc Hk Hi.
  - replace i with (l + 1) by lia.
    rewrite (count_below_end spf range_ Hspf Hstep Hstart).
    split; [lia|]. now rewrite Z.sub_diag.
  - rewrite prog_cons. cbn [compute_slices map combine flat_map fst snd].
    destruct (IH (i + 1) (dc + Py.ceil_div
                (slice_stop spf range_ rf i - slice_start spf range_ rf i)
                step) ltac:(lia) ltac:(lia)) as (Hc1 & IH').
    destruct (file_slice_indices spf range_ Hspf Hstep Hstart i spf
                ltac:(lia) ltac:(reflexivity))
      as (Hd & Hc0 & _).
    { pose proof (Z.mod_pos_bound (Py.last range_) spf Hspf). lia. }
    split; [lia|].
    rewrite IH', file_selection by lia.
    rewrite <- flat_map_app. f_equal.
    replace (Z.to_nat (n - c i))
      with (Z.to_nat (c (i + 1) - c i) + Z.to_nat (n - c (i + 1)))%nat by lia.
    rewrite prog_app. do 2 f_equal. rewrite Z2Nat.id by lia. ring.
Qed.

Lemma slices_files_getrange :
  flat_map (fun js => getslice (shard spf data (fst js)) (snd js))
           (slices_files spf range_)
  = getrange data range_.
Proof.
  pose proof (first_le_last_file spf range_ Hspf Hstep Hstart) as Hfl.
  unfold slices_files, getrange. cbv zeta.
  rewrite (to_list_prog rf), (range_files_len spf range_ Hspf Hstep Hstart).
  cbn [range_files_of Py.r_start Py.r_step].
  destruct (files_selection (Z.to_nat (l - f + 1)) f 0 ltac:(lia) ltac:(lia))
    as (_ & ->).
  rewrite (count_below_first spf range_), to_list_prog.
  do 2 f_equal; lia.
Qed.
End Concatenation.

(** ** Results of sequenced operations *)

Lemma snd_bind {A B} (m : io A) (k : A -> io B) :
  snd (bind m k)
  = match snd m with Ok a => snd (k a) | Raise e => Raise e end.
Proof.
  destruct m as [t [a|e]]; cbn [bind snd]; [|reflexivity].
  now destruct (k a).
Qed.

Lemma fst_bind {A B} (m : io A) (k : A -> io B) :
  fst (bind m k)
  = match snd m with Ok a => fst m ++ fst (k a) | Raise e => fst m end.
Proof.
  destruct m as [t [a|e]]; cbn [bind fst snd]; [|reflexivity].
  now destruct (k a).
Qed.

(** ** Writing a block of rows into a buffer *)

Lemma list_set_app {A} (pre : list A) (r : A) (rest : list A) (v : A) :
  list_set (pre ++ r :: rest) (List.length pre) v = pre ++ v :: rest.
Proof.
  unfold list_set. rewrite length_app. cbn [List.length].
  destruct (Nat.ltb_spec (List.length pre)
              (List.length pre + S (List.length rest))); [|lia].
  rewrite firstn_app, Nat.sub_diag, firstn_all. cbn [firstn].
  rewrite app_nil_r. f_equal. f_equal.
  rewrite skipn_app, skipn_all2 by lia.
  replace (S (List.length pre) - List.length pre)%nat with 1%nat by lia.
  reflexivity.
Qed.

Lemma scatter_block {A} (vals : list A) : forall (pre rest : list A),
  (List.length vals <= List.length rest)%nat ->
  fold_left (fun d kv => list_set d (Z.to_nat (fst kv)) (snd kv))
    (combine (prog (Z.of_nat (List.length pre)) 1 (List.length vals)) vals)
    (pre ++ rest)
  = pre ++ vals ++ skipn (List.length vals) rest.
Proof.
  induction vals as [|v vals IH]; intros pre rest Hlen; [reflexivity|].
  destruct rest as [|r rest]; [cbn in Hlen; lia|].
  cbn [List.length] in *. rewrite prog_cons.
  cbn [combine fold_left fst snd]. rewrite Nat2Z.id, list_set_app.
  replace (pre ++ v :: rest) with ((pre ++ [v]) ++ rest)
    by now rewrite <- app_assoc.
  replace (Z.of_nat (List.length pre) + 1)
    with (Z.of_nat (List.length (pre ++ [v])))
    by (rewrite length_app; cbn [List.length]; lia).
  rewrite IH by lia. now rewrite <- app_assoc.
Qed.

(** ** Reading the files of a range *)

Lemma spf_pos : 0 < NUM_SAMPLES_PER_FILE.
Proof. reflexivity. Qed.

Section Reading.
Variable self : LoDoPaBDataset.
Variable st : store.
Variable p : part.
Variable fld : field.
Variable range_ : Py.range.
Hypothesis Hst : store_ok self st.
Hypothesis Hok : range_ok (get_len self p) range_.

Local Abbreviation spf := NUM_SAMPLES_PER_FILE.
Local Abbreviation start := (Py.r_start range_).
Local Abbreviation step := (Py.r_step range_).
Local Abbreviation n := (Py.len range_).
Local Abbreviation rf := (range_files_of spf range_).
Local Abbreviation f := (Py.r_start range_ / spf).
Local Abbreviation l := (Py.last range_ / spf).
Local Abbreviation c := (count_below spf range_).

Lemma file_rows (i : Z) :
  f <= i <= l ->
  exists rows, st fld p i = Some rows /\
    (i < l -> Z.of_nat (List.length rows) = spf) /\
    (i = l -> Py.last range_ mod spf + 1 <= Z.of_nat (List.length rows)) /\
    (forall o, 0 <= o < Z.of_nat (List.length rows) ->
       nth (Z.to_nat o) rows [] = sample_at st fld p (i * spf + o)).
Proof.
  intros Hi. destruct Hok as (Hstep & Hstart & Hlast).
  pose proof spf_pos as Hspf.
  pose proof (first_le_last_file spf range_ Hspf Hstep Hstart) as Hfl.
  pose proof (Z.div_mod (Py.last range_) spf ltac:(lia)) as El.
  pose proof (Z.mod_pos_bound (Py.last range_) spf Hspf) as Bl.
  assert (Hil : i * spf <= l * spf) by nia.
  destruct (Hst fld p i ltac:(lia) ltac:(lia)) as (rows & Hrows & Hlen).
  exists rows. split; [exact Hrows|]. split; [|split].
  - intros Hlt. assert ((i + 1) * spf <= l * spf) by nia. lia.
  - intros ->. lia.
  - intros o Ho. unfold sample_at.
    assert (E1 : (i * spf + o) / spf = i).
    { symmetry. apply Z.div_unique with (r := o); lia. }
    assert (E2 : (i * spf + o) mod spf = o).
    { symmetry. apply Z.mod_unique with (q := i); lia. }
    now rewrite E1, E2, Hrows.
Qed.

(** Reading the slice of file [i] into the buffer: the rows of the range
    in that file are written behind the rows read so far; when the file
    holds no element of the range both selections are without a row and
    [read_direct] raises. *)
Lemma read_direct_file_cases (i : Z) (rows done rest : list image) :
  f <= i <= l ->
  st fld p i = Some rows ->
  Z.of_nat (List.length done) = c i ->
  c (i + 1) - c i <= Z.of_nat (List.length rest) ->
  read_direct rows (done ++ rest)
    (Py.Slice (Some (slice_start spf range_ rf i))
              (Some (slice_stop spf range_ rf i)) (Some step))
    (Py.Slice (Some (c i))
       (Some (c i + Py.ceil_div (slice_stop spf range_ rf i
                                 - slice_start spf range_ rf i) step))
       None)
  = if c (i + 1) - c i =? 0 then Raise ZeroDivisionError
    else
      Ok (done
          ++ map (sample_at st fld p)
                 (prog (start + c i * step) step
                       (Z.to_nat (c (i + 1) - c i)))
          ++ skipn (Z.to_nat (c (i + 1) - c i)) rest).
Proof.
  intros Hi Hrows Hdone Hrest. destruct Hok as (Hstep & Hstart & Hlast).
  pose proof spf_pos as Hspf.
  destruct (file_rows i Hi) as (rows' & Hrows' & HL1 & HL2 & Hnth).
  rewrite Hrows in Hrows'. injection Hrows' as <-.
  destruct (file_slice_indices spf range_ Hspf Hstep Hstart i
              (Z.of_nat (List.length rows)) Hi HL1 HL2)
    as (Hd & Hc & Hceil & Hsstep & Hslen & Hin & Hmap).
  set (d := c (i + 1) - c i) in *.
  unfold read_direct. rewrite Hceil, Hsstep, Hslen.
  set (src := Py.indices _ (Z.of_nat (List.length rows))) in *.
  assert (Hdst : Py.indices (Py.Slice (Some (c i)) (Some (c i + d)) None)
                   (Z.of_nat (List.length (done ++ rest)))
                 = Py.Range (c i) (c i + d) 1).
  { unfold Py.indices, Py.adjust. cbn [Py.s_start Py.s_stop Py.s_step].
    rewrite length_app.
    destruct (Z.ltb_spec (c i) 0); [lia|].
    destruct (Z.ltb_spec (c i + d) 0); [lia|].
    f_equal; lia. }
  rewrite Hdst. cbn [Py.r_step].
  assert (Hdlen : Py.len (Py.Range (c i) (c i + d) 1) = d)
    by (apply len_unique; lia).
  rewrite Hdlen, Z.eqb_refl.
  destruct (Z.ltb_spec step 1); [lia|]. change (1 <? 1) with false.
  cbn [orb]. destruct (Z.eqb_spec d 0); [reflexivity|].
  f_equal. rewrite to_list_prog, Hdlen. cbn [Py.r_start Py.r_step].
  assert (Hvals : map (fun k => nth (Z.to_nat k) rows []) (Py.to_list src)
                  = map (sample_at st fld p)
                        (prog (start + c i * step) step (Z.to_nat d))).
  { rewrite <- Hmap, map_map. apply map_ext_in. intros o Ho.
    apply Hnth. apply Hin, Ho. }
  rewrite Hvals.
  set (vals := map (sample_at st fld p) _).
  assert (Hvlen : List.length vals = Z.to_nat d)
    by (unfold vals; now rewrite length_map, prog_length).
  rewrite <- Hdone, <- Hvlen. apply scatter_block. lia.
Qed.

(** A file holds an element of the range exactly when the slice computed
    for it has its start before its stop. *)
Lemma slice_holds_element (i : Z) :
  f <= i <= l ->
  (slice_start spf range_ rf i < slice_stop spf range_ rf i
   <-> 1 <= c (i + 1) - c i) /\
  (slice_stop spf range_ rf i <= slice_start spf range_ rf i
   <-> c (i + 1) - c i = 0).
Proof.
  intros Hi. destruct Hok as (Hstep & Hstart & Hlast).
  destruct (slice_span spf range_ spf_pos Hstep Hstart i Hi)
    as (_ & _ & _ & _ & _ & _ & Hd).
  cbv zeta in Hd.
  destruct Hd as [(Hd & Hspan) | (Hd & Hspan & _)].
  - assert (0 <= Py.r_step range_ * (c (i + 1) - c i - 1)) by nia.
    split; split; intros; lia.
  - split; split; intros; lia.
Qed.

Lemma read_direct_file (i : Z) (rows done rest : list image) :
  f <= i <= l ->
  st fld p i = Some rows ->
  Z.of_nat (List.length done) = c i ->
  1 <= c (i + 1) - c i <= Z.of_nat (List.length rest) ->
  read_direct rows (done ++ rest)
    (Py.Slice (Some (slice_start spf range_ rf i))
              (Some (slice_stop spf range_ rf i)) (Some step))
    (Py.Slice (Some (c i))
       (Some (c i + Py.ceil_div (slice_stop spf range_ rf i
                                 - slice_start spf range_ rf i) step))
       None)
  = Ok (done
        ++ map (sample_at st fld p)
               (prog (start + c i * step) step (Z.to_nat (c (i + 1) - c i)))
        ++ skipn (Z.to_nat (c (i + 1) - c i)) rest).
Proof.
  intros Hi Hrows Hdone Hrest.
  rewrite read_direct_file_cases by (auto; lia).
  destruct (Z.eqb_spec (c (i + 1) - c i) 0); [lia|reflexivity].
Qed.
End Reading.

Section ReadingAll.
Variable self : LoDoPaBDataset.
Variable st : store.
Variable p : part.
Variable fld : field.
Variable range_ : Py.range.
Hypothesis Hst : store_ok self st.
Hypothesis Hok : range_ok (get_len self p) range_.

Local Abbreviation spf := NUM_SAMPLES_PER_FILE.
Local Abbreviation start := (Py.r_start range_).
Local Abbreviation step := (Py.r_step range_).
Local Abbreviation n := (Py.len range_).
Local Abbreviation rf := (range_files_of spf range_).
Local Abbreviation f := (Py.r_start range_ / spf).
Local Abbreviation l := (Py.last range_ / spf).
Local Abbreviation c := (count_below spf range_).

Lemma count_below_bounds (k : nat) : forall i,
  i + Z.of_nat k = l + 1 -> f <= i -> 0 <= c i <= n.
Proof.
  destruct Hok as (Hstep & Hstart & Hlast). pose proof spf_pos as Hspf.
  induction k as [|k IH]; intros i Hk Hi.
  - replace i with (l + 1) by lia.
    rewrite (count_below_end spf range_ Hspf Hstep Hstart).
    pose proof (range_len_pos range_ Hstep Hstart). lia.
  - destruct (file_slice_indices spf range_ Hspf Hstep Hstart i spf
                ltac:(lia) ltac:(reflexivity))
      as (Hd & Hc0 & _).
    { pose proof (Z.mod_pos_bound (Py.last range_) spf Hspf). lia. }
    specialize (IH (i + 1) ltac:(lia) ltac:(lia)). lia.
Qed.

(** The files from [i] on, when the files [i] to [i + k - 1] hold
    elements of the range and file [i + k] holds none: the loop reads
    the first [k] files and ends in the file [i + k]. *)
Lemma read_files_skipped (k : nat) :
  forall i (done rest : list image) (more : list Z),
    f <= i -> i + Z.of_nat k <= l ->
    (forall i', i <= i' < i + Z.of_nat k -> 1 <= c (i' + 1) - c i') ->
    c (i + Z.of_nat k + 1) - c (i + Z.of_nat k) = 0 ->
    Z.of_nat (List.length done) = c i ->
    n - c i <= Z.of_nat (List.length rest) ->
    read_files st fld p
      (combine (prog i 1 (S k) ++ more)
         (compute_slices spf range_ rf (prog i 1 (S k) ++ more) (c i)))
      (done ++ rest)
    = (map (ev_open fld p) (prog i 1 (S k)), Raise ZeroDivisionError).
Proof.
  pose proof Hok as (Hstep & Hstart & Hlast). pose proof spf_pos as Hspf.
  induction k as [|k IH]; intros i done rest more Hi Hk Hfull Hskip Hdone
    Hrest;
    rewrite prog_cons; cbn [app compute_slices combine read_files];
    destruct (file_rows self st p fld range_ Hst Hok i ltac:(lia))
      as (rows & Hrows & HL1 & HL2 & _);
    destruct (file_slice_indices spf range_ Hspf Hstep Hstart i
                (Z.of_nat (List.length rows)) ltac:(lia) HL1 HL2)
      as (Hd & Hc & Hceil & _);
    pose proof (count_below_bounds (Z.to_nat (l - i)) (i + 1) ltac:(lia)
                  ltac:(lia)) as Hc1;
    unfold h5_open; rewrite Hrows; cbn [bind].
  - change (Z.of_nat 0) with 0 in Hskip. rewrite Z.add_0_r in Hskip.
    rewrite (read_direct_file_cases self st p fld range_ Hst Hok i rows done
               rest) by (auto; lia).
    rewrite Hskip. reflexivity.
  - pose proof (Hfull i ltac:(lia)) as Hd1.
    set (d := c (i + 1) - c i) in *.
    rewrite (read_direct_file self st p fld range_ Hst Hok i rows done rest)
      by (auto; lia).
    fold d. cbn [lift bind]. rewrite Hceil.
    replace (c i + d) with (c (i + 1)) by (unfold d; lia).
    set (new := map (sample_at st fld p)
                    (prog (start + c i * step) step (Z.to_nat d))).
    assert (Hnew : List.length new = Z.to_nat d)
      by (unfold new; now rewrite length_map, prog_length).
    rewrite (app_assoc done new).
    rewrite (IH (i + 1) (done ++ new) (skipn (Z.to_nat d) rest) more);
      [ | lia | lia | intros i' Hi'; apply Hfull; lia
        | replace (i + 1 + Z.of_nat k) with (i + Z.of_nat (S k)) by lia;
          exact Hskip
        | rewrite length_app; lia | rewrite length_skipn; lia ].
    reflexivity.
Qed.

(** The plan of [get_samples], when file [j] is the first file of
    [range_files] whose slice selects nothing. *)
Lemma read_files_range_skipped (j : Z) (buf : list image) :
  n <= Z.of_nat (List.length buf) ->
  f <= j <= l ->
  (forall i, f <= i < j ->
     slice_start spf range_ rf i < slice_stop spf range_ rf i) ->
  slice_stop spf range_ rf j <= slice_start spf range_ rf j ->
  read_files st fld p
    (combine (Py.to_list rf)
       (compute_slices spf range_ rf (Py.to_list rf) 0))
    buf
  = (map (ev_open fld p) (Py.to_list (Py.Range f (j + 1) 1)),
     Raise ZeroDivisionError).
Proof.
  intros Hbuf Hj Hfull Hskip. pose proof Hok as (Hstep & Hstart & Hlast).
  pose proof spf_pos as Hspf.
  pose proof (count_below_first spf range_) as Hc0.
  rewrite (to_list_prog rf), (range_files_len spf range_ Hspf Hstep Hstart).
  cbn [range_files_of Py.r_start Py.r_step].
  rewrite to_list_prog. cbn [Py.r_start Py.r_step].
  rewrite (len_unique f (j + 1) 1 (j + 1 - f)) by lia.
  replace (Z.to_nat (l - f + 1))
    with (S (Z.to_nat (j - f)) + Z.to_nat (l - j))%nat by lia.
  replace (Z.to_nat (j + 1 - f)) with (S (Z.to_nat (j - f))) by lia.
  rewrite prog_app.
  pose proof (read_files_skipped (Z.to_nat (j - f)) f [] buf
                (prog (f + Z.of_nat (S (Z.to_nat (j - f))) * 1) 1
                      (Z.to_nat (l - j)))) as H.
  rewrite Hc0 in H. cbn [app List.length] in H. apply H; try lia.
  - intros i Hi.
    apply (slice_holds_element self p range_ Hok i); [lia|].
    apply Hfull. lia.
  - replace (f + Z.of_nat (Z.to_nat (j - f))) with j by lia.
    apply (slice_holds_element self p range_ Hok j); [lia|].
    exact Hskip.
Qed.

Hypothesis Hdense : Py.r_step range_ <= NUM_SAMPLES_PER_FILE.

Lemma read_files_ok (k : nat) : forall i (done rest : list image),
  i + Z.of_nat k = l + 1 -> f <= i ->
  Z.of_nat (List.length done) = c i ->
  n - c i <= Z.of_nat (List.length rest) ->
  read_files st fld p
    (combine (prog i 1 k) (compute_slices spf range_ rf (prog i 1 k) (c i)))
    (done ++ rest)
  = (map (ev_open fld p) (prog i 1 k),
     Ok (done
         ++ map (sample_at st fld p)
                (prog (start + c i * step) step (Z.to_nat (n - c i)))
         ++ skipn (Z.to_nat (n - c i)) rest)).
Proof.
  pose proof Hok as (Hstep & Hstart & Hlast). pose proof spf_pos as Hspf.
  induction k as [|k IH]; intros i done rest Hk Hi Hdone Hrest.
  - assert (E : c i = n).
    { replace i with (l + 1) by lia.
      apply (count_below_end spf range_ Hspf Hstep Hstart). }
    rewrite E, Z.sub_diag. reflexivity.
  - rewrite prog_cons. cbn [compute_slices combine read_files].
    destruct (file_rows self st p fld range_ Hst Hok i ltac:(lia))
      as (rows & Hrows & HL1 & HL2 & _).
    destruct (file_slice_indices spf range_ Hspf Hstep Hstart i
                (Z.of_nat (List.length rows)) ltac:(lia) HL1 HL2)
      as (Hd & Hc & Hceil & _).
    pose proof (count_below_bounds k (i + 1) ltac:(lia) ltac:(lia)) as Hc1.
    pose proof (file_not_skipped spf range_ Hspf Hstep Hstart i Hdense
                  ltac:(lia)) as Hd1.
    set (d := c (i + 1) - c i) in *.
    unfold h5_open. rewrite Hrows. cbn [bind].
    rewrite (read_direct_file self st p fld range_ Hst Hok i rows done rest)
      by (auto; lia).
    fold d. cbn [lift bind]. rewrite Hceil.
    replace (c i + d) with (c (i + 1)) by (unfold d; lia).
    set (new := map (sample_at st fld p)
                    (prog (start + c i * step) step (Z.to_nat d))).
    assert (Hnew : List.length new = Z.to_nat d)
      by (unfold new; now rewrite length_map, prog_length).
    rewrite (app_assoc done new).
    rewrite (IH (i + 1) (done ++ new) (skipn (Z.to_nat d) rest));
      [ | lia | lia | rewrite length_app; lia | rewrite length_skipn; lia ].
    cbn [app map]. f_equal. f_equal.
    rewrite <- app_assoc. f_equal.
    rewrite skipn_skipn.
    replace (Z.to_nat (n - c (i + 1)) + Z.to_nat d)%nat
      with (Z.to_nat (n - c i)) by lia.
    rewrite app_assoc. f_equal.
    replace (Z.to_nat (n - c i))
      with (Z.to_nat d + Z.to_nat (n - c (i + 1)))%nat by lia.
    rewrite prog_app, map_app. unfold new. do 3 f_equal.
    rewrite Z2Nat.id by lia. unfold d. ring.
Qed.

(** The plan of [get_samples] fills the first [len(range_)] rows of the
    buffer with the samples of the range, file by file. *)
Lemma read_files_range (buf : list image) :
  n <= Z.of_nat (List.length buf) ->
  read_files st fld p
    (combine (Py.to_list rf)
       (compute_slices spf range_ rf (Py.to_list rf) 0))
    buf
  = (map (ev_open fld p) (Py.to_list rf),
     Ok (map (sample_at st fld p) (Py.to_list range_)
         ++ skipn (Z.to_nat n) buf)).
Proof.
  intros Hbuf. pose proof Hok as (Hstep & Hstart & Hlast).
  pose proof spf_pos as Hspf.
  pose proof (first_le_last_file spf range_ Hspf Hstep Hstart) as Hfl.
  pose proof (count_below_first spf range_) as Hc0.
  rewrite (to_list_prog rf), (range_files_len spf range_ Hspf Hstep Hstart).
  cbn [range_files_of Py.r_start Py.r_step].
  pose proof (read_files_ok (Z.to_nat (l - f + 1)) f [] buf) as H.
  rewrite Hc0 in H. cbn [app List.length] in H.
  rewrite Z.mul_0_l, Z.add_0_r, Z.sub_0_r in H.
  rewrite H by lia. now rewrite to_list_prog.
Qed.
End ReadingAll.

(** ** The observation transform *)

Lemma map2_map_r {A B C} (g : A -> B -> C) (h : A -> B) (l : list A) :
  map2 g l (map h l) = map (fun x => g x (h x)) l.
Proof.
  unfold map2. induction l as [|x l IH]; [reflexivity|].
  cbn [map combine fst snd]. now rewrite IH.
Qed.

Lemma map2_map_map {A A' B C} (g : A' -> B -> C) (k : A -> A') (h : A -> B)
      (l : list A) :
  map2 g (map k l) (map h l) = map (fun x => g (k x) (h x)) l.
Proof.
  unfold map2. induction l as [|x l IH]; [reflexivity|].
  cbn [map combine fst snd]. now rewrite IH.
Qed.

Lemma amap_amap {d : dim} {A B C} (g : A -> B) (h : B -> C) (a : arr d A) :
  amap h (amap g a) = amap (fun x => h (g x)) a.
Proof.
  destruct d; cbn [amap arr] in *.
  - apply map_map.
  - rewrite map_map. apply map_ext. intros row. apply map_map.
Qed.

Lemma set_masked_amap {d : dim} (g : R -> R) (m : R -> bool) (a : arr d R)
      (c : R) :
  set_masked (amap g a) (amap m a) c
  = amap (fun v => if m v then c else g v) a.
Proof.
  unfold set_masked. destruct d; cbn [amap amap2 arr] in *.
  - apply map2_map_map.
  - rewrite map2_map_map. apply map_ext. intros row. apply map2_map_map.
Qed.

Lemma amap_id {d : dim} {A} (a : arr d A) : amap (fun x => x) a = a.
Proof.
  destruct d; cbn [amap arr] in *.
  - apply map_id.
  - rewrite <- (map_id a) at 2. apply map_ext. intros row. apply map_id.
Qed.

Lemma shape_eqb_refl (s : list Z) : shape_eqb s s = true.
Proof. unfold shape_eqb. now destruct (list_eq_dec Z.eq_dec s s). Qed.

Lemma shape_eqb_neq (s t : list Z) : s <> t -> shape_eqb s t = false.
Proof. unfold shape_eqb. now destruct (list_eq_dec Z.eq_dec s t). Qed.

Section Transform.
Variable MU_MAX : R.
Variable self : LoDoPaBDataset.

Lemma trafo_orig_floor (num_samples : Z) (d : dim) (obs : arr d R) :
  orig_floor self ->
  get_observation_trafo MU_MAX self num_samples obs
  = if post_log self then Ok obs
    else Ok (amap (fun v => exp (- (v * MU_MAX))) obs).
Proof.
  intros H. unfold get_observation_trafo.
  destruct H as [H | H]; rewrite H.
  - destruct (post_log self); [reflexivity|]. now rewrite amap_amap.
  - destruct (Req_dec_T ORIG_MIN_PHOTON_COUNT ORIG_MIN_PHOTON_COUNT);
      [|contradiction].
    destruct (post_log self); [reflexivity|]. now rewrite amap_amap.
Qed.

Lemma trafo_other_floor (mpc : R) (num_samples : Z) (d : dim)
      (obs : arr d R) :
  other_floor self mpc ->
  get_observation_trafo MU_MAX self num_samples obs
  = if shape_eqb (shape_of observation obs)
         (if num_samples =? 1 then shape observation
          else num_samples :: shape observation)
    then
      if post_log self then
        Ok (amap (fun v => if Rge_dec v (thres0 MU_MAX)
                           then (- ln (mpc / PHOTONS_PER_PIXEL) / MU_MAX)%R
                           else v) obs)
      else
        Ok (amap (fun v => if Rge_dec v (thres0 MU_MAX)
                           then (mpc / PHOTONS_PER_PIXEL)%R
                           else exp (- (v * MU_MAX))) obs)
    else Raise ValueError.
Proof.
  intros (H & Hne). unfold get_observation_trafo. rewrite H.
  destruct (Req_dec_T mpc ORIG_MIN_PHOTON_COUNT); [contradiction|].
  unfold greater_equal_out.
  destruct (post_log self); cbv beta;
    destruct (shape_eqb _ _); try reflexivity; f_equal.
  - rewrite <- (amap_id obs) at 1.
    rewrite (set_masked_amap (fun v => v)
               (fun v => if Rge_dec v (thres0 MU_MAX) then true else false)).
    destruct d; cbn [amap arr] in *.
    + apply map_ext. intros v. now destruct (Rge_dec v (thres0 MU_MAX)).
    + apply map_ext. intros row. apply map_ext. intros v.
      now destruct (Rge_dec v (thres0 MU_MAX)).
  - rewrite amap_amap.
    rewrite (set_masked_amap (fun v => exp (- (v * MU_MAX)))
               (fun v => if Rge_dec v (thres0 MU_MAX) then true else false)).
    destruct d; cbn [amap arr] in *.
    + apply map_ext. intros v. now destruct (Rge_dec v (thres0 MU_MAX)).
    + apply map_ext. intros row. apply map_ext. intros v.
      now destruct (Rge_dec v (thres0 MU_MAX)).
Qed.

Lemma floor_cases :
  orig_floor self \/ exists mpc, other_floor self mpc.
Proof.
  unfold orig_floor, other_floor.
  destruct (min_photon_count self) as [m|]; [|now left; left].
  destruct (Req_dec_T m ORIG_MIN_PHOTON_COUNT) as [->|Hne].
  - now left; right.
  - right. now exists m.
Qed.

Lemma floor_exclusive (mpc : R) :
  orig_floor self -> other_floor self mpc -> False.
Proof.
  intros [H|H] (H' & Hne); rewrite H in H'; [discriminate|].
  injection H' as <-. now apply Hne.
Qed.

(** On the array of one sample, with [num_samples = 1], no array
    operation of the transform fails. *)
Lemma trafo_single_ok (obs : image) :
  exists o, get_observation_trafo MU_MAX self 1 (d := D2) obs = Ok o.
Proof.
  destruct floor_cases as [H | (mpc & H)].
  - rewrite (trafo_orig_floor 1 D2 obs H).
    destruct (post_log self); eauto.
  - rewrite (trafo_other_floor mpc 1 D2 obs H).
    cbn [shape_of Z.eqb Pos.eqb]. rewrite shape_eqb_refl.
    destruct (post_log self); eauto.
Qed.

(** On a stack of samples, with [num_samples] its length, the transform
    fails exactly when the floor is not the original one and the stack
    holds one sample: the mask then has the shape of one sample, which
    is not the shape of the stack. *)
Lemma trafo_stack (obs : list image) :
  (forall mpc, other_floor self mpc -> List.length obs = 1%nat ->
     get_observation_trafo MU_MAX self (Z.of_nat (List.length obs))
       (d := D3) obs = Raise ValueError) /\
  ((orig_floor self \/ List.length obs <> 1%nat) ->
     exists o, get_observation_trafo MU_MAX self (Z.of_nat (List.length obs))
                 (d := D3) obs = Ok o).
Proof.
  split.
  - intros mpc H Hlen. rewrite (trafo_other_floor mpc _ D3 obs H).
    cbn [shape_of]. rewrite Hlen. cbn [Z.of_nat Pos.of_succ_nat Z.eqb Pos.eqb].
    rewrite shape_eqb_neq; [reflexivity|]. discriminate.
  - intros Hc. destruct floor_cases as [H | (mpc & H)].
    + rewrite (trafo_orig_floor _ D3 obs H). destruct (post_log self); eauto.
    + destruct Hc as [Hc|Hc]; [destruct (floor_exclusive mpc Hc H)|].
      rewrite (trafo_other_floor mpc _ D3 obs H). cbn [shape_of].
      destruct (Z.eqb_spec (Z.of_nat (List.length obs)) 1); [lia|].
      rewrite shape_eqb_refl. destruct (post_log self); eauto.
Qed.
End Transform.

(** ** [get_sample] on a valid index *)

Lemma read_direct_single (rows : list image) (b : image) (k : Z) :
  0 <= k < Z.of_nat (List.length rows) ->
  read_direct rows [b] (Py.Slice (Some k) (Some (k + 1)) None)
              (Py.Slice (Some 0) (Some 1) None)
  = Ok [nth (Z.to_nat k) rows []].
Proof.
  intros Hk. unfold read_direct, Py.indices, Py.adjust.
  cbn [Py.s_start Py.s_stop Py.s_step Py.r_step List.length].
  destruct (Z.ltb_spec k 0); [lia|].
  destruct (Z.ltb_spec (k + 1) 0); [lia|].
  rewrite (Z.min_l k), (Z.min_l (k + 1)) by lia.
  change (Z.min 0 (Z.of_nat 1)) with 0. change (Z.min 1 (Z.of_nat 1)) with 1.
  change (1 <? 1) with false. change (0 <? 0) with false. cbn [orb].
  change (1 <? 0) with false. cbn iota.
  assert (E : Py.len (Py.Range k (k + 1) 1) = 1) by (apply len_unique; lia).
  rewrite E, !to_list_prog, E. cbn [Py.r_start Py.r_step Py.len].
  change (Py.len (Py.Range 0 1 1)) with 1. cbn [Z.eqb Pos.eqb].
  change (Z.to_nat 1) with 1%nat. rewrite !prog_cons.
  cbn [prog seq map combine fold_left fst snd].
  unfold list_set. cbn [Z.to_nat List.length Nat.ltb Nat.leb firstn skipn app].
  reflexivity.
Qed.

Lemma store_row (self : LoDoPaBDataset) (st : store) (f : field) (p : part)
      (k : Z) :
  store_ok self st -> 0 <= k < get_len self p ->
  exists rows, st f p (k / NUM_SAMPLES_PER_FILE) = Some rows /\
    0 <= k mod NUM_SAMPLES_PER_FILE < Z.of_nat (List.length rows) /\
    nth (Z.to_nat (k mod NUM_SAMPLES_PER_FILE)) rows [] = sample_at st f p k.
Proof.
  intros Hst Hk. pose proof spf_pos as Hspf.
  pose proof (Z.div_mod k NUM_SAMPLES_PER_FILE ltac:(lia)) as E.
  pose proof (Z.mod_pos_bound k NUM_SAMPLES_PER_FILE Hspf) as B.
  assert (0 <= k / NUM_SAMPLES_PER_FILE) by (apply Z.div_pos; lia).
  destruct (Hst f p (k / NUM_SAMPLES_PER_FILE) ltac:(lia) ltac:(lia))
    as (rows & Hrows & Hlen).
  exists rows. split; [exact Hrows|]. split; [lia|].
  unfold sample_at. now rewrite Hrows.
Qed.

Lemma get_sample_ok (MU_MAX : R) (self : LoDoPaBDataset) (st : store)
      (index : Z) (p : part) (oo og : out_arg image) :
  store_ok self st ->
  - get_len self p <= index < get_len self p ->
  let k := norm_index (get_len self p) index in
  let fi := k / NUM_SAMPLES_PER_FILE in
  exists o,
    get_observation_trafo MU_MAX self 1 (d := D2)
      (sample_at st observation p k) = Ok o /\
    get_sample MU_MAX self st index p (Some (oo, og))
    = ((match oo with OBool true => [ev_new observation] | _ => [] end)
       ++ (match og with OBool true => [ev_new ground_truth] | _ => [] end)
       ++ (match oo with OBool false => [] | _ => [ev_open observation p fi]
           end)
       ++ (match og with OBool false => [] | _ => [ev_open ground_truth p fi]
           end),
       Ok (match oo with OBool false => None | _ => Some o end,
           match og with
           | OBool false => None
           | _ => Some (sample_at st ground_truth p k)
           end)).
Proof.
  intros Hst Hidx k fi.
  assert (Hk : 0 <= k < get_len self p).
  { unfold k, norm_index. destruct (Z.ltb_spec index 0); lia. }
  destruct (trafo_single_ok MU_MAX self (sample_at st observation p k))
    as (o & Ho).
  exists o. split; [exact Ho|].
  destruct (store_row self st observation p k Hst Hk)
    as (ro & Hro & Bo & No).
  destruct (store_row self st ground_truth p k Hst Hk)
    as (rg & Hrg & Bg & Ng).
  unfold get_sample. cbv zeta.
  destruct (Z.geb_spec index (get_len self p)); [lia|].
  destruct (Z.ltb_spec index (- get_len self p)); [lia|].
  cbn [orb]. fold (norm_index (get_len self p) index). fold k. subst fi.
  unfold h5_open. rewrite Hro, Hrg.
  destruct oo as [[|]|a]; destruct og as [[|]|b];
    cbn [bind ret lift fst snd app];
    rewrite ?(read_direct_single ro _ _ Bo), ?(read_direct_single rg _ _ Bg);
    cbn [bind ret lift fst snd app hd];
    rewrite ?No, ?Ng, ?Ho; reflexivity.
Qed.

(** ** [get_samples] on a valid range *)

Lemma filled_length (st : store) (f : field) (p : part) (r : Py.range)
      (buf : list image) :
  Py.len r <= Z.of_nat (List.length buf) ->
  List.length (filled st f p r buf) = List.length buf.
Proof.
  intros H. pose proof (len_nonneg r). unfold filled.
  rewrite length_app, length_map, to_list_prog, prog_length, length_skipn.
  lia.
Qed.

Lemma out_buffer_fits (uninit : image) (o : out_arg (list image)) (n : Z)
      (b : list image) :
  0 <= n -> buffer_fits o n -> out_buffer uninit o n = Some b ->
  n <= Z.of_nat (List.length b).
Proof.
  intros Hn Hfit. destruct o as [[|]|a]; cbn [out_buffer buffer_fits] in *;
    intros E; inversion E; subst; [rewrite repeat_length; lia | exact Hfit].
Qed.

Lemma get_samples_ok (MU_MAX : R) (uninit : image) (self : LoDoPaBDataset)
      (st : store) (r : Py.range) (p : part) (oo og : out_arg (list image)) :
  store_ok self st ->
  range_ok (get_len self p) r ->
  Py.r_step r <= NUM_SAMPLES_PER_FILE ->
  buffer_fits oo (Py.len r) -> buffer_fits og (Py.len r) ->
  snd (get_samples MU_MAX uninit self st (KRange r) p (Some (oo, og)))
  = let gt := option_map (filled st ground_truth p r)
                         (out_buffer uninit og (Py.len r)) in
    match out_buffer uninit oo (Py.len r) with
    | None => Ok (None, gt)
    | Some b =>
        let obs := filled st observation p r b in
        match get_observation_trafo MU_MAX self
                (Z.of_nat (List.length obs)) (d := D3) obs with
        | Ok o => Ok (Some o, gt)
        | Raise e => Raise e
        end
    end.
Proof.
  intros Hst Hok Hdense Hoo Hog. pose proof Hok as (Hstep & Hstart & Hlast).
  pose proof (range_len_pos r Hstep Hstart) as Hn.
  unfold get_samples. cbv zeta. rewrite snd_bind. cbn [snd ret].
  destruct (Z.ltb_spec (Py.r_step r) 0); [lia|].
  rewrite (getitem_last r Hn), (getitem_first r Hn).
  destruct (Z.geb_spec (Py.last r) (get_len self p)); [lia|].
  fold (range_files_of NUM_SAMPLES_PER_FILE r).
  pose proof (fun f b => read_files_range self st p f r Hst Hok Hdense b)
    as Hread.
  pose proof (out_buffer_fits uninit oo (Py.len r)) as Fo.
  pose proof (out_buffer_fits uninit og (Py.len r)) as Fg.
  destruct oo as [[|]|a]; destruct og as [[|]|b];
    cbn [out_buffer option_map] in *; unfold filled; cbv zeta;
    repeat first
      [ rewrite snd_bind
      | rewrite Hread
          by solve [ eapply Fo; (lia || eauto) | eapply Fg; (lia || eauto) ]
      | progress cbn [snd ret lift fst]
      | match goal with
        | |- context [@get_observation_trafo ?a ?b ?c ?d ?e] =>
            destruct (@get_observation_trafo a b c d e)
        end ].
  all: reflexivity.
Qed.

(** ** The decomposition of a range into slices of the files *)

Lemma to_list_bounds (r : Py.range) (k : Z) :
  1 <= Py.r_step r -> In k (Py.to_list r) ->
  Py.r_start r <= k <= Py.last r.
Proof.
  intros Hs Hk. rewrite to_list_prog in Hk. apply prog_In in Hk.
  destruct Hk as (j & Hj & ->). unfold Py.last. nia.
Qed.

Lemma getrange_iota (len : nat) (r : Py.range) :
  (forall k, In k (Py.to_list r) -> 0 <= k < Z.of_nat len) ->
  getrange (map Z.of_nat (seq 0 len)) r = Py.to_list r.
Proof.
  unfold getrange. induction (Py.to_list r) as [|k ks IH]; intros H;
    [reflexivity|].
  cbn [flat_map]. rewrite IH by (intros j Hj; apply H; now right).
  pose proof (H k (or_introl eq_refl)) as Hk.
  rewrite nth_error_map, nth_error_seq.
  destruct (Nat.ltb_spec (Z.to_nat k) len); [|lia].
  cbn [option_map app Nat.add]. now rewrite Z2Nat.id by lia.
Qed.

(** The example of the specification: shards of 10 samples and
    [range(3, 27, 4)]. *)
Example slices_files_example :
  slices_files 10 (Py.Range 3 27 4)
  = [(0, Py.Slice (Some 3) (Some 8) (Some 4));
     (1, Py.Slice (Some 1) (Some 10) (Some 4));
     (2, Py.Slice (Some 3) (Some 4) (Some 4))]
  /\ map (fun js => getslice (shard 10 (map Z.of_nat (seq 0 30)) (fst js))
                             (snd js))
         (slices_files 10 (Py.Range 3 27 4))
     = [[3; 7]; [11; 15; 19]; [23]].
Proof. split; reflexivity. Qed.

(** C1.  For every partition length, shard size and range
    [(start, stop, step)] with [step >= 1], a first index that is not
    negative, at least one element and the last index below the
    partition length, the slices that [get_samples] computes for the
    files, applied to the shards in the order of the files and
    concatenated, select exactly [start, start + step, ...] up to [stop]
    (exclusive): on the array [0 .. partition_length - 1] they give the
    list of the range, and on any content [data] of the partition the
    elements [data[k]] for [k] in the range, in order. *)
Theorem get_samples_slices_reconstruct_range
        (spf : Z) (range_ : Py.range) (partition_length : nat) :
  0 < spf ->
  range_ok (Z.of_nat partition_length) range_ ->
  flat_map (fun js =>
              getslice (shard spf (map Z.of_nat (seq 0 partition_length))
                              (fst js)) (snd js))
           (slices_files spf range_)
  = Py.to_list range_
  /\ forall (A : Type) (data : list A),
       List.length data = partition_length ->
       flat_map (fun js => getslice (shard spf data (fst js)) (snd js))
                (slices_files spf range_)
       = getrange data range_.
Proof.
  intros Hspf (Hstep & Hstart & Hlast). split.
  - rewrite slices_files_getrange; try assumption.
    + apply getrange_iota. intros k Hk.
      apply to_list_bounds in Hk; [lia|assumption].
    + now rewrite length_map, length_seq.
  - intros A data <-. now apply slices_files_getrange.
Qed.

(** ** The four cases of the observation transform *)

(** C8.  With [post_log] and the original floor ([min_photon_count] is
    [None] or equal to [ORIG_MIN_PHOTON_COUNT]) the transform is the
    identity: it leaves every buffer, of one sample or of a stack,
    unchanged, whatever [num_samples] is. *)
Theorem trafo_post_log_orig_floor_identity
        (MU_MAX : R) (self : LoDoPaBDataset) (num_samples : Z) (d : dim)
        (obs : arr d R) :
  post_log self = true ->
  orig_floor self ->
  get_observation_trafo MU_MAX self num_samples obs = Ok obs.
Proof.
  intros Hpl Hfloor. rewrite trafo_orig_floor by assumption. now rewrite Hpl.
Qed.

(** C7.  Without [post_log] and with the original floor the transform
    maps every entry [v] to [exp (- v * MU_MAX)]; an entry 0 becomes 1. *)
Theorem trafo_pre_log_orig_floor
        (MU_MAX : R) (self : LoDoPaBDataset) (num_samples : Z) (d : dim)
        (obs : arr d R) :
  post_log self = false ->
  orig_floor self ->
  get_observation_trafo MU_MAX self num_samples obs
  = Ok (amap (fun v => exp (- (v * MU_MAX))) obs)
  /\ get_observation_trafo MU_MAX self 1 (d := D2) [0%R] = Ok [1%R].
Proof.
  intros Hpl Hfloor. rewrite !trafo_orig_floor by assumption. rewrite Hpl.
  split; [reflexivity|]. cbn [amap map]. do 2 f_equal.
  rewrite Rmult_0_l, Ropp_0. apply exp_0.
Qed.

(** C6, with the input where the code departs from it.  With [post_log]
    and another floor [mpc > 0], the transform replaces the entries
    [v >= thres0] by [- ln (mpc / 4096) / MU_MAX] and leaves the entries
    below [thres0] unchanged, where
    [thres0 = 0.5 * (- ln (0.1 / 4096) - ln (1 / 4096)) / MU_MAX]: on
    every single sample, as [get_sample] and [generator] pass it
    ([num_samples = 1]), and on every stack of samples that
    [get_samples] passes ([num_samples = len(obs_arr)]) unless the stack
    holds exactly one sample.  On a stack of one sample the mask has the
    shape of a single sample, and the transform raises [ValueError]
    and replaces nothing. *)
Theorem trafo_post_log_other_floor
        (MU_MAX : R) (self : LoDoPaBDataset) (mpc : R) :
  post_log self = true ->
  other_floor self mpc ->
  (0 < mpc)%R ->
  (exists g : R -> R,
     (forall v, (v >= thres0 MU_MAX)%R ->
                g v = (- ln (mpc / 4096) / MU_MAX)%R) /\
     (forall v, (v < thres0 MU_MAX)%R -> g v = v) /\
     thres0 MU_MAX = (0.5 * (- ln (0.1 / 4096) - ln (1 / 4096)) / MU_MAX)%R /\
     (forall obs : arr D2 R,
        get_observation_trafo MU_MAX self 1 (d := D2) obs
        = Ok (amap (d := D2) g obs)) /\
     (forall stack : arr D3 R,
        List.length stack <> 1%nat ->
        get_observation_trafo MU_MAX self (Z.of_nat (List.length stack))
          (d := D3) stack
        = Ok (amap (d := D3) g stack))) /\
  (forall stack : arr D3 R,
     List.length stack = 1%nat ->
     get_observation_trafo MU_MAX self (Z.of_nat (List.length stack))
       (d := D3) stack
     = Raise ValueError).
Proof.
  intros Hpl Hfloor _. split.
  - exists (fun v => if Rge_dec v (thres0 MU_MAX)
                     then (- ln (mpc / PHOTONS_PER_PIXEL) / MU_MAX)%R else v).
    split; [|split; [|split; [|split]]].
    + intros v Hv. now destruct (Rge_dec v (thres0 MU_MAX)).
    + intros v Hv. destruct (Rge_dec v (thres0 MU_MAX)); [lra|reflexivity].
    + reflexivity.
    + intros obs.
      rewrite (trafo_other_floor MU_MAX self mpc) by assumption.
      change (1 =? 1) with true. cbv iota. cbn [shape_of].
      now rewrite shape_eqb_refl, Hpl.
    + intros stack Hlen.
      rewrite (trafo_other_floor MU_MAX self mpc) by assumption.
      cbn [shape_of].
      destruct (Z.eqb_spec (Z.of_nat (List.length stack)) 1); [lia|].
      now rewrite shape_eqb_refl, Hpl.
  - intros stack Hlen.
    rewrite (trafo_other_floor MU_MAX self mpc) by assumption.
    cbn [shape_of]. rewrite Hlen. change (Z.of_nat 1 =? 1) with true.
    cbv iota. rewrite shape_eqb_neq; [reflexivity|discriminate].
Qed.

(** ** Index errors of [get_sample] *)

Lemma bind_no_index {A B} (m : io A) (k : A -> io B) :
  snd m <> Raise IndexError ->
  (forall a, snd (k a) <> Raise IndexError) ->
  snd (bind m k) <> Raise IndexError.
Proof.
  intros Hm Hk. rewrite snd_bind. destruct (snd m) as [a|e]; [apply Hk|].
  intros E. apply Hm. now injection E as ->.
Qed.

Lemma read_direct_no_index (data dest : list image) (s t : Py.slice) :
  read_direct data dest s t <> Raise IndexError.
Proof.
  unfold read_direct.
  destruct (_ || _); [discriminate|]. destruct (_ =? _); [|discriminate].
  destruct (_ =? _); discriminate.
Qed.

Lemma trafo_no_index (MU_MAX : R) (self : LoDoPaBDataset) (num_samples : Z)
      (d : dim) (obs : arr d R) :
  get_observation_trafo MU_MAX self num_samples obs <> Raise IndexError.
Proof.
  destruct (floor_cases self) as [H | (mpc & H)].
  - rewrite trafo_orig_floor by assumption.
    destruct (post_log self); discriminate.
  - rewrite (trafo_other_floor MU_MAX self mpc) by assumption.
    destruct (shape_eqb _ _); [|discriminate].
    destruct (post_log self); discriminate.
Qed.

Lemma h5_open_no_index (st : store) (f : field) (p : part) (i : Z) :
  snd (h5_open st f p i) <> Raise IndexError.
Proof. unfold h5_open. cbn [snd]. destruct (st f p i); discriminate. Qed.

Lemma get_sample_in_range_no_index
      (MU_MAX : R) (self : LoDoPaBDataset) (st : store) (index : Z)
      (p : part) (out : option (out_arg image * out_arg image)) :
  - get_len self p <= index < get_len self p ->
  snd (get_sample MU_MAX self st index p out) <> Raise IndexError.
Proof.
  intros Hidx. unfold get_sample. cbv zeta.
  destruct (Z.geb_spec index (get_len self p)); [lia|].
  destruct (Z.ltb_spec index (- get_len self p)); [lia|].
  cbn [orb]. destruct out as [[oo og]|]; [|discriminate].
  repeat first
    [ apply bind_no_index; [|intros ?]
    | apply h5_open_no_index
    | apply read_direct_no_index
    | apply trafo_no_index
    | discriminate
    | match goal with
      | |- snd (match ?x with _ => _ end) <> _ => destruct x
      end ].
Qed.

(** C4.  [get_sample] raises [IndexError] exactly when
    [index >= len] or [index < - len], whatever [out] and the files are,
    and then no buffer was created and no file opened.  At
    [index = len] and [index = - len - 1] it raises [IndexError]; at
    [index = len - 1] it returns the sample, when the files of the part
    exist and [out] asks for both arrays. *)
Theorem get_sample_index_error_iff
        (MU_MAX : R) (self : LoDoPaBDataset) (st : store) (p : part) :
  (forall index out,
     (snd (get_sample MU_MAX self st index p out) = Raise IndexError <->
      index >= get_len self p \/ index < - get_len self p) /\
     (snd (get_sample MU_MAX self st index p out) = Raise IndexError ->
      fst (get_sample MU_MAX self st index p out) = [])) /\
  (forall out,
     get_sample MU_MAX self st (get_len self p) p out
     = ([], Raise IndexError) /\
     get_sample MU_MAX self st (- get_len self p - 1) p out
     = ([], Raise IndexError)) /\
  (store_ok self st -> 0 < get_len self p ->
   exists o,
     snd (get_sample MU_MAX self st (get_len self p - 1) p
            (Some (OBool true, OBool true)))
     = Ok (Some o,
           Some (sample_at st ground_truth p (get_len self p - 1)))).
Proof.
  assert (Hout : forall index out,
             index >= get_len self p \/ index < - get_len self p ->
             get_sample MU_MAX self st index p out = ([], Raise IndexError)).
  { intros index out H. unfold get_sample.
    destruct (Z.geb_spec index (get_len self p));
      destruct (Z.ltb_spec index (- get_len self p)); try reflexivity; lia. }
  assert (Hiff : forall index out,
             snd (get_sample MU_MAX self st index p out) = Raise IndexError <->
             index >= get_len self p \/ index < - get_len self p).
  { intros index out. split.
    - intros H.
      destruct (Z_lt_ge_dec index (get_len self p)) as [Hlt|]; [|now left].
      destruct (Z_lt_ge_dec index (- get_len self p)); [now right|].
      exfalso. revert H. apply get_sample_in_range_no_index. lia.
    - intros H. now rewrite Hout. }
  split; [|split].
  - intros index out. split; [apply Hiff|].
    intros H. apply Hiff in H. now rewrite Hout.
  - intros out. split; apply Hout; lia.
  - intros Hst Hlen.
    destruct (get_sample_ok MU_MAX self st (get_len self p - 1) p
                (OBool true) (OBool true) Hst ltac:(lia))
      as (o & _ & E).
    exists o. rewrite E. cbn [snd]. unfold norm_index.
    destruct (Z.ltb_spec (get_len self p - 1) 0); [lia|reflexivity].
Qed.

(** C5.  For [- len <= i < 0], [get_sample] at [i] is [get_sample] at
    [i + len]: the same events and the same result, for every [out] and
    every content of the files; in particular [-1] stands for
    [len - 1]. *)
Theorem get_sample_negative_index
        (MU_MAX : R) (self : LoDoPaBDataset) (st : store) (i : Z) (p : part)
        (out : option (out_arg image * out_arg image)) :
  - get_len self p <= i < 0 ->
  get_sample MU_MAX self st i p out
  = get_sample MU_MAX self st (i + get_len self p) p out
  /\ (i = -1 ->
      get_sample MU_MAX self st (-1) p out
      = get_sample MU_MAX self st (get_len self p - 1) p out).
Proof.
  intros Hi.
  assert (E : get_sample MU_MAX self st i p out
              = get_sample MU_MAX self st (i + get_len self p) p out).
  { unfold get_sample. cbv zeta.
    destruct (Z.geb_spec i (get_len self p)); [lia|].
    destruct (Z.ltb_spec i (- get_len self p)); [lia|].
    destruct (Z.geb_spec (i + get_len self p) (get_len self p)); [lia|].
    destruct (Z.ltb_spec (i + get_len self p) (- get_len self p)); [lia|].
    destruct (Z.ltb_spec i 0); [|lia].
    destruct (Z.ltb_spec (i + get_len self p) 0); [lia|].
    reflexivity. }
  split; [exact E|]. intros ->. rewrite E. f_equal. lia.
Qed.

(** ** The step of the key of [get_samples] *)

(** A slice key is served as the range that line 426 builds from it. *)
Lemma get_samples_slice
      (MU_MAX : R) (uninit : image) (self : LoDoPaBDataset) (st : store)
      (k : Py.slice) (p : part)
      (out : option (out_arg (list image) * out_arg (list image))) :
  get_samples MU_MAX uninit self st (KSlice k) p out
  = get_samples MU_MAX uninit self st
      (KRange
         (Py.Range
            match Py.s_start k with
            | None => 0
            | Some a => if a >=? 0 then a else Z.max 0 (get_len self p + a)
            end
            match Py.s_stop k with
            | None => get_len self p
            | Some b => if b >=? 0 then b else Z.max 0 (get_len self p + b)
            end
            (or_1 (Py.s_step k)))) p out.
Proof. reflexivity. Qed.

(** C3, as the code has it.  A range or slice key with a negative step
    makes [get_samples] raise [ValueError] before a buffer is created or
    a file opened, whatever the other arguments are.  A slice key with
    step 0 is not rejected: [key.step or 1] turns the step into 1, so
    the call is the call with the step left out, and with step 1.  (A
    range object cannot have step 0.) *)
Theorem get_samples_negative_step_raises
        (MU_MAX : R) (uninit : image) (self : LoDoPaBDataset) (st : store)
        (p : part)
        (out : option (out_arg (list image) * out_arg (list image))) :
  (forall key k, key_step key = Some k -> k < 0 ->
     get_samples MU_MAX uninit self st key p out = ([], Raise ValueError)) /\
  (forall a b,
     get_samples MU_MAX uninit self st (KSlice (Py.Slice a b (Some 0))) p out
     = get_samples MU_MAX uninit self st (KSlice (Py.Slice a b None)) p out /\
     get_samples MU_MAX uninit self st (KSlice (Py.Slice a b (Some 0))) p out
     = get_samples MU_MAX uninit self st (KSlice (Py.Slice a b (Some 1))) p
         out).
Proof.
  split.
  - intros key k Hkey Hk. destruct key as [s|r|]; cbn [key_step] in Hkey;
      [rewrite get_samples_slice| |discriminate].
    + unfold get_samples. cbn [bind ret Py.r_step]. rewrite Hkey.
      cbn [or_1]. destruct (Z.eqb_spec k 0); [lia|].
      destruct (Z.ltb_spec k 0); [reflexivity|lia].
    + injection Hkey as <-. unfold get_samples. cbn [bind ret].
      destruct (Z.ltb_spec (Py.r_step r) 0); [reflexivity|lia].
  - intros a b. split; reflexivity.
Qed.

(** ** One sample, read by [get_sample] and by [get_samples] *)

Lemma store_of_ok (self : LoDoPaBDataset)
      (data : field -> part -> Z -> image) :
  store_ok self (store_of self data).
Proof.
  intros f p i Hi Hlt. pose proof spf_pos. unfold store_of.
  destruct (Z.leb_spec 0 i); [|lia].
  destruct (Z.ltb_spec (i * NUM_SAMPLES_PER_FILE) (get_len self p)); [|lia].
  cbn [andb]. eexists. split; [reflexivity|].
  rewrite length_map, length_seq. apply Z2Nat.id. apply Z.min_glb; lia.
Qed.

Lemma range_single_ok (len_part i : Z) :
  0 <= i < len_part ->
  Py.len (Py.Range i (i + 1) 1) = 1 /\
  Py.to_list (Py.Range i (i + 1) 1) = [i] /\
  range_ok len_part (Py.Range i (i + 1) 1).
Proof.
  intros Hi.
  assert (E : Py.len (Py.Range i (i + 1) 1) = 1) by (apply len_unique; lia).
  split; [exact E|]. split.
  - rewrite to_list_prog, E. change (Z.to_nat 1) with 1%nat.
    now rewrite prog_cons.
  - unfold range_ok, Py.last. rewrite E. cbn [Py.r_start Py.r_stop Py.r_step].
    lia.
Qed.

Lemma get_samples_single
      (MU_MAX : R) (uninit : image) (self : LoDoPaBDataset) (st : store)
      (p : part) (i : Z) :
  store_ok self st -> 0 <= i < get_len self p ->
  snd (get_samples MU_MAX uninit self st (KRange (Py.Range i (i + 1) 1)) p
         (Some (OBool true, OBool true)))
  = match get_observation_trafo MU_MAX self 1 (d := D3)
            [sample_at st observation p i] with
    | Ok o => Ok (Some o, Some [sample_at st ground_truth p i])
    | Raise e => Raise e
    end.
Proof.
  intros Hst Hi.
  destruct (range_single_ok (get_len self p) i Hi) as (Hlen & Hlist & Hok).
  rewrite get_samples_ok; try assumption; try exact I;
    [|cbn [Py.r_step]; pose proof spf_pos; lia].
  cbn [out_buffer option_map]. cbv zeta. unfold filled.
  rewrite Hlen, Hlist. reflexivity.
Qed.

(** With the original floor the two operations return the same values,
    [get_samples] as stacks of one sample. *)
Lemma get_sample_get_samples_orig_floor
      (MU_MAX : R) (uninit : image) (self : LoDoPaBDataset) (st : store)
      (p : part) (i : Z) :
  store_ok self st -> 0 <= i < get_len self p -> orig_floor self ->
  exists obs gt,
    snd (get_sample MU_MAX self st i p (Some (OBool true, OBool true)))
    = Ok (Some obs, Some gt) /\
    snd (get_samples MU_MAX uninit self st (KRange (Py.Range i (i + 1) 1)) p
           (Some (OBool true, OBool true)))
    = Ok (Some [obs], Some [gt]).
Proof.
  intros Hst Hi Hfloor.
  destruct (get_sample_ok MU_MAX self st i p (OBool true) (OBool true) Hst
              ltac:(lia)) as (o & Ho & E).
  assert (Hn : norm_index (get_len self p) i = i).
  { unfold norm_index. destruct (Z.ltb_spec i 0); [lia|reflexivity]. }
  rewrite Hn in *. exists o, (sample_at st ground_truth p i).
  rewrite E, get_samples_single by assumption. split; [reflexivity|].
  rewrite trafo_orig_floor in * by assumption.
  destruct (post_log self); injection Ho as <-; reflexivity.
Qed.

(** C2, at the inputs where the code departs from it.  When the floor is
    not the original one, for every index [i] of the part [get_sample]
    returns the transformed observation and the ground truth, while
    [get_samples] on [range(i, i + 1)] raises [ValueError]: the mask is
    allocated with the shape of one sample because [num_samples] is 1,
    and the buffer is a stack of one sample. *)
Theorem get_samples_single_other_floor_raises
        (MU_MAX : R) (uninit : image) (self : LoDoPaBDataset) (st : store)
        (p : part) (i : Z) (mpc : R) :
  store_ok self st -> 0 <= i < get_len self p -> other_floor self mpc ->
  (exists obs,
     snd (get_sample MU_MAX self st i p (Some (OBool true, OBool true)))
     = Ok (Some obs, Some (sample_at st ground_truth p i))) /\
  snd (get_samples MU_MAX uninit self st (KRange (Py.Range i (i + 1) 1)) p
         (Some (OBool true, OBool true)))
  = Raise ValueError.
Proof.
  intros Hst Hi Hfloor. split.
  - destruct (get_sample_ok MU_MAX self st i p (OBool true) (OBool true) Hst
                ltac:(lia)) as (o & _ & E).
    exists o. rewrite E. cbn [snd]. unfold norm_index.
    destruct (Z.ltb_spec i 0); [lia|reflexivity].
  - rewrite get_samples_single by assumption.
    destruct (trafo_stack MU_MAX self [sample_at st observation p i])
      as (Hraise & _).
    cbn [List.length Z.of_nat Pos.of_succ_nat] in Hraise.
    now rewrite (Hraise mpc Hfloor eq_refl).
Qed.

(** ** The ground truth *)

(** C9, with the inputs where the code departs from it.  On files that
    exist, [get_sample] returns the ground truth as stored, for every
    configuration, every index of the part and every [out] that asks for
    it.  [get_samples] on a valid range with a step of at most 128 (so
    that every file it opens holds an element of the range) returns the
    ground truth as stored (the rows of the range, then the rows of the
    buffer of the caller that lie behind them) when the floor is the
    original one or the observation buffer does not hold exactly one
    sample; when the floor is another one and the observation buffer
    holds one sample it raises [ValueError] and returns nothing. *)
Theorem get_samples_ground_truth_or_shape_error
        (MU_MAX : R) (uninit : image) (self : LoDoPaBDataset) (st : store)
        (p : part) :
  store_ok self st ->
  (forall index oo og,
     - get_len self p <= index < get_len self p ->
     og <> OBool false ->
     exists o,
       snd (get_sample MU_MAX self st index p (Some (oo, og)))
       = Ok (o, Some (sample_at st ground_truth p
                        (norm_index (get_len self p) index)))) /\
  (forall r oo og gtb,
     range_ok (get_len self p) r ->
     Py.r_step r <= NUM_SAMPLES_PER_FILE ->
     buffer_fits oo (Py.len r) -> buffer_fits og (Py.len r) ->
     out_buffer uninit og (Py.len r) = Some gtb ->
     (forall mpc b,
        other_floor self mpc ->
        out_buffer uninit oo (Py.len r) = Some b ->
        List.length b = 1%nat ->
        snd (get_samples MU_MAX uninit self st (KRange r) p (Some (oo, og)))
        = Raise ValueError) /\
     ((orig_floor self \/
       forall b, out_buffer uninit oo (Py.len r) = Some b ->
                 List.length b <> 1%nat) ->
      exists o,
        snd (get_samples MU_MAX uninit self st (KRange r) p (Some (oo, og)))
        = Ok (o, Some (filled st ground_truth p r gtb)))).
Proof.
  intros Hst. split.
  - intros index oo og Hidx Hog.
    destruct (get_sample_ok MU_MAX self st index p oo og Hst Hidx)
      as (o & _ & E).
    rewrite E. cbn [snd].
    destruct og as [[|]|b]; [eauto|contradiction|eauto].
  - intros r oo og gtb Hok Hdense Hoo Hog Hgtb.
    pose proof (len_nonneg r) as Hn.
    rewrite get_samples_ok by assumption. cbv zeta.
    rewrite Hgtb. cbn [option_map].
    destruct (out_buffer uninit oo (Py.len r)) as [b|] eqn:Eb.
    + pose proof (out_buffer_fits uninit oo (Py.len r) b Hn Hoo Eb) as Hb.
      destruct (trafo_stack MU_MAX self (filled st observation p r b))
        as (Hraise & Hfine).
      rewrite filled_length in * by assumption.
      split.
      * intros mpc b' Hfloor Eb' Hlen. injection Eb' as <-.
        now rewrite (Hraise mpc Hfloor Hlen).
      * intros Hc. destruct Hfine as (o & ->); [|eauto].
        destruct Hc as [Hc|Hc]; [now left|]. right. now apply Hc.
    + split; [discriminate|eauto].
Qed.

(** ** Calls that leave [out] out *)

Lemma fst_bind_in {A B} (m : io A) (k : A -> io B) (e : event) :
  In e (fst (bind m k)) ->
  In e (fst m) \/ exists a, In e (fst (k a)).
Proof.
  rewrite fst_bind. destruct (snd m) as [a|x]; [|now left].
  rewrite in_app_iff. intros [H|H]; [now left|right; eauto].
Qed.

Lemma read_files_events (st : store) (f : field) (p : part)
      (plan : list (Z * (Py.slice * Py.slice))) :
  forall (a : list image) (e : event),
    In e (fst (read_files st f p plan a)) -> exists i, e = ev_open f p i.
Proof.
  induction plan as [|[i [slc_f slc_d]] plan IH]; intros a e H.
  - destruct H.
  - cbn [read_files] in H.
    apply fst_bind_in in H. destruct H as [H | (data & H)].
    + unfold h5_open in H. cbn [fst In] in H. destruct H as [<-|[]]. eauto.
    + apply fst_bind_in in H. destruct H as [[] | (a' & H)]. eauto.
Qed.

(** A new buffer for a field is created only on request: when the
    component of [out] for that field is [True]. *)
Lemma get_sample_new_buffer
      (MU_MAX : R) (self : LoDoPaBDataset) (st : store) (index : Z)
      (p : part) (out : option (out_arg image * out_arg image)) (f : field) :
  In (ev_new f) (fst (get_sample MU_MAX self st index p out)) ->
  exists oo og, out = Some (oo, og) /\
    match f with observation => oo | ground_truth => og end = OBool true.
Proof.
  unfold get_sample. cbv zeta.
  destruct (_ || _); [intros []|].
  destruct out as [[oo og]|]; [|intros []].
  intros H. exists oo, og. split; [reflexivity|].
  repeat match goal with
    | H : In _ (fst (bind _ _)) |- _ =>
        apply fst_bind_in in H; destruct H as [H | (? & H)]
    | H : In _ (fst (match ?x with _ => _ end)) |- _ => destruct x
    | H : In _ (fst (h5_open _ _ _ _)) |- _ =>
        unfold h5_open in H; cbn [fst In] in H; destruct H as [H|[]];
        discriminate H
    | H : In _ (fst (ret _)) |- _ => destruct H
    | H : In _ (fst (lift _)) |- _ => destruct H
    | H : In _ (fst ([_], _)) |- _ =>
        cbn [fst In] in H; destruct H as [H|[]]; injection H as <-
    end; reflexivity.
Qed.

Lemma get_samples_new_buffer
      (MU_MAX : R) (uninit : image) (self : LoDoPaBDataset) (st : store)
      (key : key_arg) (p : part)
      (out : option (out_arg (list image) * out_arg (list image)))
      (f : field) :
  In (ev_new f) (fst (get_samples MU_MAX uninit self st key p out)) ->
  exists oo og, out = Some (oo, og) /\
    match f with observation => oo | ground_truth => og end = OBool true.
Proof.
  unfold get_samples. cbv zeta. intros H.
  apply fst_bind_in in H. destruct H as [H | (range_ & H)];
    [destruct key; destruct H|].
  destruct (_ <? _); [destruct H|].
  destruct (Py.getitem range_ (-1)) as [last|]; [|destruct H].
  destruct (_ >=? _); [destruct H|].
  destruct (Py.getitem range_ 0) as [first|]; [|destruct H].
  destruct out as [[oo og]|]; [|destruct H].
  exists oo, og. split; [reflexivity|].
  repeat match goal with
    | H : In _ (fst (bind _ _)) |- _ =>
        apply fst_bind_in in H; destruct H as [H | (? & H)]
    | H : In _ (fst (read_files _ _ _ _ _)) |- _ =>
        apply read_files_events in H; destruct H as (? & H); discriminate H
    | H : In _ (fst (match ?x with _ => _ end)) |- _ => destruct x
    | H : In _ (fst (ret _)) |- _ => destruct H
    | H : In _ (fst (lift _)) |- _ => destruct H
    | H : In _ (fst ([_], _)) |- _ =>
        cbn [fst In] in H; destruct H as [H|[]]; injection H as <-
    end; reflexivity.
Qed.

Lemma get_samples_true_true_events
      (MU_MAX : R) (uninit : image) (self : LoDoPaBDataset) (st : store)
      (r : Py.range) (p : part) :
  range_ok (get_len self p) r ->
  exists t,
    fst (get_samples MU_MAX uninit self st (KRange r) p
           (Some (OBool true, OBool true)))
    = ev_new observation :: ev_new ground_truth :: t.
Proof.
  intros (Hstep & Hstart & Hlast).
  pose proof (range_len_pos r Hstep Hstart) as Hn.
  unfold get_samples. cbv zeta. rewrite fst_bind. cbn [snd fst ret app].
  destruct (Z.ltb_spec (Py.r_step r) 0); [lia|].
  rewrite (getitem_last r Hn), (getitem_first r Hn).
  destruct (Z.geb_spec (Py.last r) (get_len self p)); [lia|].
  rewrite fst_bind. cbn [snd fst app]. rewrite fst_bind. cbn [snd fst app].
  eexists. reflexivity.
Qed.

(** C10.  [out] is [None] when it is left out, and both operations
    unpack it after their argument checks and before they create a
    buffer or open a file.  So every call without [out] raises an
    exception with no buffer created and no file opened ([get_sample]:
    [IndexError] for an index out of range, else the [TypeError] of the
    unpacking).  New buffers for both arrays are created only when
    [out] is [(True, True)], and then they are, for a valid index or
    range. *)
Theorem out_omitted_raises_before_reading
        (MU_MAX : R) (uninit : image) (self : LoDoPaBDataset) (st : store)
        (p : part) :
  (forall index,
     get_sample MU_MAX self st index p None
     = ([], Raise (if (index >=? get_len self p)
                      || (index <? - get_len self p)
                   then IndexError else TypeError))) /\
  (forall key, exists e,
     get_samples MU_MAX uninit self st key p None = ([], Raise e)) /\
  (forall index out,
     In (ev_new observation) (fst (get_sample MU_MAX self st index p out)) ->
     In (ev_new ground_truth) (fst (get_sample MU_MAX self st index p out)) ->
     out = Some (OBool true, OBool true)) /\
  (forall key out,
     In (ev_new observation)
        (fst (get_samples MU_MAX uninit self st key p out)) ->
     In (ev_new ground_truth)
        (fst (get_samples MU_MAX uninit self st key p out)) ->
     out = Some (OBool true, OBool true)) /\
  (forall index,
     store_ok self st -> - get_len self p <= index < get_len self p ->
     exists t,
       fst (get_sample MU_MAX self st index p (Some (OBool true, OBool true)))
       = ev_new observation :: ev_new ground_truth :: t) /\
  (forall r,
     range_ok (get_len self p) r ->
     exists t,
       fst (get_samples MU_MAX uninit self st (KRange r) p
              (Some (OBool true, OBool true)))
       = ev_new observation :: ev_new ground_truth :: t).
Proof.
  split; [|split; [|split; [|split; [|split]]]].
  - intros index. unfold get_sample. now destruct (_ || _).
  - intros key. unfold get_samples. cbv zeta.
    destruct key as [k|r|]; cbn [bind ret raise];
      try (eexists; reflexivity);
      (destruct (_ <? _); [eexists; reflexivity|]);
      (destruct (Py.getitem _ (-1)); [|eexists; reflexivity]);
      (destruct (_ >=? _); [eexists; reflexivity|]);
      (destruct (Py.getitem _ 0); eexists; reflexivity).
  - intros index out Ho Hg.
    apply get_sample_new_buffer in Ho, Hg.
    destruct Ho as (oo & og & -> & ->).
    destruct Hg as (oo' & og' & E & ->). now injection E as <- <-.
  - intros key out Ho Hg.
    apply get_samples_new_buffer in Ho, Hg.
    destruct Ho as (oo & og & -> & ->).
    destruct Hg as (oo' & og' & E & ->). now injection E as <- <-.
  - intros index Hst Hidx.
    destruct (get_sample_ok MU_MAX self st index p (OBool true) (OBool true)
                Hst Hidx) as (o & _ & E).
    rewrite E. cbn [fst app]. eexists. reflexivity.
  - intros r Hok. now apply get_samples_true_true_events.
Qed.

(** * Instances on the example dataset *)

Lemma store_example_ok (pl : bool) (mpc : option R) :
  store_ok (lodopab pl mpc) store_example.
Proof. exact (store_of_ok (lodopab true None) data_example). Qed.

Lemma other_floor_example (pl : bool) :
  other_floor (lodopab pl (Some 0.5%R)) 0.5%R.
Proof. split; [reflexivity|]. unfold ORIG_MIN_PHOTON_COUNT. lra. Qed.

Lemma init_example :
  init "post-log" None = Ok (lodopab true None) /\
  init "pre-log" (Some 0.5%R) = Ok (lodopab false (Some 0.5%R)) /\
  init "post-log" (Some 2%R) = Ok (lodopab true (Some 1%R)) /\
  init "prelog" None = Raise ValueError.
Proof.
  unfold init, lodopab. cbn [String.eqb Ascii.eqb Bool.eqb].
  repeat split.
  - destruct (Rle_dec 0.5 1) as [_|H]; [reflexivity|]. exfalso. lra.
  - destruct (Rle_dec 2 1) as [H|_]; [|reflexivity]. exfalso. lra.
Qed.

Lemma get_samples_slices_reconstruct_range_witness :
  flat_map (fun js =>
              getslice (shard 10 (map Z.of_nat (seq 0 30)) (fst js)) (snd js))
           (slices_files 10 (Py.Range 3 27 4))
  = Py.to_list (Py.Range 3 27 4)
  /\ forall (A : Type) (data : list A),
       List.length data = 30%nat ->
       flat_map (fun js => getslice (shard 10 data (fst js)) (snd js))
                (slices_files 10 (Py.Range 3 27 4))
       = getrange data (Py.Range 3 27 4).
Proof.
  apply (get_samples_slices_reconstruct_range 10 (Py.Range 3 27 4) 30).
  - lia.
  - unfold range_ok. cbn. lia.
Defined.

Lemma trafo_post_log_orig_floor_identity_witness :
  get_observation_trafo mu_max_example (lodopab true None) 1 (d := D2)
    [0%R; 2%R]
  = Ok [0%R; 2%R].
Proof.
  apply (trafo_post_log_orig_floor_identity mu_max_example
           (lodopab true None) 1 D2).
  - reflexivity.
  - left. reflexivity.
Defined.

Lemma trafo_pre_log_orig_floor_witness :
  get_observation_trafo mu_max_example (lodopab false None) 1 (d := D2)
    [0%R; 2%R]
  = Ok (amap (d := D2) (fun v => exp (- (v * mu_max_example))) [0%R; 2%R])
  /\ get_observation_trafo mu_max_example (lodopab false None) 1 (d := D2)
       [0%R]
     = Ok [1%R].
Proof.
  apply (trafo_pre_log_orig_floor mu_max_example (lodopab false None) 1 D2).
  - reflexivity.
  - left. reflexivity.
Defined.

Lemma trafo_post_log_other_floor_witness :
  (exists g : R -> R,
     (forall v, (v >= thres0 mu_max_example)%R ->
                g v = (- ln (0.5 / 4096) / mu_max_example)%R) /\
     (forall v, (v < thres0 mu_max_example)%R -> g v = v) /\
     get_observation_trafo mu_max_example (lodopab true (Some 0.5%R)) 1
       (d := D2) [0%R; 2%R]
     = Ok (amap (d := D2) g [0%R; 2%R]) /\
     get_observation_trafo mu_max_example (lodopab true (Some 0.5%R)) 2
       (d := D3) [[0%R]; [2%R]]
     = Ok (amap (d := D3) g [[0%R]; [2%R]])) /\
  get_observation_trafo mu_max_example (lodopab true (Some 0.5%R)) 1
    (d := D3) [[2%R]]
  = Raise ValueError.
Proof.
  destruct (trafo_post_log_other_floor mu_max_example
              (lodopab true (Some 0.5%R)) 0.5%R)
    as ((g & Hge & Hlt & _ & Hone & Hstack) & Hraise).
  - reflexivity.
  - apply other_floor_example.
  - lra.
  - split.
    + exists g. split; [exact Hge|]. split; [exact Hlt|]. split.
      * apply Hone.
      * apply (Hstack [[0%R]; [2%R]]). discriminate.
    + apply (Hraise [[2%R]]). reflexivity.
Defined.

Lemma get_sample_index_error_iff_witness :
  exists o,
    snd (get_sample mu_max_example (lodopab true None) store_example 35819
           train (Some (OBool true, OBool true)))
    = Ok (Some o, Some (sample_at store_example ground_truth train 35819)).
Proof.
  apply (proj2 (proj2 (get_sample_index_error_iff mu_max_example
                         (lodopab true None) store_example train))).
  - apply store_example_ok.
  - cbn. lia.
Defined.

Lemma get_sample_negative_index_witness :
  get_sample mu_max_example (lodopab true None) store_example (-1) train
    (Some (OBool true, OBool true))
  = get_sample mu_max_example (lodopab true None) store_example 35819 train
      (Some (OBool true, OBool true)).
Proof.
  refine (proj1 (get_sample_negative_index mu_max_example (lodopab true None)
                   store_example (-1) train (Some (OBool true, OBool true))
                   _)).
  cbn. lia.
Defined.

Lemma get_samples_single_other_floor_raises_witness :
  (exists obs,
     snd (get_sample mu_max_example (lodopab true (Some 0.5%R)) store_example
            0 train (Some (OBool true, OBool true)))
     = Ok (Some obs, Some (sample_at store_example ground_truth train 0))) /\
  snd (get_samples mu_max_example [] (lodopab true (Some 0.5%R))
         store_example (KRange (Py.Range 0 1 1)) train
         (Some (OBool true, OBool true)))
  = Raise ValueError.
Proof.
  apply (get_samples_single_other_floor_raises mu_max_example []
           (lodopab true (Some 0.5%R)) store_example train 0 0.5%R).
  - apply store_example_ok.
  - cbn. lia.
  - apply other_floor_example.
Defined.

Lemma get_samples_negative_step_raises_witness :
  get_samples mu_max_example [] (lodopab true None) store_example
    (KRange (Py.Range 5 0 (-1))) train (Some (OBool true, OBool true))
  = ([], Raise ValueError).
Proof.
  apply (proj1 (get_samples_negative_step_raises mu_max_example []
                  (lodopab true None) store_example train
                  (Some (OBool true, OBool true)))
               (KRange (Py.Range 5 0 (-1))) (-1)).
  - reflexivity.
  - lia.
Defined.

(** C3 as stated does not hold: the slice key [slice(0, 2, 0)] is not
    rejected, [get_samples] returns the samples 0 and 1. *)
Lemma get_samples_slice_step_zero_accepted :
  snd (get_samples mu_max_example [] (lodopab true None) store_example
         (KSlice (Py.Slice (Some 0) (Some 2) (Some 0))) train
         (Some (OBool true, OBool true)))
  = Ok (Some [[0%R]; [1%R]], Some [[(0 / 35820)%R]; [(1 / 35820)%R]]).
Proof.
  rewrite get_samples_slice.
  change (KRange _) with (KRange (Py.Range 0 2 1)).
  rewrite get_samples_ok;
    [ | apply store_example_ok | unfold range_ok; cbn; lia
      | vm_compute; discriminate | exact I | exact I ].
  cbv zeta. cbn [out_buffer option_map].
  rewrite trafo_orig_floor by (left; reflexivity).
  reflexivity.
Qed.

Lemma get_samples_ground_truth_or_shape_error_witness :
  snd (get_samples mu_max_example [] (lodopab true (Some 0.5%R))
         store_example (KRange (Py.Range 0 1 1)) train
         (Some (OBool true, OBool true)))
  = Raise ValueError.
Proof.
  refine (proj1 (proj2 (get_samples_ground_truth_or_shape_error
                          mu_max_example [] (lodopab true (Some 0.5%R))
                          store_example train (store_example_ok _ _))
                       (Py.Range 0 1 1) (OBool true) (OBool true) [[]]
                       _ _ I I eq_refl)
                0.5%R [[]] (other_floor_example true) eq_refl eq_refl).
  - unfold range_ok. cbn. lia.
  - vm_compute. discriminate.
Defined.

Lemma out_omitted_raises_before_reading_witness :
  get_sample mu_max_example (lodopab true None) store_example 0 train None
  = ([], Raise TypeError) /\
  exists t,
    fst (get_sample mu_max_example (lodopab true None) store_example 0 train
           (Some (OBool true, OBool true)))
    = ev_new observation :: ev_new ground_truth :: t.
Proof.
  destruct (out_omitted_raises_before_reading mu_max_example []
              (lodopab true None) store_example train)
    as (H1 & _ & _ & _ & H5 & _).
  split.
  - exact (H1 0).
  - apply H5; [apply store_example_ok | cbn; lia].
Defined.

(** * Further properties of the dataset *)

(** ** The constructor *)

(** [__init__] refuses exactly the observation models other than
    ['post-log'] and ['pre-log'].  The floor it stores is the given one
    cut at 1 ([None] stays [None]), so a stored floor is never above 1,
    and the lengths of the parts are 35820, 3522 and 3553. *)
Theorem init_stores_floor_at_most_one
        (observation_model : string) (mpc : option R) :
  (init observation_model mpc = Raise ValueError <->
   observation_model <> "post-log"%string /\
   observation_model <> "pre-log"%string) /\
  (forall self, init observation_model mpc = Ok self ->
     (post_log self = true <-> observation_model = "post-log"%string) /\
     min_photon_count self = option_map (fun m => Rmin m 1) mpc /\
     (forall m, min_photon_count self = Some m -> (m <= 1)%R) /\
     get_len self train = 35820 /\ get_len self validation = 3522 /\
     get_len self test = 3553).
Proof.
  assert (Hmpc : match mpc with
                 | None => None
                 | Some m => if Rle_dec m 1 then Some m else Some 1%R
                 end = option_map (fun m => Rmin m 1) mpc).
  { destruct mpc as [m|]; [|reflexivity]. cbn [option_map]. unfold Rmin.
    now destruct (Rle_dec m 1). }
  assert (Hle : forall m, option_map (fun m => Rmin m 1) mpc = Some m ->
                          (m <= 1)%R).
  { intros m. destruct mpc as [m0|]; [|discriminate]. cbn [option_map].
    intros E. injection E as <-. apply Rmin_r. }
  unfold init. rewrite Hmpc.
  destruct (String.eqb_spec observation_model "post-log") as [E1|E1].
  - split.
    + split; [discriminate|]. intros (H & _). contradiction.
    + intros self E. injection E as <-. cbn.
      repeat split; auto.
  - destruct (String.eqb_spec observation_model "pre-log") as [E2|E2].
    + split.
      * split; [discriminate|]. intros (_ & H). contradiction.
      * intros self E. injection E as <-. cbn.
        repeat split; auto; discriminate.
    + split; [|discriminate]. split; auto.
Qed.

(** ** The check for the files *)

Lemma ceil_div_pred (a s : Z) :
  0 < s -> 0 < a -> Py.ceil_div a s - 1 = (a - 1) / s.
Proof.
  intros Hs Ha.
  pose proof (Z.div_mod (a - 1) s ltac:(lia)) as E.
  pose proof (Z.mod_pos_bound (a - 1) s Hs) as B.
  rewrite (ceil_div_unique a s ((a - 1) / s + 1)); lia.
Qed.

(** For parts that are not empty, [check_for_lodopab] answers [True]
    exactly when, for each of the three parts, the observation file of
    the first sample and the observation file of the last sample exist
    (the file [(len - 1) // 128] that [get_sample] reads for the last
    index); the ground truth files are not looked at.  It answers
    [True] when all files exist. *)
Theorem check_for_lodopab_iff (self : LoDoPaBDataset) (st : store) :
  (forall p, 0 < get_len self p) ->
  (check_for_lodopab self st = true <->
   forall p, st observation p 0 <> None /\
             st observation p ((get_len self p - 1) / NUM_SAMPLES_PER_FILE)
             <> None) /\
  (store_ok self st -> check_for_lodopab self st = true).
Proof.
  intros Hlen.
  assert (Hex : forall f p i, path_exists st f p i = true <-> st f p i <> None).
  { intros f p i. unfold path_exists. destruct (st f p i); split;
      congruence. }
  assert (Hnf : forall p, num_files self p - 1
                          = (get_len self p - 1) / NUM_SAMPLES_PER_FILE).
  { intros p. apply ceil_div_pred; [apply spf_pos|apply Hlen]. }
  assert (Hiff : check_for_lodopab self st = true <->
                 forall p, st observation p 0 <> None /\
                           st observation p
                              ((get_len self p - 1) / NUM_SAMPLES_PER_FILE)
                           <> None).
  { unfold check_for_lodopab. cbn [forallb].
    rewrite !andb_true_iff, !Hex, !Hnf. split.
    - intros (Ht & Hv & Hs & _) p. destruct p; assumption.
    - intros H. repeat split; try apply H. }
  split; [exact Hiff|].
  intros Hst. apply Hiff. intros p.
  pose proof spf_pos as Hspf. pose proof (Hlen p) as Hp.
  assert (0 <= (get_len self p - 1) / NUM_SAMPLES_PER_FILE)
    by (apply Z.div_pos; lia).
  pose proof (Z.div_mod (get_len self p - 1) NUM_SAMPLES_PER_FILE
                ltac:(lia)) as E.
  pose proof (Z.mod_pos_bound (get_len self p - 1) NUM_SAMPLES_PER_FILE Hspf)
    as B.
  split.
  - destruct (Hst observation p 0 ltac:(lia) ltac:(lia)) as (rows & -> & _).
    discriminate.
  - destruct (Hst observation p
                  ((get_len self p - 1) / NUM_SAMPLES_PER_FILE)
                  ltac:(lia) ltac:(lia)) as (rows & -> & _).
    discriminate.
Qed.

(** ** More on the observation transform *)

Lemma amap_ext {d : dim} {A B} (g h : A -> B) (a : arr d A) :
  (forall v, g v = h v) -> amap g a = amap h a.
Proof.
  intros H. destruct d; cbn [amap arr] in *.
  - now apply map_ext.
  - apply map_ext. intros row. now apply map_ext.
Qed.

(** Without [post_log] and with another floor [mpc], on a buffer of the
    shape of the mask, the entries [v >= thres0] become [mpc / 4096] and
    the entries below become [exp (- v * MU_MAX)]; on a stack of samples,
    with the mask of a single sample ([num_samples = 1]), the transform
    raises [ValueError]. *)
Theorem trafo_pre_log_other_floor
        (MU_MAX : R) (self : LoDoPaBDataset) (mpc : R) :
  post_log self = false ->
  other_floor self mpc ->
  (forall (num_samples : Z) (d : dim) (obs : arr d R),
     shape_of observation obs
     = (if num_samples =? 1 then shape observation
        else num_samples :: shape observation) ->
     exists g : R -> R,
       get_observation_trafo MU_MAX self num_samples obs = Ok (amap g obs) /\
       (forall v, (v >= thres0 MU_MAX)%R -> g v = (mpc / 4096)%R) /\
       (forall v, (v < thres0 MU_MAX)%R -> g v = exp (- (v * MU_MAX)))) /\
  (forall stack : arr D3 R,
     get_observation_trafo MU_MAX self 1 (d := D3) stack = Raise ValueError).
Proof.
  intros Hpl Hfloor. split.
  - intros num_samples d obs Hshape.
    exists (fun v => if Rge_dec v (thres0 MU_MAX)
                     then (mpc / PHOTONS_PER_PIXEL)%R
                     else exp (- (v * MU_MAX))).
    rewrite (trafo_other_floor MU_MAX self mpc) by assumption.
    rewrite Hshape, shape_eqb_refl, Hpl.
    split; [reflexivity|]. split.
    + intros v Hv. now destruct (Rge_dec v (thres0 MU_MAX)).
    + intros v Hv. destruct (Rge_dec v (thres0 MU_MAX)); [lra|reflexivity].
  - intros stack.
    rewrite (trafo_other_floor MU_MAX self mpc) by assumption.
    change (1 =? 1) with true. cbv iota. cbn [shape_of shape].
    rewrite shape_eqb_neq; [reflexivity|discriminate].
Qed.

(** The transform of the pre-log model is the transform of the post-log
    model followed by [v -> exp (- v * MU_MAX)], for every floor that is
    positive, on every buffer with the original floor and on the buffers
    of the shape of the mask with another floor. *)
Theorem trafo_pre_log_is_exp_of_post_log
        (MU_MAX : R) (self_post self_pre : LoDoPaBDataset) (num_samples : Z)
        (d : dim) (obs : arr d R) :
  post_log self_post = true ->
  post_log self_pre = false ->
  min_photon_count self_pre = min_photon_count self_post ->
  MU_MAX <> 0%R ->
  (forall m, min_photon_count self_post = Some m -> (0 < m)%R) ->
  orig_floor self_post \/
  shape_of observation obs
  = (if num_samples =? 1 then shape observation
     else num_samples :: shape observation) ->
  exists o,
    get_observation_trafo MU_MAX self_post num_samples obs = Ok o /\
    get_observation_trafo MU_MAX self_pre num_samples obs
    = Ok (amap (fun v => exp (- (v * MU_MAX))) o).
Proof.
  intros Hpost Hpre Hsame Hmu Hpos Hc.
  destruct (floor_cases self_post) as [H | (mpc & H)].
  - assert (H' : orig_floor self_pre)
      by (unfold orig_floor in *; now rewrite Hsame).
    rewrite !trafo_orig_floor by assumption. rewrite Hpost, Hpre. eauto.
  - destruct Hc as [Hc|Hshape]; [destruct (floor_exclusive self_post mpc Hc H)|].
    assert (H' : other_floor self_pre mpc)
      by (unfold other_floor in *; now rewrite Hsame).
    rewrite (trafo_other_floor MU_MAX self_post mpc),
            (trafo_other_floor MU_MAX self_pre mpc) by assumption.
    rewrite Hpost, Hpre, Hshape, shape_eqb_refl.
    eexists. split; [reflexivity|].
    f_equal. rewrite amap_amap. apply amap_ext. intros v.
    destruct (Rge_dec v (thres0 MU_MAX)); [|reflexivity].
    assert (Hx : (0 < mpc / PHOTONS_PER_PIXEL)%R).
    { pose proof (Hpos mpc (proj1 H)). unfold PHOTONS_PER_PIXEL. lra. }
    replace (- (- ln (mpc / PHOTONS_PER_PIXEL) / MU_MAX * MU_MAX))%R
      with (ln (mpc / PHOTONS_PER_PIXEL)) by (field; assumption).
    symmetry. now apply exp_ln.
Qed.

(** [thres0] lies between the values stored for one photon or more and
    the value stored for the original floor of 0.1 photons: with
    [post_log] and another floor [mpc], the stored value of the
    original floor is replaced by the value of [mpc], and the stored
    value [- ln (c / 4096) / MU_MAX] of every count [c >= 1] is kept. *)
Theorem trafo_replaces_floor_only
        (MU_MAX : R) (self : LoDoPaBDataset) (mpc c : R) :
  post_log self = true ->
  other_floor self mpc ->
  (0 < MU_MAX)%R -> (1 <= c)%R ->
  get_observation_trafo MU_MAX self 1 (d := D2)
    [(- ln (ORIG_MIN_PHOTON_COUNT / PHOTONS_PER_PIXEL) / MU_MAX)%R;
     (- ln (c / PHOTONS_PER_PIXEL) / MU_MAX)%R]
  = Ok [(- ln (mpc / PHOTONS_PER_PIXEL) / MU_MAX)%R;
        (- ln (c / PHOTONS_PER_PIXEL) / MU_MAX)%R].
Proof.
  intros Hpl Hfloor Hmu Hc.
  rewrite (trafo_other_floor MU_MAX self mpc) by assumption.
  cbn [shape_of Z.eqb Pos.eqb]. rewrite shape_eqb_refl, Hpl.
  assert (HA : (ln (ORIG_MIN_PHOTON_COUNT / PHOTONS_PER_PIXEL)
                < ln (1 / PHOTONS_PER_PIXEL))%R).
  { apply ln_increasing; unfold ORIG_MIN_PHOTON_COUNT, PHOTONS_PER_PIXEL;
      lra. }
  assert (HC : (ln (1 / PHOTONS_PER_PIXEL) <= ln (c / PHOTONS_PER_PIXEL))%R).
  { destruct (Req_dec c 1) as [->|Hne]; [lra|].
    left. apply ln_increasing; unfold PHOTONS_PER_PIXEL; lra. }
  assert (Hi : (0 < / MU_MAX)%R) by now apply Rinv_0_lt_compat.
  unfold thres0, Rdiv in *.
  set (A := ln (ORIG_MIN_PHOTON_COUNT * / PHOTONS_PER_PIXEL)) in *.
  set (B := ln (1 * / PHOTONS_PER_PIXEL)) in *.
  set (C := ln (c * / PHOTONS_PER_PIXEL)) in *.
  set (i := (/ MU_MAX)%R) in *.
  assert (H1 : (0 < (B - A) * i)%R) by (apply Rmult_lt_0_compat; lra).
  assert (H2 : (0 <= (C - B) * i)%R) by (apply Rmult_le_pos; lra).
  cbn [amap map]. f_equal. f_equal; [|f_equal].
  - destruct (Rge_dec (- A * i) _); [reflexivity|]. exfalso. lra.
  - destruct (Rge_dec (- C * i) _); [|reflexivity]. exfalso. lra.
Qed.

(** ** The generator *)

Lemma list_as_map_nth {A} (d : A) (l : list A) :
  l = map (fun j => nth j l d) (seq 0 (List.length l)).
Proof.
  induction l as [|a l IH]; [reflexivity|].
  cbn [List.length seq map nth]. f_equal.
  rewrite <- seq_shift, map_map. exact IH.
Qed.

Lemma combine_map_map {A B C} (g : A -> B) (h : A -> C) (l : list A) :
  combine (map g l) (map h l) = map (fun x => (g x, h x)) l.
Proof.
  induction l as [|x l IH]; [reflexivity|]. cbn [map combine]. now rewrite IH.
Qed.

Lemma ceil_div_bounds (a s : Z) :
  0 < s -> s * (Py.ceil_div a s - 1) < a <= s * Py.ceil_div a s.
Proof.
  intros Hs. unfold Py.ceil_div.
  pose proof (Z.div_mod (- a) s ltac:(lia)) as E.
  pose proof (Z.mod_pos_bound (- a) s Hs) as B. lia.
Qed.

(** The rows of a file are the samples it stands for. *)
Lemma rows_as_samples (st : store) (f : field) (p : part) (i : Z)
      (rows : list image) :
  0 <= i -> st f p i = Some rows ->
  Z.of_nat (List.length rows) <= NUM_SAMPLES_PER_FILE ->
  rows = map (sample_at st f p)
             (prog (i * NUM_SAMPLES_PER_FILE) 1 (List.length rows)).
Proof.
  intros Hi Hrows Hlen. pose proof spf_pos as Hspf.
  rewrite (list_as_map_nth [] rows) at 1. unfold prog. rewrite map_map.
  apply map_ext_in. intros j Hj. apply in_seq in Hj.
  unfold sample_at.
  assert (E1 : (i * NUM_SAMPLES_PER_FILE + Z.of_nat j * 1)
               / NUM_SAMPLES_PER_FILE = i).
  { symmetry. apply Z.div_unique with (r := Z.of_nat j); lia. }
  assert (E2 : (i * NUM_SAMPLES_PER_FILE + Z.of_nat j * 1)
               mod NUM_SAMPLES_PER_FILE = Z.of_nat j).
  { symmetry. apply Z.mod_unique with (q := i); lia. }
  now rewrite E1, E2, Hrows, Nat2Z.id.
Qed.

Section GeneratorFacts.
Variable MU_MAX : R.
Variable self : LoDoPaBDataset.
Variable st : store.
Variable p : part.

Local Abbreviation spf := NUM_SAMPLES_PER_FILE.
Local Abbreviation trafo := (get_observation_trafo MU_MAX self 1 (d := D2)).
Local Abbreviation item :=
  (fun k => (trafo_single MU_MAX self (sample_at st observation p k),
             sample_at st ground_truth p k)).
Local Abbreviation opens :=
  (fun j => [ev_open ground_truth p j; ev_open observation p j]).

Lemma yield_samples_ok (ks : list Z) :
  yield_samples trafo
    (map (fun k => (sample_at st ground_truth p k,
                    sample_at st observation p k)) ks)
  = (map item ks, None).
Proof.
  induction ks as [|k ks IH]; [reflexivity|].
  cbn [map yield_samples]. rewrite IH. unfold trafo_single.
  destruct (trafo_single_ok MU_MAX self (sample_at st observation p k))
    as (o & ->).
  reflexivity.
Qed.

(** One file whose two versions exist and have the same number of rows. *)
Lemma generator_files_step (i : Z) (rest : list Z) (rg ro : list image) :
  0 <= i ->
  st ground_truth p i = Some rg -> st observation p i = Some ro ->
  List.length ro = List.length rg ->
  Z.of_nat (List.length rg) <= spf ->
  generator_files st p trafo (i :: rest)
  = let g := generator_files st p trafo rest in
    Generated (opens i ++ g_events g)
              (map item (prog (i * spf) 1 (List.length rg)) ++ g_items g)
              (g_raised g).
Proof.
  intros Hi Hg Ho Hlen Hle. cbn [generator_files]. unfold h5_open.
  rewrite Hg, Ho.
  rewrite (rows_as_samples st ground_truth p i rg Hi Hg Hle) at 1.
  rewrite (rows_as_samples st observation p i ro Hi Ho ltac:(lia)) at 1.
  rewrite Hlen, combine_map_map, yield_samples_ok. reflexivity.
Qed.

Lemma generator_files_ok (k : nat) : forall i,
  store_ok self st ->
  i + Z.of_nat k = num_files self p -> 0 <= i ->
  generator_files st p trafo (prog i 1 k)
  = Generated (flat_map opens (prog i 1 k))
              (map item (prog (i * spf) 1
                              (Z.to_nat (get_len self p - i * spf))))
              None.
Proof.
  pose proof spf_pos as Hspf.
  pose proof (ceil_div_bounds (get_len self p) spf Hspf) as Hnf.
  fold (num_files self p) in Hnf.
  induction k as [|k IH]; intros i Hst Hk Hi.
  - cbn [prog seq map generator_files flat_map].
    replace (Z.to_nat (get_len self p - i * spf)) with 0%nat by lia.
    reflexivity.
  - rewrite prog_cons.
    destruct (Hst ground_truth p i ltac:(lia) ltac:(lia))
      as (rg & Hg & Hlg).
    destruct (Hst observation p i ltac:(lia) ltac:(lia))
      as (ro & Ho & Hlo).
    rewrite (generator_files_step i _ rg ro) by (auto; lia).
    rewrite (IH (i + 1)) by (auto; lia). cbv zeta.
    cbn [g_events g_items g_raised flat_map]. f_equal.
    rewrite <- map_app. f_equal.
    replace (Z.to_nat (get_len self p - i * spf))
      with (List.length rg + Z.to_nat (get_len self p - (i + 1) * spf))%nat
      by lia.
    rewrite prog_app. f_equal.
    destruct (Z.to_nat (get_len self p - (i + 1) * spf)) eqn:Em;
      [reflexivity|].
    replace (i * spf + Z.of_nat (List.length rg) * 1) with ((i + 1) * spf)
      by lia.
    reflexivity.
Qed.
End GeneratorFacts.

Lemma nth_error_prog (a s : Z) (n k : nat) :
  (k < n)%nat -> nth_error (prog a s n) k = Some (a + Z.of_nat k * s).
Proof.
  intros Hk. unfold prog. rewrite nth_error_map, nth_error_seq.
  destruct (Nat.ltb_spec k n); [reflexivity|lia].
Qed.

Lemma to_list_files (nf : Z) :
  Py.to_list (Py.Range 0 nf 1) = prog 0 1 (Z.to_nat nf).
Proof.
  rewrite to_list_prog. cbn [Py.r_start Py.r_step]. f_equal.
  rewrite (len_unique 0 nf 1 (Z.max 0 nf)); lia.
Qed.

(** On files that all exist, [generator] runs to its end without an
    exception and yields one pair for every sample of the part, in the
    order of the indices: the pair at position [k] is what [get_sample]
    returns for index [k].  It opens the ground truth file and then the
    observation file of every file index, in increasing order, each
    once.  This holds for every floor and both observation models. *)
Theorem generator_yields_all_samples
        (MU_MAX : R) (self : LoDoPaBDataset) (st : store) (p : part) :
  store_ok self st ->
  let g := generator MU_MAX self st p in
  g_raised g = None /\
  g_events g
  = flat_map (fun j => [ev_open ground_truth p j; ev_open observation p j])
             (Py.to_list (Py.Range 0 (num_files self p) 1)) /\
  List.length (g_items g) = Z.to_nat (get_len self p) /\
  (forall k, 0 <= k < get_len self p ->
     exists o gt,
       nth_error (g_items g) (Z.to_nat k) = Some (o, gt) /\
       snd (get_sample MU_MAX self st k p (Some (OBool true, OBool true)))
       = Ok (Some o, Some gt)).
Proof.
  intros Hst g. pose proof spf_pos as Hspf.
  pose proof (ceil_div_bounds (get_len self p) NUM_SAMPLES_PER_FILE Hspf)
    as Hnf.
  fold (num_files self p) in Hnf.
  assert (Eg : g = Generated
                 (flat_map (fun j => [ev_open ground_truth p j;
                                      ev_open observation p j])
                    (Py.to_list (Py.Range 0 (num_files self p) 1)))
                 (map (fun k => (trafo_single MU_MAX self
                                   (sample_at st observation p k),
                                 sample_at st ground_truth p k))
                      (prog 0 1 (Z.to_nat (get_len self p))))
                 None).
  { unfold g, generator. cbv zeta. rewrite to_list_files.
    destruct (Z_le_gt_dec (num_files self p) 0) as [Hle|Hgt].
    - replace (Z.to_nat (num_files self p)) with 0%nat by lia.
      replace (Z.to_nat (get_len self p)) with 0%nat by lia.
      reflexivity.
    - rewrite (generator_files_ok MU_MAX self st p
                 (Z.to_nat (num_files self p)) 0 Hst) by lia.
      now rewrite Z.mul_0_l, Z.sub_0_r. }
  rewrite Eg. cbn [g_raised g_events g_items].
  split; [reflexivity|]. split; [reflexivity|]. split.
  - now rewrite length_map, prog_length.
  - intros k Hk.
    destruct (get_sample_ok MU_MAX self st k p (OBool true) (OBool true) Hst
                ltac:(lia)) as (o & Ho & E).
    assert (Hn : norm_index (get_len self p) k = k).
    { unfold norm_index. destruct (Z.ltb_spec k 0); [lia|reflexivity]. }
    rewrite Hn in *. exists o, (sample_at st ground_truth p k).
    rewrite E. split; [|reflexivity].
    rewrite nth_error_map, nth_error_prog by lia. cbn [option_map].
    unfold trafo_single. rewrite Z2Nat.id, Z.mul_1_r, Z.add_0_l, Ho by lia.
    reflexivity.
Qed.

Section GeneratorMissing.
Variable MU_MAX : R.
Variable self : LoDoPaBDataset.
Variable st : store.
Variable p : part.

Local Abbreviation spf := NUM_SAMPLES_PER_FILE.
Local Abbreviation trafo := (get_observation_trafo MU_MAX self 1 (d := D2)).
Local Abbreviation item :=
  (fun k => (trafo_single MU_MAX self (sample_at st observation p k),
             sample_at st ground_truth p k)).
Local Abbreviation opens :=
  (fun j => [ev_open ground_truth p j; ev_open observation p j]).

Lemma generator_files_prefix (k : nat) : forall i rest,
  0 <= i ->
  (forall i', i <= i' < i + Z.of_nat k ->
     exists rg ro, st ground_truth p i' = Some rg /\
       st observation p i' = Some ro /\
       Z.of_nat (List.length rg) = spf /\ Z.of_nat (List.length ro) = spf) ->
  generator_files st p trafo (prog i 1 k ++ rest)
  = let g := generator_files st p trafo rest in
    Generated (flat_map opens (prog i 1 k) ++ g_events g)
              (map item (prog (i * spf) 1 (k * Z.to_nat spf)) ++ g_items g)
              (g_raised g).
Proof.
  pose proof spf_pos as Hspf.
  induction k as [|k IH]; intros i rest Hi Hfull.
  - cbn [prog seq map app flat_map Nat.mul].
    now destruct (generator_files st p trafo rest).
  - rewrite prog_cons. cbn [app].
    destruct (Hfull i ltac:(lia)) as (rg & ro & Hg & Ho & Hlg & Hlo).
    rewrite (generator_files_step MU_MAX self st p i _ rg ro)
      by (auto; lia).
    rewrite (IH (i + 1)) by (try (intros; apply Hfull); lia).
    cbv zeta. cbn [g_events g_items g_raised flat_map].
    rewrite <- !app_assoc. f_equal. rewrite app_assoc, <- map_app.
    f_equal. f_equal.
    replace (S k * Z.to_nat spf)%nat
      with (List.length rg + k * Z.to_nat spf)%nat by lia.
    rewrite prog_app. f_equal. f_equal. lia.
Qed.
End GeneratorMissing.

(** When the files before index [j] are complete and the ground truth
    file [j] is missing, [generator] yields the [128 * j] samples of the
    files before [j], in order, and then ends with [OSError]; the
    observation file [j] is not opened.  When the ground truth file
    [j] exists and the observation file [j] is missing, it yields the
    same samples and ends with [OSError] after trying both files. *)
Theorem generator_missing_file
        (MU_MAX : R) (self : LoDoPaBDataset) (st : store) (p : part) (j : Z) :
  0 <= j < num_files self p ->
  (forall i, 0 <= i < j ->
     exists rg ro, st ground_truth p i = Some rg /\
       st observation p i = Some ro /\
       Z.of_nat (List.length rg) = NUM_SAMPLES_PER_FILE /\
       Z.of_nat (List.length ro) = NUM_SAMPLES_PER_FILE) ->
  let before :=
    flat_map (fun i => [ev_open ground_truth p i; ev_open observation p i])
             (Py.to_list (Py.Range 0 j 1)) in
  let items :=
    map (fun k => (trafo_single MU_MAX self (sample_at st observation p k),
                   sample_at st ground_truth p k))
        (Py.to_list (Py.Range 0 (NUM_SAMPLES_PER_FILE * j) 1)) in
  (st ground_truth p j = None ->
   generator MU_MAX self st p
   = Generated (before ++ [ev_open ground_truth p j]) items (Some OSError)) /\
  (st ground_truth p j <> None -> st observation p j = None ->
   generator MU_MAX self st p
   = Generated (before ++ [ev_open ground_truth p j; ev_open observation p j])
               items (Some OSError)).
Proof.
  intros Hj Hfull before items. pose proof spf_pos as Hspf.
  assert (Hsplit : Py.to_list (Py.Range 0 (num_files self p) 1)
                   = prog 0 1 (Z.to_nat j)
                     ++ j :: prog (j + 1) 1
                               (Z.to_nat (num_files self p - j - 1))).
  { rewrite to_list_files.
    replace (Z.to_nat (num_files self p))
      with (Z.to_nat j + S (Z.to_nat (num_files self p - j - 1)))%nat by lia.
    rewrite prog_app, prog_cons.
    replace (0 + Z.of_nat (Z.to_nat j) * 1) with j by lia. reflexivity. }
  assert (Hpre : forall rest,
             generator_files st p (get_observation_trafo MU_MAX self 1 (d := D2))
               (prog 0 1 (Z.to_nat j) ++ rest)
             = let g := generator_files st p
                          (get_observation_trafo MU_MAX self 1 (d := D2)) rest in
               Generated (before ++ g_events g) (items ++ g_items g)
                         (g_raised g)).
  { intros rest.
    rewrite (generator_files_prefix MU_MAX self st p (Z.to_nat j) 0 rest)
      by (try (intros; apply Hfull); lia).
    unfold before, items. rewrite !to_list_files. cbv zeta.
    do 4 f_equal. lia. }
  unfold generator. cbv zeta. rewrite Hsplit, Hpre. cbv zeta.
  cbn [generator_files]. unfold h5_open. split.
  - intros ->. cbn [g_events g_items g_raised]. now rewrite app_nil_r.
  - intros Hg ->. destruct (st ground_truth p j); [|contradiction].
    cbn [g_events g_items g_raised app]. now rewrite app_nil_r.
Qed.

(** ** [get_samples] and [get_sample] *)

Lemma get_samples_key_range
      (MU_MAX : R) (uninit : image) (self : LoDoPaBDataset) (st : store)
      (key : key_arg) (r : Py.range) (p : part)
      (out : option (out_arg (list image) * out_arg (list image))) :
  key_range (get_len self p) key = Some r ->
  get_samples MU_MAX uninit self st key p out
  = get_samples MU_MAX uninit self st (KRange r) p out.
Proof.
  destruct key as [k|r'|]; cbn [key_range]; intros E;
    [injection E as <-|injection E as <-|discriminate]; reflexivity.
Qed.

(** On a stack, the transform is the transform of each sample. *)
Lemma trafo_rows (MU_MAX : R) (self : LoDoPaBDataset) (rows o : list image) :
  get_observation_trafo MU_MAX self (Z.of_nat (List.length rows)) (d := D3)
    rows = Ok o ->
  o = map (trafo_single MU_MAX self) rows.
Proof.
  unfold trafo_single.
  destruct (floor_cases self) as [H | (mpc & H)].
  - rewrite (trafo_orig_floor MU_MAX self _ D3) by assumption.
    destruct (post_log self) eqn:Hpl; intros E; injection E as <-.
    + rewrite <- (map_id rows) at 1. apply map_ext. intros x.
      rewrite (trafo_orig_floor MU_MAX self _ D2) by assumption.
      now rewrite Hpl.
    + cbn [amap]. apply map_ext. intros x.
      rewrite (trafo_orig_floor MU_MAX self _ D2) by assumption.
      now rewrite Hpl.
  - rewrite (trafo_other_floor MU_MAX self mpc _ D3) by assumption.
    destruct (shape_eqb _ _); [|discriminate].
    destruct (post_log self) eqn:Hpl; intros E; injection E as <-;
      cbn [amap]; apply map_ext; intros x;
      rewrite (trafo_other_floor MU_MAX self mpc _ D2) by assumption;
      cbn [shape_of Z.eqb Pos.eqb]; rewrite shape_eqb_refl, Hpl;
      reflexivity.
Qed.

Lemma filled_new_buffer (uninit : image) (st : store) (f : field) (p : part)
      (r : Py.range) :
  filled st f p r (repeat uninit (Z.to_nat (Py.len r)))
  = map (sample_at st f p) (Py.to_list r).
Proof.
  unfold filled. rewrite skipn_all2 by (rewrite repeat_length; lia).
  apply app_nil_r.
Qed.

(** A batch is its samples one by one: on files that exist, for a valid
    range with a step of at most 128 and [out = (True, True)], when the
    floor is the original one or the range has more than one element,
    [get_samples] returns two stacks with one row per element of the
    range, and row [j] of each is what [get_sample] returns for the
    index [start + j * step]. *)
Theorem get_samples_is_get_sample_pointwise
        (MU_MAX : R) (uninit : image) (self : LoDoPaBDataset) (st : store)
        (p : part) (r : Py.range) :
  store_ok self st ->
  range_ok (get_len self p) r ->
  Py.r_step r <= NUM_SAMPLES_PER_FILE ->
  orig_floor self \/ Py.len r <> 1 ->
  exists obs gt,
    snd (get_samples MU_MAX uninit self st (KRange r) p
           (Some (OBool true, OBool true)))
    = Ok (Some obs, Some gt) /\
    Z.of_nat (List.length obs) = Py.len r /\
    Z.of_nat (List.length gt) = Py.len r /\
    forall j, 0 <= j < Py.len r ->
      exists o g,
        nth_error obs (Z.to_nat j) = Some o /\
        nth_error gt (Z.to_nat j) = Some g /\
        snd (get_sample MU_MAX self st (Py.r_start r + j * Py.r_step r) p
               (Some (OBool true, OBool true)))
        = Ok (Some o, Some g).
Proof.
  intros Hst Hok Hdense Hc. pose proof Hok as (Hstep & Hstart & Hlast).
  pose proof (range_len_pos r Hstep Hstart) as Hn.
  rewrite get_samples_ok; try assumption; try exact I.
  cbv zeta. cbn [out_buffer option_map]. rewrite !filled_new_buffer.
  set (rows := map (sample_at st observation p) (Py.to_list r)).
  assert (Hrows : List.length rows = Z.to_nat (Py.len r))
    by (unfold rows; now rewrite length_map, to_list_prog, prog_length).
  destruct (trafo_stack MU_MAX self rows) as (_ & Hfine).
  destruct Hfine as (o & Ho); [destruct Hc; [now left|right; lia]|].
  rewrite Ho. apply trafo_rows in Ho. subst o.
  eexists _, _. split; [reflexivity|].
  rewrite !length_map, to_list_prog, prog_length.
  split; [unfold rows; rewrite length_map, to_list_prog, prog_length; lia|].
  split; [lia|]. intros j Hj.
  set (k := Py.r_start r + j * Py.r_step r).
  assert (Hk : 0 <= k < get_len self p).
  { unfold k, Py.last in *. nia. }
  destruct (get_sample_ok MU_MAX self st k p (OBool true) (OBool true) Hst
              ltac:(lia)) as (o & Ho & E).
  assert (Hnk : norm_index (get_len self p) k = k).
  { unfold norm_index. destruct (Z.ltb_spec k 0); [lia|reflexivity]. }
  rewrite Hnk in *. exists o, (sample_at st ground_truth p k).
  unfold rows. rewrite !nth_error_map, to_list_prog, nth_error_prog by lia.
  rewrite Z2Nat.id by lia. fold k. cbn [option_map].
  unfold trafo_single. rewrite Ho, E. auto.
Qed.

Lemma read_files_no_index (st : store) (f : field) (p : part)
      (plan : list (Z * (Py.slice * Py.slice))) :
  forall a, snd (read_files st f p plan a) <> Raise IndexError.
Proof.
  induction plan as [|[i [slc_f slc_d]] plan IH]; intros a; [discriminate|].
  cbn [read_files].
  apply bind_no_index; [apply h5_open_no_index|intros data].
  apply bind_no_index; [apply read_direct_no_index|intros a']. apply IH.
Qed.

(** For a slice or a range as key (the step of a range is never 0),
    [get_samples] raises [IndexError] exactly when the step of the range
    of the key is not negative and the range is empty or its last
    element is not below the length of the part, whatever [out] and the
    files are; no buffer was created and no file opened then.  The
    bounds of a slice are not cut at the length: a stop above it is an
    error. *)
Theorem get_samples_index_error_iff
        (MU_MAX : R) (uninit : image) (self : LoDoPaBDataset) (st : store)
        (key : key_arg) (r : Py.range) (p : part)
        (out : option (out_arg (list image) * out_arg (list image))) :
  key_range (get_len self p) key = Some r ->
  Py.r_step r <> 0 ->
  (snd (get_samples MU_MAX uninit self st key p out) = Raise IndexError <->
   0 <= Py.r_step r /\ (Py.len r = 0 \/ get_len self p <= Py.last r)) /\
  (snd (get_samples MU_MAX uninit self st key p out) = Raise IndexError ->
   fst (get_samples MU_MAX uninit self st key p out) = []).
Proof.
  intros Hkey _. rewrite (get_samples_key_range _ _ _ _ key r) by assumption.
  pose proof (len_nonneg r) as Hn.
  assert (Hraise : 0 <= Py.r_step r ->
                   Py.len r = 0 \/ get_len self p <= Py.last r ->
                   get_samples MU_MAX uninit self st (KRange r) p out
                   = ([], Raise IndexError)).
  { intros Hs Hc. unfold get_samples. cbv zeta. cbn [bind ret].
    destruct (Z.ltb_spec (Py.r_step r) 0); [lia|].
    destruct (Z.eq_dec (Py.len r) 0) as [E|E].
    - now rewrite getitem_empty.
    - rewrite getitem_last by lia.
      destruct (Z.geb_spec (Py.last r) (get_len self p)); [reflexivity|].
      lia. }
  assert (Hiff : snd (get_samples MU_MAX uninit self st (KRange r) p out)
                 = Raise IndexError ->
                 0 <= Py.r_step r /\
                 (Py.len r = 0 \/ get_len self p <= Py.last r)).
  { destruct (Z_lt_ge_dec (Py.r_step r) 0) as [Hs|Hs].
    - unfold get_samples. cbv zeta. cbn [bind ret].
      destruct (Z.ltb_spec (Py.r_step r) 0); [discriminate|lia].
    - destruct (Z.eq_dec (Py.len r) 0) as [E|E]; [intros _; lia|].
      destruct (Z_le_gt_dec (get_len self p) (Py.last r)) as [Hl|Hl];
        [intros _; lia|].
      intros H. exfalso. revert H.
      unfold get_samples. cbv zeta. rewrite snd_bind. cbn [snd ret].
      destruct (Z.ltb_spec (Py.r_step r) 0); [lia|].
      rewrite getitem_last, getitem_first by lia.
      destruct (Z.geb_spec (Py.last r) (get_len self p)); [lia|].
      destruct out as [[oo og]|]; [|discriminate].
      repeat first
        [ apply bind_no_index; [|intros ?]
        | apply read_files_no_index
        | apply trafo_no_index
        | discriminate
        | match goal with
          | |- snd (match ?x with _ => _ end) <> _ => destruct x
          end ]. }
  split.
  - split; [exact Hiff|]. intros (Hs & Hc). now rewrite Hraise.
  - intros H. apply Hiff in H. destruct H as (Hs & Hc). now rewrite Hraise.
Qed.

(** Slices: a negative start counts from the end of the part, so
    [slice(-k, None)] is the range of the last [k] indices, and with
    files that exist and the original floor [get_samples] returns the
    last [k] samples; a stop above the length of the part is not cut
    but raises [IndexError], and so does a slice that selects
    nothing. *)
Theorem get_samples_slice_bounds
        (MU_MAX : R) (uninit : image) (self : LoDoPaBDataset) (st : store)
        (p : part) :
  (forall k, 1 <= k <= get_len self p ->
     store_ok self st -> orig_floor self -> post_log self = true ->
     snd (get_samples MU_MAX uninit self st
            (KSlice (Py.Slice (Some (- k)) None None)) p
            (Some (OBool true, OBool true)))
     = let last_k := Py.to_list
                       (Py.Range (get_len self p - k) (get_len self p) 1) in
       Ok (Some (map (sample_at st observation p) last_k),
           Some (map (sample_at st ground_truth p) last_k))) /\
  (forall a b out, 0 <= a -> get_len self p < b -> a < b ->
     get_samples MU_MAX uninit self st
       (KSlice (Py.Slice (Some a) (Some b) None)) p out
     = ([], Raise IndexError)) /\
  (forall a b out, 0 <= b <= a ->
     get_samples MU_MAX uninit self st
       (KSlice (Py.Slice (Some a) (Some b) None)) p out
     = ([], Raise IndexError)).
Proof.
  split; [|split].
  - intros k Hk Hst Hfloor Hpl. rewrite get_samples_slice.
    cbn [Py.s_start Py.s_stop Py.s_step or_1].
    destruct (Z.geb_spec (- k) 0); [lia|].
    rewrite Z.max_r by lia.
    replace (get_len self p + - k) with (get_len self p - k) by lia.
    set (r := Py.Range (get_len self p - k) (get_len self p) 1).
    assert (Hlen : Py.len r = k) by (apply len_unique; lia).
    assert (Hok : range_ok (get_len self p) r).
    { unfold range_ok, Py.last. rewrite Hlen. cbn [Py.r_start Py.r_stop
        Py.r_step r]. lia. }
    rewrite get_samples_ok; try assumption; try exact I;
      [|cbn [Py.r_step r]; pose proof spf_pos; lia].
    cbv zeta. cbn [out_buffer option_map]. rewrite !filled_new_buffer.
    rewrite trafo_orig_floor by assumption. now rewrite Hpl.
  - intros a b out Ha Hb Hab. rewrite get_samples_slice.
    cbn [Py.s_start Py.s_stop Py.s_step or_1].
    destruct (Z.geb_spec a 0); [|lia]. destruct (Z.geb_spec b 0); [|lia].
    set (r := Py.Range a b 1).
    destruct (len_bounds r ltac:(cbn; lia) ltac:(cbn; lia)) as (Hn & Hl & Hu).
    cbn [Py.r_start Py.r_stop Py.r_step r] in Hl, Hu.
    unfold get_samples. cbv zeta. cbn [bind ret Py.r_step r].
    change (1 <? 0) with false. cbv iota. fold r.
    rewrite getitem_last by assumption.
    destruct (Z.geb_spec (Py.last r) (get_len self p)); [reflexivity|].
    unfold Py.last in *. cbn [Py.r_start Py.r_step r] in *. lia.
  - intros a b out Hab. rewrite get_samples_slice.
    cbn [Py.s_start Py.s_stop Py.s_step or_1].
    destruct (Z.geb_spec a 0); [|lia]. destruct (Z.geb_spec b 0); [|lia].
    assert (Hlen : Py.len (Py.Range a b 1) = 0) by (apply len_unique; lia).
    unfold get_samples. cbv zeta. cbn [bind ret Py.r_step].
    change (1 <? 0) with false. cbv iota.
    now rewrite getitem_empty.
Qed.

(** The events of [get_samples] on a valid range with a step of at most
    128: new buffers where [out] asks for them, then the observation
    files of the range and then its ground truth files, each for a
    requested array only, one file for every index from [start // 128]
    to [last // 128] in increasing order, each once.  When the transform
    fails, the ground truth files are not opened. *)
Theorem get_samples_events
        (MU_MAX : R) (uninit : image) (self : LoDoPaBDataset) (st : store)
        (r : Py.range) (p : part) (oo og : out_arg (list image)) :
  store_ok self st ->
  range_ok (get_len self p) r ->
  Py.r_step r <= NUM_SAMPLES_PER_FILE ->
  buffer_fits oo (Py.len r) -> buffer_fits og (Py.len r) ->
  let files :=
    Py.to_list (Py.Range (Py.r_start r / NUM_SAMPLES_PER_FILE)
                         (Py.last r / NUM_SAMPLES_PER_FILE + 1) 1) in
  let new (o : out_arg (list image)) (f : field) :=
    match o with OBool true => [ev_new f] | _ => [] end in
  let gt_opens :=
    match out_buffer uninit og (Py.len r) with
    | None => []
    | Some _ => map (ev_open ground_truth p) files
    end in
  fst (get_samples MU_MAX uninit self st (KRange r) p (Some (oo, og)))
  = new oo observation ++ new og ground_truth
    ++ match out_buffer uninit oo (Py.len r) with
       | None => gt_opens
       | Some b =>
           map (ev_open observation p) files
           ++ match get_observation_trafo MU_MAX self
                      (Z.of_nat (List.length b)) (d := D3)
                      (filled st observation p r b) with
              | Ok _ => gt_opens
              | Raise _ => []
              end
       end.
Proof.
  intros Hst Hok Hdense Hoo Hog. pose proof Hok as (Hstep & Hstart & Hlast).
  pose proof (range_len_pos r Hstep Hstart) as Hn.
  cbv zeta. fold (range_files_of NUM_SAMPLES_PER_FILE r).
  unfold get_samples. cbv zeta. cbn [bind ret].
  destruct (Z.ltb_spec (Py.r_step r) 0); [lia|].
  rewrite (getitem_last r Hn), (getitem_first r Hn).
  destruct (Z.geb_spec (Py.last r) (get_len self p)); [lia|].
  fold (range_files_of NUM_SAMPLES_PER_FILE r).
  pose proof (fun f b => read_files_range self st p f r Hst Hok Hdense b)
    as Hread.
  pose proof (out_buffer_fits uninit oo (Py.len r)) as Fo.
  pose proof (out_buffer_fits uninit og (Py.len r)) as Fg.
  pose proof (fun b => filled_length st observation p r b) as Hfl.
  unfold filled in Hfl.
  destruct oo as [[|]|a]; destruct og as [[|]|b];
    cbn [out_buffer buffer_fits] in *; unfold filled;
    repeat first
      [ rewrite Hread
          by solve [ eapply Fo; (lia || eauto) | eapply Fg; (lia || eauto) ]
      | rewrite Hfl
          by solve [ eapply Fo; (lia || eauto) | eapply Fg; (lia || eauto) ]
      | progress cbn [bind ret lift fst snd app]
      | match goal with
        | |- context [@get_observation_trafo ?a ?b ?c ?d ?e] =>
            destruct (@get_observation_trafo a b c d e)
        end ];
    rewrite ?app_nil_r; reflexivity.
Qed.

(** An array that [out] does not ask for costs nothing: with
    [out = (False, True)] [get_sample] opens the ground truth file of
    the index only and returns its row with no observation, whether the
    observation files exist or not and for every configuration; with
    [out = (True, False)] it opens the observation file only; with
    [out = (False, False)] it opens no file and returns
    [(None, None)]. *)
Theorem get_sample_partial
        (MU_MAX : R) (self : LoDoPaBDataset) (st : store) (index : Z)
        (p : part) (f : field) (rows : list image) :
  - get_len self p <= index < get_len self p ->
  let k := norm_index (get_len self p) index in
  let fi := k / NUM_SAMPLES_PER_FILE in
  let row := nth (Z.to_nat (k mod NUM_SAMPLES_PER_FILE)) rows [] in
  get_sample MU_MAX self st index p (Some (OBool false, OBool false))
  = ([], Ok (None, None)) /\
  (st f p fi = Some rows ->
   k mod NUM_SAMPLES_PER_FILE < Z.of_nat (List.length rows) ->
   match f with
   | ground_truth =>
       get_sample MU_MAX self st index p (Some (OBool false, OBool true))
       = ([ev_new ground_truth; ev_open ground_truth p fi],
          Ok (None, Some row))
   | observation =>
       get_sample MU_MAX self st index p (Some (OBool true, OBool false))
       = ([ev_new observation; ev_open observation p fi],
          Ok (Some (trafo_single MU_MAX self row), None))
   end).
Proof.
  intros Hidx k fi row. pose proof spf_pos as Hspf.
  pose proof (Z.mod_pos_bound k NUM_SAMPLES_PER_FILE Hspf) as Hm.
  unfold get_sample. cbv zeta.
  destruct (Z.geb_spec index (get_len self p)); [lia|].
  destruct (Z.ltb_spec index (- get_len self p)); [lia|].
  cbn [orb]. fold (norm_index (get_len self p) index). fold k.
  split; [reflexivity|]. intros Hrows Hlt. subst fi.
  destruct f; unfold h5_open; cbn [bind ret lift fst snd app]; rewrite Hrows;
    cbn [bind ret lift fst snd app];
    rewrite read_direct_single by lia;
    cbn [bind ret lift fst snd app hd]; [|reflexivity].
  fold row. unfold trafo_single.
  destruct (trafo_single_ok MU_MAX self row) as (o & ->). reflexivity.
Qed.

(** The content of the buffers of the caller does not matter to
    [get_sample]: with arrays in [out] it returns the values it returns
    with [out = (True, True)], and creates no buffer. *)
Theorem get_sample_into_buffers
        (MU_MAX : R) (self : LoDoPaBDataset) (st : store) (index : Z)
        (p : part) (a b : image) :
  store_ok self st ->
  - get_len self p <= index < get_len self p ->
  snd (get_sample MU_MAX self st index p (Some (OArr a, OArr b)))
  = snd (get_sample MU_MAX self st index p (Some (OBool true, OBool true)))
  /\ fst (get_sample MU_MAX self st index p (Some (OArr a, OArr b)))
     = [ev_open observation p
          (norm_index (get_len self p) index / NUM_SAMPLES_PER_FILE);
        ev_open ground_truth p
          (norm_index (get_len self p) index / NUM_SAMPLES_PER_FILE)].
Proof.
  intros Hst Hidx.
  destruct (get_sample_ok MU_MAX self st index p (OArr a) (OArr b) Hst Hidx)
    as (o & Ho & E).
  destruct (get_sample_ok MU_MAX self st index p (OBool true) (OBool true)
              Hst Hidx) as (o' & Ho' & E').
  rewrite Ho in Ho'. injection Ho' as <-. rewrite E, E'.
  split; reflexivity.
Qed.

(** A buffer of the caller that is longer than the range, for a valid
    range with a step of at most 128: [get_samples] writes the samples
    of the range to its first rows, and the transform then runs over the
    whole buffer, so the rows behind the range come back transformed as
    well (unchanged only with [post_log] and the original floor). *)
Theorem get_samples_into_longer_buffer
        (MU_MAX : R) (uninit : image) (self : LoDoPaBDataset) (st : store)
        (p : part) (r : Py.range) (a : list image) :
  store_ok self st ->
  range_ok (get_len self p) r ->
  Py.r_step r <= NUM_SAMPLES_PER_FILE ->
  Py.len r <= Z.of_nat (List.length a) ->
  orig_floor self \/ List.length a <> 1%nat ->
  snd (get_samples MU_MAX uninit self st (KRange r) p
         (Some (OArr a, OBool false)))
  = Ok (Some (map (fun k => trafo_single MU_MAX self
                              (sample_at st observation p k))
                  (Py.to_list r)
              ++ map (trafo_single MU_MAX self)
                     (skipn (Z.to_nat (Py.len r)) a)),
        None).
Proof.
  intros Hst Hok Hdense Hfit Hc.
  rewrite get_samples_ok; try assumption; try exact I.
  cbv zeta. cbn [out_buffer option_map].
  destruct (trafo_stack MU_MAX self (filled st observation p r a))
    as (_ & Hfine).
  rewrite filled_length in * by assumption.
  destruct Hfine as (o & Ho); [exact Hc|].
  pose proof Ho as Ho'. rewrite <- (filled_length st observation p r a) in Ho'
    by assumption.
  apply trafo_rows in Ho'. rewrite Ho. subst o.
  unfold filled. now rewrite map_app, map_map.
Qed.

(** A range with a step above 128 can skip a file: [range_files] holds
    every file index from the first to the last one, and for a file
    without an element of the range the loop computes a slice whose stop
    is not behind its start and a destination of no rows.  When file
    [j] is the first such file, [get_samples] reads the files before
    it, opens file [j] and raises [ZeroDivisionError] there, for the
    first array that [out] asks for; nothing is returned. *)
Theorem get_samples_skipped_file
        (MU_MAX : R) (uninit : image) (self : LoDoPaBDataset) (st : store)
        (r : Py.range) (p : part) (j : Z) (oo og : out_arg (list image)) :
  store_ok self st ->
  range_ok (get_len self p) r ->
  let rf := range_files_of NUM_SAMPLES_PER_FILE r in
  Py.r_start r / NUM_SAMPLES_PER_FILE <= j
  <= Py.last r / NUM_SAMPLES_PER_FILE ->
  (forall i, Py.r_start r / NUM_SAMPLES_PER_FILE <= i < j ->
     slice_start NUM_SAMPLES_PER_FILE r rf i
     < slice_stop NUM_SAMPLES_PER_FILE r rf i) ->
  slice_stop NUM_SAMPLES_PER_FILE r rf j
  <= slice_start NUM_SAMPLES_PER_FILE r rf j ->
  buffer_fits oo (Py.len r) -> buffer_fits og (Py.len r) ->
  oo <> OBool false \/ og <> OBool false ->
  let new (o : out_arg (list image)) (f : field) :=
    match o with OBool true => [ev_new f] | _ => [] end in
  let fld := match oo with OBool false => ground_truth | _ => observation end in
  get_samples MU_MAX uninit self st (KRange r) p (Some (oo, og))
  = (new oo observation ++ new og ground_truth
     ++ map (ev_open fld p)
            (Py.to_list (Py.Range (Py.r_start r / NUM_SAMPLES_PER_FILE)
                                  (j + 1) 1)),
     Raise ZeroDivisionError).
Proof.
  intros Hst Hok rf Hj Hfull Hskip Hoo Hog Hreq.
  pose proof Hok as (Hstep & Hstart & Hlast).
  pose proof (range_len_pos r Hstep Hstart) as Hn.
  cbv zeta. unfold get_samples. cbv zeta. cbn [bind ret].
  destruct (Z.ltb_spec (Py.r_step r) 0); [lia|].
  rewrite (getitem_last r Hn), (getitem_first r Hn).
  destruct (Z.geb_spec (Py.last r) (get_len self p)); [lia|].
  fold (range_files_of NUM_SAMPLES_PER_FILE r). fold rf.
  pose proof (fun f b Hb =>
                read_files_range_skipped self st p f r Hst Hok j b Hb Hj
                  Hfull Hskip) as Hread.
  fold rf in Hread.
  pose proof (out_buffer_fits uninit oo (Py.len r)) as Fo.
  pose proof (out_buffer_fits uninit og (Py.len r)) as Fg.
  destruct oo as [[|]|a]; destruct og as [[|]|b];
    cbn [out_buffer buffer_fits] in *;
    try (destruct Hreq as [Hreq|Hreq]; now contradiction Hreq);
    repeat first
      [ rewrite Hread
          by solve [ eapply Fo; (lia || eauto) | eapply Fg; (lia || eauto) ]
      | progress cbn [bind ret lift fst snd app] ];
    rewrite ?app_nil_r; reflexivity.
Qed.

(** * Properties of the evaluation *)

(** ** The euclidean distance *)

Lemma sum_squares_nonneg (x : list R) :
  (0 <= fold_right Rplus 0 (map (fun v => v * v) x))%R.
Proof.
  induction x as [|v x IH]; cbn [map fold_right]; [lra|]. nra.
Qed.

Lemma sum_squares_zero (x : list R) :
  fold_right Rplus 0%R (map (fun v => (v * v)%R) x) = 0%R ->
  Forall (fun v => v = 0%R) x.
Proof.
  induction x as [|v x IH]; cbn [map fold_right]; intros H; constructor.
  - pose proof (sum_squares_nonneg x). nra.
  - apply IH. pose proof (sum_squares_nonneg x). nra.
Qed.

Lemma squares_difference_sym (r : list R) : forall g,
  map (fun v => (v * v)%R) (map2 Rminus r g)
  = map (fun v => (v * v)%R) (map2 Rminus g r).
Proof.
  unfold map2. induction r as [|a r IH]; intros [|b g]; try reflexivity.
  cbn [combine map fst snd]. rewrite IH. f_equal. ring.
Qed.

Lemma difference_zero (r : list R) : forall g,
  List.length r = List.length g ->
  Forall (fun v => v = 0%R) (map2 Rminus r g) -> r = g.
Proof.
  unfold map2. induction r as [|a r IH]; intros [|b g] Hlen H;
    try discriminate; [reflexivity|].
  cbn [combine map fst snd] in H. inversion H as [|? ? H0 H1]; subst.
  f_equal; [lra|]. apply IH; [now injection Hlen|assumption].
Qed.

Lemma difference_self (r : list R) :
  Forall (fun v => v = 0%R) (map2 Rminus r r).
Proof.
  unfold map2. induction r as [|a r IH]; cbn [combine map fst snd];
    constructor; [lra|assumption].
Qed.

Lemma sum_squares_of_zeros (x : list R) :
  Forall (fun v => v = 0%R) x ->
  fold_right Rplus 0%R (map (fun v => (v * v)%R) x) = 0%R.
Proof.
  induction 1 as [|v x Hv _ IH]; cbn [map fold_right]; [reflexivity|].
  rewrite IH, Hv. ring.
Qed.

(** [L2Measure.apply] on two arrays of the same shape returns a value
    that is not negative, does not depend on the order of the two
    arrays, and is 0 exactly when the arrays are equal. *)
Theorem l2_measure_is_a_distance (r g : list R) :
  List.length r = List.length g ->
  exists v,
    Eval.apply Eval.L2Measure (Some r) (Some g) = Eval.Done v /\
    Eval.apply Eval.L2Measure (Some g) (Some r) = Eval.Done v /\
    (0 <= v)%R /\ (v = 0%R <-> r = g).
Proof.
  intros Hlen. exists (Eval.norm (map2 Rminus r g)).
  cbn [Eval.apply Eval.L2Measure]. rewrite Hlen, Nat.eqb_refl.
  unfold Eval.norm.
  split; [reflexivity|]. split; [now rewrite squares_difference_sym|].
  split; [apply sqrt_pos|]. split.
  - intros H. apply sqrt_eq_0 in H; [|apply sum_squares_nonneg].
    apply difference_zero; [assumption|]. now apply sum_squares_zero.
  - intros <-. rewrite sum_squares_of_zeros by apply difference_self.
    apply sqrt_0.
Qed.

(** ** Measures by name *)

Lemma lower_ascii_l (c : Ascii.ascii) :
  Eval.lower_ascii c = "l"%char <-> c = "l"%char \/ c = "L"%char.
Proof.
  split.
  - destruct c as [[] [] [] [] [] [] [] []]; vm_compute; intros H;
      try discriminate H; auto.
  - intros [-> | ->]; reflexivity.
Qed.

Lemma lower_ascii_2 (c : Ascii.ascii) :
  Eval.lower_ascii c = "2"%char <-> c = "2"%char.
Proof.
  split.
  - destruct c as [[] [] [] [] [] [] [] []]; vm_compute; intros H;
      try discriminate H; auto.
  - intros ->; reflexivity.
Qed.

(** [measure_by_str] returns the euclidean distance for the names
    ['l2'] and ['L2'] and raises [ValueError] for every other string. *)
Theorem measure_by_str_l2 (s : string) :
  (s = "l2"%string \/ s = "L2"%string ->
   Eval.measure_by_str s = Eval.Done Eval.L2Measure) /\
  (s <> "l2"%string -> s <> "L2"%string ->
   Eval.measure_by_str s = Eval.Fail Eval.ValueError).
Proof.
  assert (H : Eval.lower s = "l2"%string <->
              s = "l2"%string \/ s = "L2"%string).
  { split.
    - destruct s as [|c1 [|c2 [|c3 s]]]; cbn [Eval.lower]; intros E;
        try discriminate E.
      injection E as E1 E2.
      apply (proj1 (lower_ascii_l c1)) in E1.
      apply (proj1 (lower_ascii_2 c2)) in E2. subst c2.
      destruct E1 as [-> | ->]; auto.
    - intros [-> | ->]; reflexivity. }
  unfold Eval.measure_by_str. cbn [find Eval.short_name Eval.L2Measure].
  split.
  - intros Hs. apply (proj2 H) in Hs. rewrite Hs. reflexivity.
  - intros H1 H2.
    destruct (String.eqb_spec "l2" (Eval.lower s)) as [E|E]; [|reflexivity].
    symmetry in E. apply (proj1 H) in E. tauto.
Qed.

(** ** The task table *)

(** [append_all_combinations] adds one task for every pair of a test
    datum and a reconstructor, behind the tasks that are there, test
    data in the outer and reconstructors in the inner order, all with the
    given measures (none when [measures] is left out): it adds
    [len(test_data) * len(reconstructors)] tasks and keeps the name. *)
Theorem append_all_combinations_tasks
        (Data : Type) (self : Eval.EvaluationTaskTable Data)
        (test_data : list (Eval.TestData Data))
        (reconstructors : list (Eval.Reconstructor Data))
        (measures : option (list (Eval.Measure Data))) :
  let self' :=
    Eval.append_all_combinations Data self test_data reconstructors measures in
  Eval.tasks self'
  = Eval.tasks self
    ++ flat_map (fun td =>
                   map (fun rc =>
                          Eval.Build_Task Data td rc
                            match measures with None => [] | Some l => l end)
                       reconstructors)
                test_data
  /\ List.length (Eval.tasks self')
     = (List.length (Eval.tasks self)
        + List.length test_data * List.length reconstructors)%nat
  /\ Eval.table_name self' = Eval.table_name self.
Proof.
  assert (Hin : forall td rcs (T : Eval.EvaluationTaskTable Data),
             Eval.tasks
               (fold_left (fun T rc => Eval.append Data T td rc measures)
                          rcs T)
             = Eval.tasks T
               ++ map (fun rc =>
                         Eval.Build_Task Data td rc
                           match measures with None => [] | Some l => l end)
                      rcs
             /\ Eval.table_name
                  (fold_left (fun T rc => Eval.append Data T td rc measures)
                             rcs T)
                = Eval.table_name T).
  { intros td rcs. induction rcs as [|rc rcs IH]; intros T.
    - cbn [fold_left map]. now rewrite app_nil_r.
    - cbn [fold_left map]. destruct (IH (Eval.append Data T td rc measures))
        as (-> & ->).
      cbn [Eval.append Eval.tasks Eval.table_name].
      now rewrite <- app_assoc. }
  assert (Hout : forall tds (T : Eval.EvaluationTaskTable Data),
             Eval.tasks
               (Eval.append_all_combinations Data T tds reconstructors measures)
             = Eval.tasks T
               ++ flat_map
                    (fun td =>
                       map (fun rc =>
                              Eval.Build_Task Data td rc
                                match measures with
                                | None => [] | Some l => l end)
                           reconstructors) tds
             /\ Eval.table_name
                  (Eval.append_all_combinations Data T tds reconstructors
                     measures)
                = Eval.table_name T).
  { unfold Eval.append_all_combinations.
    intros tds. induction tds as [|td tds IH]; intros T.
    - cbn [fold_left flat_map]. now rewrite app_nil_r.
    - cbn [fold_left flat_map].
      destruct (IH (fold_left
                      (fun T rc => Eval.append Data T td rc measures)
                      reconstructors T)) as (-> & ->).
      destruct (Hin td reconstructors T) as (-> & ->).
      now rewrite <- app_assoc. }
  cbv zeta. destruct (Hout test_data self) as (E1 & E2).
  split; [exact E1|]. split; [|exact E2].
  rewrite E1, length_app. f_equal.
  clear. induction test_data as [|td tds IH]; [reflexivity|].
  cbn [flat_map List.length]. rewrite length_app, length_map, IH. lia.
Qed.

(** ** The lists of measure values *)

Lemma row_append_length (h : Eval.heap) (l : nat) (v : R) :
  List.length (Eval.row_append h l v) = List.length h.
Proof.
  unfold Eval.row_append. destruct (Nat.ltb_spec l (List.length h));
    [|reflexivity].
  rewrite length_app. cbn [List.length].
  rewrite length_firstn, length_skipn. lia.
Qed.

Lemma row_append_same (h : Eval.heap) (l : nat) (v : R) :
  (l < List.length h)%nat ->
  Eval.row (Eval.row_append h l v) l = Eval.row h l ++ [v].
Proof.
  intros Hl. unfold Eval.row_append, Eval.row at 1.
  destruct (Nat.ltb_spec l (List.length h)); [|lia].
  rewrite app_nth2 by (rewrite length_firstn; lia).
  rewrite length_firstn. replace (l - Nat.min l (List.length h))%nat with 0%nat
    by lia.
  reflexivity.
Qed.

Lemma row_append_other (h : Eval.heap) (l l' : nat) (v : R) :
  l' <> l -> Eval.row (Eval.row_append h l v) l' = Eval.row h l'.
Proof.
  intros Hne. unfold Eval.row_append.
  destruct (Nat.ltb_spec l (List.length h)) as [Hl|Hl]; [|reflexivity].
  unfold Eval.row at 1 3.
  rewrite <- (firstn_skipn l h) at 4.
  destruct (Nat.lt_ge_cases l' l) as [Hlt|Hge].
  - rewrite !app_nth1 by (rewrite length_firstn; lia). reflexivity.
  - rewrite !app_nth2 by (rewrite length_firstn; lia).
    rewrite length_firstn.
    replace (l' - Nat.min l (List.length h))%nat
      with (S (l' - S l))%nat by lia.
    cbn [nth]. rewrite <- (firstn_skipn 1 (skipn l h)), skipn_skipn.
    rewrite app_nth2 by (rewrite length_firstn, length_skipn; lia).
    rewrite length_firstn, length_skipn.
    replace (Nat.min 1 (List.length h - l)) with 1%nat by lia.
    replace (1 + l)%nat with (S l) by lia.
    f_equal. lia.
Qed.

Lemma row_extend_facts (ws : list R) : forall (h : Eval.heap) (l : nat),
  List.length (row_extend h l ws) = List.length h /\
  ((l < List.length h)%nat ->
   Eval.row (row_extend h l ws) l = Eval.row h l ++ ws) /\
  (forall l', l' <> l -> Eval.row (row_extend h l ws) l' = Eval.row h l').
Proof.
  unfold row_extend.
  induction ws as [|w ws IH]; intros h l; cbn [fold_left].
  - split; [reflexivity|]. split; [intros _; now rewrite app_nil_r|].
    reflexivity.
  - destruct (IH (Eval.row_append h l w) l) as (H1 & H2 & H3).
    rewrite row_append_length in *. split; [exact H1|]. split.
    + intros Hl. rewrite H2, row_append_same by assumption.
      now rewrite <- app_assoc.
    + intros l' Hne. rewrite H3 by assumption. now apply row_append_other.
Qed.

Lemma new_list_rows (h : Eval.heap) :
  Eval.row (h ++ [[]]) (List.length h) = [] /\
  forall l, (l < List.length h)%nat -> Eval.row (h ++ [[]]) l = Eval.row h l.
Proof.
  unfold Eval.row. split.
  - rewrite app_nth2, Nat.sub_diag by lia. reflexivity.
  - intros l Hl. now rewrite app_nth1.
Qed.

Lemma append_values_ok (Data : Type) (measures : list (Eval.Measure Data))
      (reconstruction gt : option Data) (ws : list R) :
  measured measures reconstruction gt ws ->
  forall (h : Eval.heap) (loc : nat),
    Eval.append_values Data h loc measures reconstruction gt
    = (row_extend h loc ws, Eval.Done tt).
Proof.
  unfold measured, row_extend.
  induction 1 as [|m w ms ws Hm _ IH]; intros h loc; [reflexivity|].
  cbn [Eval.append_values fold_left]. rewrite Hm. apply IH.
Qed.

(** ** Running a task table *)

Lemma run_tasks_ok (Data : Type) (save : bool)
      (ts : list (Eval.Task Data)) :
  forall (vss : list (list R)) (h : Eval.heap)
         (res : Eval.EvaluationResultTable Data),
    Forall2 (fun t vs => task_measured (Eval.task_measures t) t vs) ts vss ->
    exists h' res',
      Eval.run_tasks Data h res save ts = (h', Eval.Done res') /\
      Eval.reconstructions res'
      = Eval.reconstructions res
        ++ map (fun t =>
                  if save
                  then Some (Eval.reconstruct (Eval.task_reconstructor t)
                               (Eval.observation (Eval.task_test_data t)))
                  else None) ts /\
      Eval.test_data res'
      = Eval.test_data res ++ map (fun t => Eval.TD (Eval.task_test_data t)) ts
      /\
      Eval.measure_values res'
      = Eval.measure_values res ++ seq (List.length h) (List.length ts) /\
      List.length h' = (List.length h + List.length ts)%nat /\
      (forall l, (l < List.length h)%nat -> Eval.row h' l = Eval.row h l) /\
      map (Eval.row h') (seq (List.length h) (List.length ts)) = vss.
Proof.
  induction ts as [|t ts IH]; intros vss h res Hv.
  - inversion Hv; subst. exists h, res. cbn [Eval.run_tasks map seq
      List.length]. rewrite !app_nil_r, Nat.add_0_r. auto 10.
  - inversion Hv as [|? vs ? vss' Ht Hts]; subst.
    cbn [Eval.run_tasks]. cbv zeta. unfold Eval.new_list.
    unfold task_measured in Ht.
    rewrite (append_values_ok Data _ _ _ vs Ht).
    set (h1 := row_extend (h ++ [[]]) (List.length h) vs).
    destruct (row_extend_facts vs (h ++ [[]]) (List.length h))
      as (Hlen & Hsame & Hother). fold h1 in Hlen, Hsame, Hother.
    rewrite length_app in Hlen, Hsame. cbn [List.length] in Hlen, Hsame.
    destruct (new_list_rows h) as (Hnew & Hold).
    match goal with
    | |- context [Eval.run_tasks Data h1 ?r save ts] =>
        destruct (IH vss' h1 r Hts)
          as (h' & res' & E & Hr & Ht' & Hm & Hl & Hrows & Hvals)
    end.
    exists h', res'. rewrite E.
    cbn [Eval.reconstructions Eval.test_data Eval.measure_values] in Hr, Ht', Hm.
    split; [reflexivity|].
    split; [rewrite Hr, <- app_assoc; reflexivity|].
    split; [rewrite Ht', <- app_assoc; reflexivity|].
    split.
    { rewrite Hm, <- app_assoc, Hlen. cbn [List.length seq app].
      now replace (List.length h + 1)%nat with (S (List.length h)) by lia. }
    split; [rewrite Hl, Hlen; cbn [List.length]; lia|].
    split.
    { intros l Hl'. rewrite Hrows by lia. rewrite Hother by lia.
      now apply Hold. }
    cbn [List.length seq map]. f_equal.
    + rewrite Hrows by lia. rewrite Hsame by lia. now rewrite Hnew.
    + rewrite Hlen in Hvals.
      now replace (List.length h + 1)%nat with (S (List.length h)) in Hvals
        by lia.
Qed.

(** When every measure of every task returns a value, [run] returns a
    result table with one entry per task, in the order of the tasks: the
    test data of the task, the reconstruction of its observation (or
    [None] when reconstructions are not saved), and a list of its own
    with the values of the measures of the task on that reconstruction
    and the ground truth.  The values do not depend on whether the
    reconstructions are saved, and the lists that existed before are
    not changed. *)
Theorem run_results
        (Data : Type) (h : Eval.heap) (self : Eval.EvaluationTaskTable Data)
        (save : bool) (vss : list (list R)) :
  Forall2 (fun t vs => task_measured (Eval.task_measures t) t vs)
          (Eval.tasks self) vss ->
  exists h' res,
    Eval.run Data h self save = (h', Eval.Done res) /\
    Eval.reconstructions res
    = map (fun t =>
             if save
             then Some (Eval.reconstruct (Eval.task_reconstructor t)
                          (Eval.observation (Eval.task_test_data t)))
             else None) (Eval.tasks self) /\
    Eval.test_data res
    = map (fun t => Eval.TD (Eval.task_test_data t)) (Eval.tasks self) /\
    map (Eval.row h') (Eval.measure_values res) = vss /\
    NoDup (Eval.measure_values res) /\
    (forall l, (l < List.length h)%nat -> Eval.row h' l = Eval.row h l).
Proof.
  intros Hv. unfold Eval.run, Eval.result_table_init, Eval.new_list.
  cbn [List.length repeat].
  match goal with
  | |- context [Eval.run_tasks Data ?h0 ?r save _] =>
      destruct (run_tasks_ok Data save (Eval.tasks self) vss h0 r Hv)
        as (h' & res' & E & Hr & Ht & Hm & Hl & Hrows & Hvals)
  end.
  exists h', res'. rewrite E.
  cbn [Eval.reconstructions Eval.test_data Eval.measure_values app] in *.
  repeat split; try assumption.
  - now rewrite Hm.
  - rewrite Hm. apply seq_NoDup.
  - intros l Hlt. rewrite Hrows by (rewrite length_app; cbn; lia).
    now apply new_list_rows.
Qed.

(** ** Measures on a result table *)

Lemma eval_getitem_nth {A} (l : list A) (i : nat) (x : A) :
  nth_error l i = Some x -> Eval.getitem l (Z.of_nat i) = Some x.
Proof.
  intros H. assert (Hi : (i < List.length l)%nat)
    by (apply nth_error_Some; congruence).
  unfold Eval.getitem. cbv zeta.
  destruct (Z.ltb_spec (Z.of_nat i) 0); [lia|].
  destruct (Z.leb_spec 0 (Z.of_nat i)); [|lia].
  destruct (Z.ltb_spec (Z.of_nat i) (Z.of_nat (List.length l))); [|lia].
  cbn [andb]. now rewrite Nat2Z.id.
Qed.

Lemma to_list_indexes (n : nat) :
  Py.to_list (Py.Range 0 (Z.of_nat n) 1) = map Z.of_nat (seq 0 n).
Proof.
  rewrite to_list_files, Nat2Z.id. unfold prog. apply map_ext.
  intros k. lia.
Qed.

Lemma apply_measures_loop_ok
      (Data : Type) (self : Eval.EvaluationResultTable Data)
      (ms : list (Eval.Measure Data)) (L : nat -> nat) (W : nat -> list R)
      (idx : list nat) :
  (forall i, In i idx ->
     exists rc td,
       nth_error (Eval.reconstructions self) i = Some rc /\
       nth_error (Eval.test_data self) i = Some (Eval.TD td) /\
       nth_error (Eval.measure_values self) i = Some (L i) /\
       measured ms rc (Eval.ground_truth td) (W i)) ->
  forall h,
    Eval.apply_measures_loop Data h self ms (map Z.of_nat idx)
    = (fold_left (fun h i => row_extend h (L i) (W i)) idx h, Eval.Done tt).
Proof.
  induction idx as [|i idx IH]; intros H h; [reflexivity|].
  destruct (H i (or_introl eq_refl)) as (rc & td & Hr & Ht & Hm & Hw).
  cbn [map Eval.apply_measures_loop fold_left].
  rewrite (eval_getitem_nth _ _ _ Hr), (eval_getitem_nth _ _ _ Ht).
  destruct ms as [|m ms].
  - assert (E : W i = []) by (now inversion Hw).
    rewrite E. unfold row_extend at 2. cbn [fold_left].
    apply IH. intros j Hj. apply H. now right.
  - rewrite (eval_getitem_nth _ _ _ Hm).
    rewrite (append_values_ok Data _ _ _ _ Hw).
    apply IH. intros j Hj. apply H. now right.
Qed.

Lemma fold_rows_same (W : nat -> list R) (loc : nat) (idx : list nat) :
  forall h, (loc < List.length h)%nat ->
    let h' := fold_left (fun h i => row_extend h loc (W i)) idx h in
    List.length h' = List.length h /\
    Eval.row h' loc = Eval.row h loc ++ List.concat (map W idx).
Proof.
  induction idx as [|i idx IH]; intros h Hloc;
    cbn [fold_left map List.concat].
  - split; [reflexivity|]. now rewrite app_nil_r.
  - destruct (row_extend_facts (W i) h loc) as (Hlen & Hsame & _).
    destruct (IH (row_extend h loc (W i)) ltac:(lia)) as (H1 & H2).
    cbv zeta in *. split; [lia|].
    rewrite H2, Hsame by assumption. now rewrite <- app_assoc.
Qed.

Lemma fold_rows_distinct (W : nat -> list R) (L : nat -> nat)
      (idx : list nat) :
  forall h,
    NoDup (map L idx) ->
    (forall i, In i idx -> (L i < List.length h)%nat) ->
    let h' := fold_left (fun h i => row_extend h (L i) (W i)) idx h in
    List.length h' = List.length h /\
    (forall i, In i idx -> Eval.row h' (L i) = Eval.row h (L i) ++ W i) /\
    (forall l, ~ In l (map L idx) -> Eval.row h' l = Eval.row h l).
Proof.
  induction idx as [|i idx IH]; intros h Hnd Hlt; cbn [fold_left map].
  - split; [reflexivity|]. split; [intros i []|reflexivity].
  - cbn [map] in Hnd. inversion Hnd as [|? ? Hni Hnd']; subst.
    destruct (row_extend_facts (W i) h (L i)) as (Hlen & Hsame & Hother).
    destruct (IH (row_extend h (L i) (W i)) Hnd') as (H1 & H2 & H3).
    { intros j Hj. rewrite Hlen. apply Hlt. now right. }
    cbv zeta in *. split; [lia|]. split.
    + intros j [<-|Hj].
      * rewrite H3 by assumption. apply Hsame. apply Hlt. now left.
      * rewrite H2 by assumption. rewrite Hother; [reflexivity|].
        intros E. apply Hni. rewrite <- E. now apply in_map.
    + intros l Hl. rewrite H3 by (intros Hin; apply Hl; now right).
      apply Hother. intros ->. apply Hl. now left.
Qed.

Lemma Forall2_nth_error {A B} (P : A -> B -> Prop) (l : list A) :
  forall (m : list B) (i : nat) (a : A),
    Forall2 P l m -> nth_error l i = Some a ->
    exists b, nth_error m i = Some b /\ P a b /\ nth i m b = b.
Proof.
  induction l as [|x l IH]; intros m i a H Hi; [now destruct i|].
  inversion H as [|? y ? m' Hxy Hrest]; subst.
  destruct i as [|i]; cbn [nth_error nth] in *.
  - injection Hi as <-. eauto.
  - now apply IH.
Qed.

Lemma Forall2_same_length {A B} (P : A -> B -> Prop) (l : list A)
      (m : list B) :
  Forall2 P l m -> List.length l = List.length m.
Proof. induction 1; cbn [List.length]; congruence. Qed.

Lemma nth_error_combine {A B} (l : list A) : forall (m : list B) (i : nat),
  (i < List.length l)%nat -> List.length l = List.length m ->
  exists a b, nth_error l i = Some a /\ nth_error m i = Some b /\
              nth_error (combine l m) i = Some (a, b).
Proof.
  induction l as [|x l IH]; intros [|y m] i Hi Hlen; cbn [List.length] in *;
    try lia.
  destruct i as [|i]; cbn [nth_error combine]; [eauto|].
  apply IH; lia.
Qed.

Lemma seq_as_map (n : nat) : forall b,
  seq b n = map (fun i => (b + i)%nat) (seq 0 n).
Proof.
  induction n as [|n IH]; intros b; [reflexivity|].
  cbn [seq map]. rewrite Nat.add_0_r. f_equal.
  rewrite (IH (S b)), <- (seq_shift n 0), map_map. apply map_ext.
  intros i. lia.
Qed.

Lemma run_detailed
      (Data : Type) (h : Eval.heap) (self : Eval.EvaluationTaskTable Data)
      (save : bool) (vss : list (list R)) :
  Forall2 (fun t vs => task_measured (Eval.task_measures t) t vs)
          (Eval.tasks self) vss ->
  exists h' res,
    Eval.run Data h self save = (h', Eval.Done res) /\
    Eval.reconstructions res
    = map (fun t =>
             if save
             then Some (Eval.reconstruct (Eval.task_reconstructor t)
                          (Eval.observation (Eval.task_test_data t)))
             else None) (Eval.tasks self) /\
    Eval.test_data res
    = map (fun t => Eval.TD (Eval.task_test_data t)) (Eval.tasks self) /\
    Eval.measure_values res
    = seq (S (List.length h)) (List.length (Eval.tasks self)) /\
    List.length h'
    = (S (List.length h) + List.length (Eval.tasks self))%nat /\
    map (Eval.row h') (Eval.measure_values res) = vss.
Proof.
  intros Hv. unfold Eval.run, Eval.result_table_init, Eval.new_list.
  cbn [List.length repeat].
  match goal with
  | |- context [Eval.run_tasks Data ?h0 ?r save _] =>
      destruct (run_tasks_ok Data save (Eval.tasks self) vss h0 r Hv)
        as (h' & res' & E & Hr & Ht & Hm & Hl & Hrows & Hvals)
  end.
  exists h', res'. rewrite E.
  cbn [Eval.reconstructions Eval.test_data Eval.measure_values app] in *.
  rewrite length_app in *. cbn [List.length] in *.
  replace (List.length h + 1)%nat with (S (List.length h)) in * by lia.
  repeat split; try assumption. now rewrite Hm.
Qed.

(** After [run] with saved reconstructions, [apply_measures] with
    further measures and no index appends, to the list of every task,
    the values of the further measures for that task, behind the values
    that [run] put there: the lists of the tasks are separate
    objects. *)
Theorem run_then_apply_measures
        (Data : Type) (h : Eval.heap) (self : Eval.EvaluationTaskTable Data)
        (ms : list (Eval.Measure Data)) (vss wss : list (list R)) :
  Forall2 (fun t vs => task_measured (Eval.task_measures t) t vs)
          (Eval.tasks self) vss ->
  Forall2 (fun t ws => task_measured ms t ws) (Eval.tasks self) wss ->
  exists h1 res h2,
    Eval.run Data h self true = (h1, Eval.Done res) /\
    Eval.apply_measures Data h1 res ms Eval.INone = (h2, Eval.Done tt) /\
    map (Eval.row h2) (Eval.measure_values res) = map2 (@app R) vss wss.
Proof.
  intros Hv Hw.
  destruct (run_detailed Data h self true vss Hv)
    as (h1 & res & E & Hr & Ht & Hm & Hl & Hvals).
  set (n := List.length (Eval.tasks self)) in *.
  set (L := fun i => (S (List.length h) + i)%nat).
  set (W := fun i => nth i wss []).
  assert (Hloop : forall i, In i (seq 0 n) ->
             exists rc td,
               nth_error (Eval.reconstructions res) i = Some rc /\
               nth_error (Eval.test_data res) i = Some (Eval.TD td) /\
               nth_error (Eval.measure_values res) i = Some (L i) /\
               measured ms rc (Eval.ground_truth td) (W i)).
  { intros i Hi. apply in_seq in Hi.
    destruct (nth_error (Eval.tasks self) i) as [t|] eqn:Et;
      [|apply nth_error_None in Et; fold n in Et; lia].
    destruct (Forall2_nth_error _ _ _ _ _ Hw Et) as (ws & Hws & Hmeas & Hnth).
    eexists _, (Eval.task_test_data t).
    rewrite Hr, Ht, Hm, !nth_error_map, Et, nth_error_seq.
    destruct (Nat.ltb_spec i n); [|lia]. cbn [option_map].
    repeat split. unfold W.
    rewrite (nth_error_nth _ _ [] Hws). exact Hmeas. }
  exists h1, res. eexists. split; [exact E|].
  unfold Eval.apply_measures.
  assert (Hn : List.length (Eval.reconstructions res) = n)
    by (rewrite Hr; apply length_map).
  rewrite Hn, to_list_indexes.
  rewrite (apply_measures_loop_ok Data res ms L W (seq 0 n) Hloop).
  split; [reflexivity|].
  destruct (fold_rows_distinct W L (seq 0 n) h1) as (_ & Hrows & _).
  { unfold L. rewrite <- seq_as_map. apply seq_NoDup. }
  { intros i Hi. apply in_seq in Hi. unfold L. lia. }
  cbv zeta in Hrows.
  rewrite <- Hvals, Hm, (seq_as_map n (S (List.length h))). fold L.
  rewrite !map_map.
  assert (Ew : map W (seq 0 n) = wss).
  { unfold W, n. rewrite (Forall2_same_length _ _ _ Hw). symmetry.
    apply list_as_map_nth. }
  rewrite <- Ew, map2_map_map. apply map_ext_in. intros i Hi.
  now apply Hrows.
Qed.

(** ** Default lists and errors of a result table *)

(** A result table made with reconstructions and test data but without
    [measure_values] gets [[[]] * n]: one list, entered [n] times.  After
    [apply_measures] without an index, every entry of [measure_values]
    is that one list, and it holds the values of all reconstructions,
    those of the first one first. *)
Theorem default_measure_values_are_one_list
        (Data : Type) (h : Eval.heap) (recs : list (option Data))
        (tds : list (Eval.TestData Data)) (ms : list (Eval.Measure Data))
        (wss : list (list R)) :
  recs <> [] ->
  List.length tds = List.length recs ->
  Forall2 (fun p ws => measured ms (fst p) (Eval.ground_truth (snd p)) ws)
          (combine recs tds) wss ->
  let made := Eval.result_table_init Data h (Some recs)
                (Some (map Eval.TD tds)) None in
  exists h1,
    Eval.apply_measures Data (fst made) (snd made) ms Eval.INone
    = (h1, Eval.Done tt) /\
    List.length (Eval.measure_values (snd made)) = List.length recs /\
    Forall (fun loc => Eval.row h1 loc = List.concat wss)
           (Eval.measure_values (snd made)).
Proof.
  intros Hne Hlen Hw made.
  assert (Emade : made = (h ++ [[]],
                          Eval.Build_EvaluationResultTable Data recs
                            (map Eval.TD tds)
                            (repeat (List.length h) (List.length recs)))).
  { unfold made, Eval.result_table_init, Eval.new_list.
    destruct tds as [|td tds]; [|reflexivity].
    destruct recs; [contradiction|discriminate]. }
  rewrite Emade. cbn [fst snd Eval.measure_values Eval.reconstructions].
  set (n := List.length recs) in *.
  set (tbl := Eval.Build_EvaluationResultTable Data recs (map Eval.TD tds)
                (repeat (List.length h) n)).
  set (W := fun i => nth i wss []).
  assert (Hcomb : List.length (combine recs tds) = n)
    by (rewrite length_combine; lia).
  assert (Hloop : forall i, In i (seq 0 n) ->
             exists rc td,
               nth_error (Eval.reconstructions tbl) i = Some rc /\
               nth_error (Eval.test_data tbl) i = Some (Eval.TD td) /\
               nth_error (Eval.measure_values tbl) i = Some (List.length h) /\
               measured ms rc (Eval.ground_truth td) (W i)).
  { intros i Hi. apply in_seq in Hi.
    destruct (nth_error_combine recs tds i ltac:(lia) ltac:(lia))
      as (rc & td & Hrc & Htd & Hp).
    destruct (Forall2_nth_error _ _ _ _ _ Hw Hp) as (ws & Hws & Hmeas & _).
    exists rc, td. cbn [Eval.reconstructions Eval.test_data
      Eval.measure_values tbl].
    rewrite nth_error_map, Htd, nth_error_repeat by lia.
    repeat split; [assumption|]. unfold W.
    rewrite (nth_error_nth _ _ [] Hws). exact Hmeas. }
  unfold Eval.apply_measures. cbn [Eval.reconstructions tbl]. fold n.
  rewrite to_list_indexes.
  rewrite (apply_measures_loop_ok Data tbl ms (fun _ => List.length h) W
             (seq 0 n) Hloop).
  eexists. split; [reflexivity|]. split; [apply repeat_length|].
  destruct (fold_rows_same W (List.length h) (seq 0 n) (h ++ [[]]))
    as (_ & Hrow).
  { rewrite length_app. cbn [List.length]. lia. }
  cbv zeta in Hrow.
  assert (Ew : map W (seq 0 n) = wss).
  { unfold W. rewrite <- Hcomb, (Forall2_same_length _ _ _ Hw). symmetry.
    apply list_as_map_nth. }
  rewrite Ew in Hrow. destruct (new_list_rows h) as (Hnew & _).
  rewrite Hnew in Hrow. cbn [app] in Hrow.
  apply Forall_forall. intros loc Hloc. apply repeat_spec in Hloc.
  now subst loc.
Qed.

(** [apply_measures] raises [ValueError] for an index that is neither
    [None], a scalar nor a list, and [IndexError] for a scalar index
    outside [-n .. n - 1], [n] the number of reconstructions, both
    before a measure is applied; on a table made with reconstructions
    only, whose test data are the empty lists of the default, it raises
    [AttributeError], also when there is no measure to apply. *)
Theorem apply_measures_errors
        (Data : Type) (h : Eval.heap) (ms : list (Eval.Measure Data)) :
  (forall self,
     Eval.apply_measures Data h self ms Eval.IOther
     = (h, Eval.Fail Eval.ValueError)) /\
  (forall self i,
     let n := Z.of_nat (List.length (Eval.reconstructions self)) in
     i < - n \/ n <= i ->
     Eval.apply_measures Data h self ms (Eval.IScalar i)
     = (h, Eval.Fail Eval.IndexError)) /\
  (forall rc recs,
     let made := Eval.result_table_init Data h (Some (rc :: recs)) None None in
     Eval.apply_measures Data (fst made) (snd made) ms Eval.INone
     = (fst made, Eval.Fail Eval.AttributeError)).
Proof.
  split; [reflexivity|]. split.
  - intros self i n Hi. cbn [Eval.apply_measures Eval.apply_measures_loop].
    unfold Eval.getitem. cbv zeta. fold n.
    destruct (Z.ltb_spec i 0).
    + destruct (Z.leb_spec 0 (i + n)); [lia|]. reflexivity.
    + destruct (Z.leb_spec 0 i); [|lia].
      destruct (Z.ltb_spec i n); [lia|]. reflexivity.
  - intros rc recs made.
    unfold made, Eval.result_table_init, Eval.new_list.
    cbn [fst snd Eval.apply_measures Eval.reconstructions].
    rewrite to_list_indexes. cbn [List.length seq map repeat].
    cbn [Eval.apply_measures_loop].
    change (Z.of_nat 0) with 0.
    unfold Eval.getitem. cbv zeta.
    cbn [Eval.reconstructions Eval.test_data List.length].
    change (0 <? 0) with false. cbv iota.
    change (0 <=? 0) with true.
    destruct (Z.ltb_spec 0 (Z.of_nat (S (List.length recs)))); [|lia].
    cbn [andb Z.to_nat nth_error]. reflexivity.
Qed.

(** After [run] without saved reconstructions on a table with a task,
    [apply_measures] with the euclidean distance raises
    [AttributeError] and leaves the values of [run] as they are: the
    table holds [None] for every reconstruction. *)
Theorem run_unsaved_then_apply_measures
        (h : Eval.heap) (self : Eval.EvaluationTaskTable (list R))
        (vss : list (list R)) :
  Eval.tasks self <> [] ->
  Forall2 (fun t vs => task_measured (Eval.task_measures t) t vs)
          (Eval.tasks self) vss ->
  exists h1 res,
    Eval.run (list R) h self false = (h1, Eval.Done res) /\
    Eval.reconstructions res = map (fun _ => None) (Eval.tasks self) /\
    Eval.apply_measures (list R) h1 res [Eval.L2Measure] Eval.INone
    = (h1, Eval.Fail Eval.AttributeError).
Proof.
  intros Hne Hv.
  destruct (run_detailed (list R) h self false vss Hv)
    as (h1 & res & E & Hr & Ht & Hm & Hl & Hvals).
  exists h1, res. split; [exact E|]. split; [exact Hr|].
  unfold Eval.apply_measures. rewrite to_list_indexes.
  rewrite Hr, length_map.
  destruct (Eval.tasks self) as [|t ts] eqn:Ets; [contradiction|].
  cbn [List.length seq map] in *. cbn [Eval.apply_measures_loop].
  change (Z.of_nat 0) with 0. unfold Eval.getitem. cbv zeta.
  rewrite Hr, Ht, Hm. cbn [List.length].
  change (0 <? 0) with false. cbv iota. change (0 <=? 0) with true.
  destruct (Z.ltb_spec 0 (Z.of_nat (S (List.length ts)))); [|lia].
  cbn [andb Z.to_nat nth_error Eval.append_values Eval.apply Eval.L2Measure].
  reflexivity.
Qed.

(** * Instances of the further properties *)

Lemma table_example_measured :
  Forall2 (fun t vs => task_measured (Eval.task_measures t) t vs)
          (Eval.tasks table_example) [[distance_example]] /\
  Forall2 (fun t vs => task_measured [Eval.L2Measure] t vs)
          (Eval.tasks table_example) [[distance_example]].
Proof.
  split; (constructor; [|constructor]);
    (constructor; [reflexivity|constructor]).
Qed.

Lemma init_stores_floor_at_most_one_witness :
  min_photon_count (lodopab true (Some 1%R))
  = option_map (fun m => Rmin m 1) (Some 2%R) /\
  get_len (lodopab true (Some 1%R)) train = 35820.
Proof.
  destruct (proj2 (init_stores_floor_at_most_one "post-log" (Some 2%R))
              (lodopab true (Some 1%R))
              (proj1 (proj2 (proj2 init_example))))
    as (_ & H2 & _ & H4 & _).
  split; assumption.
Defined.

Lemma check_for_lodopab_iff_witness :
  check_for_lodopab (lodopab true None) store_example = true.
Proof.
  refine (proj2 (check_for_lodopab_iff (lodopab true None) store_example _)
                (store_example_ok _ _)).
  intros p. destruct p; cbn; lia.
Defined.

Lemma trafo_pre_log_other_floor_witness :
  get_observation_trafo mu_max_example (lodopab false (Some 0.5%R)) 1
    (d := D3) [[0%R]]
  = Raise ValueError.
Proof.
  exact (proj2 (trafo_pre_log_other_floor mu_max_example
                  (lodopab false (Some 0.5%R)) 0.5%R eq_refl
                  (other_floor_example false))
               [[0%R]]).
Defined.

Lemma trafo_pre_log_is_exp_of_post_log_witness :
  exists o,
    get_observation_trafo mu_max_example (lodopab true (Some 0.5%R)) 1
      (d := D2) [0%R; 2%R] = Ok o /\
    get_observation_trafo mu_max_example (lodopab false (Some 0.5%R)) 1
      (d := D2) [0%R; 2%R]
    = Ok (amap (d := D2) (fun v => exp (- (v * mu_max_example))) o).
Proof.
  apply (trafo_pre_log_is_exp_of_post_log mu_max_example
           (lodopab true (Some 0.5%R)) (lodopab false (Some 0.5%R)) 1 D2).
  - reflexivity.
  - reflexivity.
  - reflexivity.
  - unfold mu_max_example. lra.
  - intros m E. injection E as <-. lra.
  - right. reflexivity.
Defined.

Lemma trafo_replaces_floor_only_witness :
  get_observation_trafo mu_max_example (lodopab true (Some 0.5%R)) 1
    (d := D2)
    [(- ln (ORIG_MIN_PHOTON_COUNT / PHOTONS_PER_PIXEL) / mu_max_example)%R;
     (- ln (1 / PHOTONS_PER_PIXEL) / mu_max_example)%R]
  = Ok [(- ln (0.5 / PHOTONS_PER_PIXEL) / mu_max_example)%R;
        (- ln (1 / PHOTONS_PER_PIXEL) / mu_max_example)%R].
Proof.
  apply (trafo_replaces_floor_only mu_max_example
           (lodopab true (Some 0.5%R)) 0.5%R 1%R).
  - reflexivity.
  - apply other_floor_example.
  - unfold mu_max_example. lra.
  - lra.
Defined.

Lemma generator_yields_all_samples_witness :
  g_raised (generator mu_max_example (lodopab true None) store_example test)
  = None.
Proof.
  exact (proj1 (generator_yields_all_samples mu_max_example
                  (lodopab true None) store_example test
                  (store_example_ok _ _))).
Defined.

Lemma generator_missing_file_witness :
  g_raised (generator mu_max_example (lodopab true None) store_first_file
              train)
  = Some OSError /\
  List.length (g_items (generator mu_max_example (lodopab true None)
                          store_first_file train))
  = 128%nat.
Proof.
  assert (Hj : 0 <= 1 < num_files (lodopab true None) train)
    by (vm_compute; split; [discriminate|reflexivity]).
  assert (Hfull : forall i, 0 <= i < 1 ->
            exists rg ro, store_first_file ground_truth train i = Some rg /\
              store_first_file observation train i = Some ro /\
              Z.of_nat (List.length rg) = NUM_SAMPLES_PER_FILE /\
              Z.of_nat (List.length ro) = NUM_SAMPLES_PER_FILE).
  { intros i Hi. assert (E : i = 0) by lia. subst i.
    destruct (store_example_ok true None ground_truth train 0)
      as (rg & Hg & Hlg); [lia|cbn; lia|].
    destruct (store_example_ok true None observation train 0)
      as (ro & Ho & Hlo); [lia|cbn; lia|].
    exists rg, ro. repeat split; assumption. }
  rewrite (proj1 (generator_missing_file mu_max_example (lodopab true None)
                    store_first_file train 1 Hj Hfull) eq_refl).
  split; reflexivity.
Defined.

Lemma get_samples_is_get_sample_pointwise_witness :
  exists obs gt,
    snd (get_samples mu_max_example [] (lodopab true (Some 0.5%R))
           store_example (KRange (Py.Range 0 2 1)) train
           (Some (OBool true, OBool true)))
    = Ok (Some obs, Some gt).
Proof.
  destruct (get_samples_is_get_sample_pointwise mu_max_example []
              (lodopab true (Some 0.5%R)) store_example train
              (Py.Range 0 2 1))
    as (obs & gt & H & _).
  - apply store_example_ok.
  - unfold range_ok. cbn. lia.
  - vm_compute. discriminate.
  - right. vm_compute. discriminate.
  - exists obs, gt. exact H.
Defined.

Lemma get_samples_index_error_iff_witness :
  snd (get_samples mu_max_example [] (lodopab true None) store_example
         (KRange (Py.Range 0 40000 1)) train None)
  = Raise IndexError.
Proof.
  refine (proj2 (proj1 (get_samples_index_error_iff mu_max_example []
                          (lodopab true None) store_example
                          (KRange (Py.Range 0 40000 1)) (Py.Range 0 40000 1)
                          train None eq_refl _)) _).
  - cbn. lia.
  - split; [cbn; lia|]. right. vm_compute. discriminate.
Defined.

Lemma get_samples_slice_bounds_witness :
  snd (get_samples mu_max_example [] (lodopab true None) store_example
         (KSlice (Py.Slice (Some (- 2)) None None)) train
         (Some (OBool true, OBool true)))
  = Ok (Some (map (sample_at store_example observation train)
                  (Py.to_list (Py.Range (35820 - 2) 35820 1))),
        Some (map (sample_at store_example ground_truth train)
                  (Py.to_list (Py.Range (35820 - 2) 35820 1)))) /\
  get_samples mu_max_example [] (lodopab true None) store_example
    (KSlice (Py.Slice (Some 5) (Some 3) None)) train None
  = ([], Raise IndexError).
Proof.
  destruct (get_samples_slice_bounds mu_max_example [] (lodopab true None)
              store_example train) as (H1 & _ & H3).
  split.
  - apply (H1 2).
    + cbn. lia.
    + apply store_example_ok.
    + left. reflexivity.
    + reflexivity.
  - apply H3. lia.
Defined.

Lemma get_samples_events_witness :
  exists t,
    fst (get_samples mu_max_example [] (lodopab true None) store_example
           (KRange (Py.Range 0 2 1)) train (Some (OBool true, OBool false)))
    = ev_new observation :: t.
Proof.
  pose proof (get_samples_events mu_max_example [] (lodopab true None)
                store_example (Py.Range 0 2 1) train (OBool true)
                (OBool false)) as H.
  cbv zeta in H. rewrite H.
  - eexists. reflexivity.
  - apply store_example_ok.
  - unfold range_ok. cbn. lia.
  - vm_compute. discriminate.
  - exact I.
  - exact I.
Defined.

Lemma get_sample_partial_witness :
  get_sample mu_max_example (lodopab true None) store_example 0 train
    (Some (OBool false, OBool false))
  = ([], Ok (None, None)).
Proof.
  refine (proj1 (get_sample_partial mu_max_example (lodopab true None)
                   store_example 0 train ground_truth [] _)).
  cbn. lia.
Defined.

Lemma get_sample_into_buffers_witness :
  snd (get_sample mu_max_example (lodopab true None) store_example 0 train
         (Some (OArr [], OArr [])))
  = snd (get_sample mu_max_example (lodopab true None) store_example 0 train
           (Some (OBool true, OBool true))).
Proof.
  refine (proj1 (get_sample_into_buffers mu_max_example (lodopab true None)
                   store_example 0 train [] [] (store_example_ok _ _) _)).
  cbn. lia.
Defined.

Lemma get_samples_into_longer_buffer_witness :
  snd (get_samples mu_max_example [] (lodopab false None) store_example
         (KRange (Py.Range 0 2 1)) train
         (Some (OArr [[0%R]; [0%R]; [0%R]], OBool false)))
  = Ok (Some (map (fun k => trafo_single mu_max_example (lodopab false None)
                              (sample_at store_example observation train k))
                  (Py.to_list (Py.Range 0 2 1))
              ++ map (trafo_single mu_max_example (lodopab false None))
                     (skipn (Z.to_nat (Py.len (Py.Range 0 2 1)))
                            [[0%R]; [0%R]; [0%R]])),
        None).
Proof.
  apply (get_samples_into_longer_buffer mu_max_example []
           (lodopab false None) store_example train (Py.Range 0 2 1)
           [[0%R]; [0%R]; [0%R]]).
  - apply store_example_ok.
  - unfold range_ok. cbn. lia.
  - vm_compute. discriminate.
  - vm_compute. discriminate.
  - left. left. reflexivity.
Defined.

Lemma l2_measure_is_a_distance_witness :
  exists v,
    Eval.apply Eval.L2Measure (Some [1%R; 0%R]) (Some [0%R; 0%R])
    = Eval.Done v /\
    Eval.apply Eval.L2Measure (Some [0%R; 0%R]) (Some [1%R; 0%R])
    = Eval.Done v /\
    (0 <= v)%R /\ (v = 0%R <-> [1%R; 0%R] = [0%R; 0%R]).
Proof.
  apply (l2_measure_is_a_distance [1%R; 0%R] [0%R; 0%R]). reflexivity.
Defined.

Lemma measure_by_str_l2_witness :
  Eval.measure_by_str "L2" = Eval.Done Eval.L2Measure /\
  Eval.measure_by_str "l1" = Eval.Fail Eval.ValueError.
Proof.
  split.
  - apply (proj1 (measure_by_str_l2 "L2")). right. reflexivity.
  - apply (proj2 (measure_by_str_l2 "l1")); discriminate.
Defined.

Lemma run_results_witness :
  exists h' res,
    Eval.run (list R) [] table_example false = (h', Eval.Done res) /\
    Eval.reconstructions res = [None] /\
    map (Eval.row h') (Eval.measure_values res) = [[distance_example]].
Proof.
  destruct (run_results (list R) [] table_example false [[distance_example]])
    as (h' & res & E & Hr & _ & Hv & _).
  - apply table_example_measured.
  - exists h', res. repeat split; assumption.
Defined.

Lemma run_then_apply_measures_witness :
  exists h1 res h2,
    Eval.run (list R) [] table_example true = (h1, Eval.Done res) /\
    Eval.apply_measures (list R) h1 res [Eval.L2Measure] Eval.INone
    = (h2, Eval.Done tt) /\
    map (Eval.row h2) (Eval.measure_values res)
    = [[distance_example; distance_example]].
Proof.
  apply (run_then_apply_measures (list R) [] table_example [Eval.L2Measure]
           [[distance_example]] [[distance_example]]).
  - apply table_example_measured.
  - apply table_example_measured.
Defined.

Lemma default_measure_values_are_one_list_witness :
  let made := Eval.result_table_init (list R) []
                (Some [Some [1%R]; Some [1%R]])
                (Some (map Eval.TD [test_data_example; test_data_example]))
                None in
  exists h1,
    Eval.apply_measures (list R) (fst made) (snd made) [Eval.L2Measure]
      Eval.INone
    = (h1, Eval.Done tt) /\
    List.length (Eval.measure_values (snd made)) = 2%nat /\
    Forall (fun loc => Eval.row h1 loc = [distance_example; distance_example])
           (Eval.measure_values (snd made)).
Proof.
  apply (default_measure_values_are_one_list (list R) []
           [Some [1%R]; Some [1%R]] [test_data_example; test_data_example]
           [Eval.L2Measure] [[distance_example]; [distance_example]]).
  - discriminate.
  - reflexivity.
  - repeat constructor.
Defined.

Lemma apply_measures_errors_witness :
  Eval.apply_measures (list R) []
    (Eval.Build_EvaluationResultTable (list R) [None] [Eval.EmptyList] [0%nat])
    [Eval.L2Measure] (Eval.IScalar 1)
  = ([], Eval.Fail Eval.IndexError).
Proof.
  apply (proj1 (proj2 (apply_measures_errors (list R) [] [Eval.L2Measure]))).
  right. cbn. lia.
Defined.

Lemma run_unsaved_then_apply_measures_witness :
  exists h1 res,
    Eval.run (list R) [] table_example false = (h1, Eval.Done res) /\
    Eval.reconstructions res = [None] /\
    Eval.apply_measures (list R) h1 res [Eval.L2Measure] Eval.INone
    = (h1, Eval.Fail Eval.AttributeError).
Proof.
  apply (run_unsaved_then_apply_measures [] table_example
           [[distance_example]]).
  - discriminate.
  - apply table_example_measured.
Defined.

Lemma get_samples_skipped_file_witness :
  get_samples mu_max_example [] (lodopab true None) store_example
    (KRange (Py.Range 0 1000 300)) train (Some (OBool false, OBool true))
  = ([ev_new ground_truth; ev_open ground_truth train 0;
      ev_open ground_truth train 1],
     Raise ZeroDivisionError).
Proof.
  apply (get_samples_skipped_file mu_max_example [] (lodopab true None)
           store_example (Py.Range 0 1000 300) train 1 (OBool false)
           (OBool true)).
  - apply store_example_ok.
  - unfold range_ok. cbn. lia.
  - vm_compute. split; discriminate.
  - intros i Hi.
    change (Py.r_start (Py.Range 0 1000 300) / NUM_SAMPLES_PER_FILE) with 0
      in Hi.
    assert (E : i = 0) by lia. subst i. reflexivity.
  - vm_compute. discriminate.
  - exact I.
  - exact I.
  - right. discriminate.
Defined.
